(** * Revel template loader and template-engine registry

    A shallow embedding of the template subsystem of the revel fork:
    - [template_engine/engine.go] and its second version (the engine
      registry: [AddTemplate], [Clear], [RegisterTemplater], ...),
    - the loader ([TemplateLoader.Refresh], [GoTemplater],
      [parseTemplateError], [TemplateLoader.Template], [Slug]).

    A Go [string] is a byte sequence: it is a Rocq [string].  Go's [int]
    is taken to be 64 bits wide and is a [Z].  Maps are [gmap]s.  A nil
    pointer is [None]. *)

From Stdlib Require Import ZArith Lia Ascii String Bool List.
From stdpp Require Import base option list strings gmap.

Local Open Scope string_scope.

(** ** The parts of Go's standard library the code calls *)

Module GoLib.

(** *** Bytes *)

Definition byteBetween (lo hi c : ascii) : bool :=
  (nat_of_ascii lo <=? nat_of_ascii c)%nat && (nat_of_ascii c <=? nat_of_ascii hi)%nat.

(** [c < utf8.RuneSelf] *)
Definition isASCII (c : ascii) : bool := (nat_of_ascii c <? 128)%nat.

Definition isUpper (c : ascii) : bool := byteBetween "A" "Z" c.
Definition isLower (c : ascii) : bool := byteBetween "a" "z" c.
Definition isDigit (c : ascii) : bool := byteBetween "0" "9" c.

(** [c += 'a' - 'A'] for an upper-case ASCII letter. *)
Definition lowerByte (c : ascii) : ascii :=
  if isUpper c then ascii_of_nat (nat_of_ascii c + 32) else c.

(** The class [\s] of Go's regexp syntax: [\t\n\f\r ]. *)
Definition isReSpace (c : ascii) : bool :=
  Ascii.eqb c "009" || Ascii.eqb c "010" || Ascii.eqb c "012"
  || Ascii.eqb c "013" || Ascii.eqb c " ".

(** [asciiSpace] of package strings: [\t\n\v\f\r ]. *)
Definition isAsciiSpace (c : ascii) : bool :=
  isReSpace c || Ascii.eqb c "011".

Fixpoint allBytes (p : ascii -> bool) (s : string) : bool :=
  match s with
  | EmptyString => true
  | String c s' => p c && allBytes p s'
  end.

Fixpoint mapBytes (f : ascii -> ascii) (s : string) : string :=
  match s with
  | EmptyString => EmptyString
  | String c s' => String (f c) (mapBytes f s')
  end.

Fixpoint filterBytes (p : ascii -> bool) (s : string) : string :=
  match s with
  | EmptyString => EmptyString
  | String c s' => if p c then String c (filterBytes p s') else filterBytes p s'
  end.

Fixpoint dropWhile (p : ascii -> bool) (s : string) : string :=
  match s with
  | EmptyString => EmptyString
  | String c s' => if p c then dropWhile p s' else s
  end.

(** Drops the longest suffix whose bytes all satisfy [p]. *)
Fixpoint dropWhileEnd (p : ascii -> bool) (s : string) : string :=
  match s with
  | EmptyString => EmptyString
  | String c s' =>
      match dropWhileEnd p s' with
      | EmptyString => if p c then EmptyString else String c EmptyString
      | r => String c r
      end
  end.

Fixpoint memByte (c : ascii) (cutset : string) : bool :=
  match cutset with
  | EmptyString => false
  | String d cs => Ascii.eqb c d || memByte c cs
  end.

(** *** Package unicode

    The code reaches the Unicode tables through [strings.ToLower] and
    [strings.TrimSpace].  Both have a byte-wise path for ASCII-only
    text, which is written out below; the table-driven path for text
    with a byte [>= utf8.RuneSelf] is the library's own. *)
Class Unicode := {
  (** [strings.Map(unicode.ToLower, s)] *)
  mapToLower : string -> string;
  (** [strings.TrimFunc(s, unicode.IsSpace)] *)
  trimFuncIsSpace : string -> string
}.

(** *** Package strings *)

Definition ToLower `{Unicode} (s : string) : string :=
  if allBytes isASCII s then mapBytes lowerByte s else mapToLower s.

Definition TrimSpace `{Unicode} (s : string) : string :=
  if allBytes isASCII s
  then dropWhileEnd isAsciiSpace (dropWhile isAsciiSpace s)
  else trimFuncIsSpace s.

(** [strings.Trim(s, cutset)] for an ASCII cutset. *)
Definition Trim (s cutset : string) : string :=
  dropWhileEnd (fun c => memByte c cutset) (dropWhile (fun c => memByte c cutset) s).

(** [strings.Index(s, sep)]; [None] stands for the result [-1]. *)
Fixpoint Index (s sep : string) : option nat :=
  if String.prefix sep s then Some 0%nat
  else match s with
       | EmptyString => None
       | String _ s' => S <$> Index s' sep
       end.

(** [strings.HasPrefix] *)
Definition HasPrefix (s pre : string) : bool := String.prefix pre s.

(** [strings.Split(s, sep)] for a separator of one byte. *)
Fixpoint Split (s : string) (sep : ascii) : list string :=
  match s with
  | EmptyString => [EmptyString]
  | String c s' =>
      if Ascii.eqb c sep then EmptyString :: Split s' sep
      else match Split s' sep with
           | [] => [String c EmptyString]
           | w :: ws => String c w :: ws
           end
  end.

(** *** Slices of a string

    [s[lo:]], [s[:hi]] and [s[lo:hi]]; out of range they panic, which
    is [None]. *)
Fixpoint sliceFrom (s : string) (lo : nat) {struct lo} : option string :=
  match lo with
  | O => Some s
  | S lo' => match s with
             | EmptyString => None
             | String _ s' => sliceFrom s' lo'
             end
  end.

Fixpoint sliceTo (s : string) (hi : nat) {struct hi} : option string :=
  match hi with
  | O => Some EmptyString
  | S hi' => match s with
             | EmptyString => None
             | String c s' => String c <$> sliceTo s' hi'
             end
  end.

Definition slice (s : string) (lo hi : nat) : option string :=
  if (lo <=? hi)%nat
  then s' ← sliceTo s hi; sliceFrom s' lo
  else None.

(** *** Package strconv *)

Definition maxInt : Z := 9223372036854775807.
Definition minInt : Z := -9223372036854775808.

Definition digitVal (c : ascii) : Z := Z.of_nat (nat_of_ascii c - 48).

Fixpoint digitsVal (acc : Z) (s : string) : Z :=
  match s with
  | EmptyString => acc
  | String c s' => digitsVal (10 * acc + digitVal c) s'
  end.

(** [strconv.Atoi(s)]: the value and whether the error is nil.  A
    syntax error gives 0, a value out of range the nearest bound. *)
Definition Atoi (s : string) : Z * bool :=
  let '(neg, ds) :=
    match s with
    | String "-" s' => (true, s')
    | String "+" s' => (false, s')
    | _ => (false, s)
    end in
  match ds with
  | EmptyString => (0, false)
  | _ =>
      if allBytes isDigit ds then
        let v := if neg : bool then - digitsVal 0 ds else digitsVal 0 ds in
        if v >? maxInt then (maxInt, false)
        else if v <? minInt then (minInt, false)
        else (v, true)
      else (0, false)
  end%Z.

(** *** Package path *)

(** The loop of [path.Ext], from the last byte backwards, as one pass
    from the front: the suffix at the last dot after the last slash. *)
Fixpoint Ext (p : string) : string :=
  match p with
  | EmptyString => EmptyString
  | String c p' =>
      match Ext p' with
      | EmptyString =>
          if Ascii.eqb c "." && negb (memByte "/" p') then p else EmptyString
      | e => e
      end
  end.

(** *** Package regexp

    The three patterns of the code are sequences of classes of bytes,
    one of them under [+].  A match is the leftmost one, and at its
    start the one a backtracking search finds first. *)
Inductive Atom : Type :=
| One (p : ascii -> bool)       (* a class, once *)
| Many1 (p : ascii -> bool).    (* a class under [+], greedy *)

Definition Regexp : Type := list Atom.

(** The length of the match of [re] that starts at the head of [s]. *)
Fixpoint matchHere (re : Regexp) (s : string) : option nat :=
  match re with
  | [] => Some 0%nat
  | One p :: re' =>
      match s with
      | String c s' => if p c then S <$> matchHere re' s' else None
      | EmptyString => None
      end
  | Many1 p :: re' =>
      (fix many (s : string) : option nat :=
         match s with
         | String c s' =>
             if p c then
               match many s' with
               | Some n => Some (S n)
               | None => S <$> matchHere re' s'
               end
             else None
         | EmptyString => None
         end) s
  end.

(** [re.FindStringIndex(s)]: the bounds [i0, i1) of the leftmost match. *)
Fixpoint FindStringIndex (re : Regexp) (s : string) : option (nat * nat) :=
  match matchHere re s with
  | Some n => Some (0, n)%nat
  | None =>
      match s with
      | EmptyString => None
      | String _ s' =>
          '(i0, i1) ← FindStringIndex re s'; Some (S i0, S i1)
      end
  end.

(** [re.ReplaceAllString(s, repl)] for a pattern without empty matches
    and a replacement without [$]: [skip] bytes of the current match
    are still to be passed over. *)
Fixpoint replaceAll (re : Regexp) (repl : string) (skip : nat) (s : string) : string :=
  match s with
  | EmptyString => EmptyString
  | String c s' =>
      match skip with
      | S k => replaceAll re repl k s'
      | O =>
          match matchHere re s with
          | Some (S n) => repl +:+ replaceAll re repl n s'
          | _ => String c (replaceAll re repl 0 s')
          end
      end
  end.

Definition ReplaceAllString (re : Regexp) (s repl : string) : string :=
  replaceAll re repl 0 s.

End GoLib.

(** ** Control: return, panic, exit *)

(** The value a panic carries: an [error] (a runtime error, the errors
    [Funcs] panics with) or a value of another type. *)
Inductive PanicValue : Type :=
| PanicError (msg : string)
| PanicOther (msg : string).

(** [fmt.Sprintln(v)] of a panic value. *)
Definition Sprintln (v : PanicValue) : string :=
  match v with
  | PanicError msg | PanicOther msg => msg +:+ String "010" EmptyString
  end.

(** How a call ends: it returns, it panics, or the process exits
    ([log.Fatalln]). *)
Inductive Outcome (A : Type) : Type :=
| Returned (a : A)
| Panicked (v : PanicValue)
| Exited (msg : string).

Arguments Returned {A} a.
Arguments Panicked {A} v.
Arguments Exited {A} msg.

(** ** Errors *)

(** The fields the code reads and writes of [template_engine.Error] and
    of revel's own [Error]. *)
Record ErrorRec : Type := mkError {
  Title : string;
  Path : string;
  Description : string;
  Line : Z;
  SourceLines : list string
}.

(** A non-nil value of the interface type [error], by its dynamic type:
    this is what the type switch of the loader sees. *)
Inductive error : Type :=
| EngineError (e : ErrorRec)      (* template_engine.Error *)
| EngineErrorPtr (e : ErrorRec)   (* *template_engine.Error *)
| RevelErrorPtr (e : ErrorRec)    (* *revel.Error *)
| OtherError (msg : string).      (* any other type, with its message *)

(** ** Package html/template

    The compiled template is opaque to the code; the operations it calls
    are the library's.  [Tmpl] is the object behind a non-nil
    [*template.Template], so [option Tmpl] is the pointer.  The methods
    that update the object in place return its new value. *)
Class HtmlTemplate : Type := {
  Tmpl : Type;
  ParseTree : Type;
  (** the field [t.Tree] *)
  Tree : Tmpl -> ParseTree;
  (** [template.New(name)] *)
  New : string -> Tmpl;
  (** [t.Funcs(TemplateFuncs)], which panics on a helper of a wrong form *)
  Funcs : Tmpl -> Outcome Tmpl;
  (** [t.Delims(left, right)] *)
  Delims : Tmpl -> string -> string -> Tmpl;
  (** [t.Parse(text)] *)
  Parse : Tmpl -> string -> Outcome (Tmpl * option error);
  (** [t.AddParseTree(name, tree)] *)
  AddParseTree : Tmpl -> string -> ParseTree -> Tmpl * option error;
  (** [t.Lookup(name)], also on a nil [t] *)
  Lookup : option Tmpl -> string -> Outcome (option Tmpl);
  (** [Lookup] reads the name space of its receiver: on a nil receiver
      that is a nil pointer dereference *)
  Lookup_nil : forall name : string,
    Lookup None name
    = Panicked (PanicError
        "runtime error: invalid memory address or nil pointer dereference");
  (** the data a template is rendered with *)
  Data : Type;
  (** [t.Execute(wr, arg)], also on a nil [t]: the text written and the
      error *)
  Execute : option Tmpl -> Data -> Outcome (string * option error);
  (** [t.Name()], also on a nil [t] *)
  NameOf : option Tmpl -> Outcome string
}.

(** The file system as [ioutil.ReadFile] sees it: the contents at a
    path, or [None] when the read fails. *)
Definition Files : Type := string -> option string.

(** ** Package template_engine: what its two versions share *)

Module engine_types.
Section WithTemplates.
Context `{HtmlTemplate}.

(** [type TemplateLoader func(tmplName, tmplStr string, delims []string)]
  with results [*template.Template] and [error]; a nil slice is
  [None]. *)
Definition TemplateLoader : Type :=
string -> string -> option (list string) ->
Outcome (option Tmpl * option error).

Record TemplateInfo : Type := mkInfo {
Name : string;
InfoPath : string
}.

Record TemplateEngine : Type := mkEngine {
seen_paths : gmap string string;
handlers : gmap string TemplateLoader;
TemplateSet : option Tmpl;
delims : option (list string)
}.

(** What the engine did to the world, newest first: the files it read,
  the compilers it ran ([ok] when the compiler gave a template and a
  nil error), and the calls of [Clear]. *)
Inductive Event : Type :=
| EvReadFile (path : string)
| EvCompile (name : string) (ok : bool)
| EvClear.

(** The package-level variable [engine] and the record of its effects. *)
Record State : Type := mkState {
engine : TemplateEngine;
trace : list Event
}.

Definition withEngine (st : State) (e : TemplateEngine) : State :=
{| engine := e; trace := trace st |}.

Definition emit (ev : Event) (st : State) : State :=
{| engine := engine st; trace := ev :: trace st |}.

Definition setSeen (name path : string) (e : TemplateEngine) : TemplateEngine :=
{| seen_paths := <[name := path]> (seen_paths e); handlers := handlers e;
   TemplateSet := TemplateSet e; delims := delims e |}.

Definition setTemplateSet (ts : option Tmpl) (e : TemplateEngine) : TemplateEngine :=
{| seen_paths := seen_paths e; handlers := handlers e;
   TemplateSet := ts; delims := delims e |}.

(** [func init()] *)
Definition init : State :=
{| engine := {| seen_paths := ∅; handlers := ∅; TemplateSet := None;
                delims := Some [EmptyString; EmptyString] |};
   trace := [] |}.

(** [func (e Error) Error() string] *)
Definition Error_ (e : ErrorRec) : string :=
Title e +:+ ": " +:+ Description e.

Definition sliceLen (d : option (list string)) : nat :=
match d with
| Some l => length l
| None => 0
end.

Definition SetDelims (d : option (list string)) (st : State) : State * Outcome unit :=
let st' := withEngine st
  {| seen_paths := seen_paths (engine st); handlers := handlers (engine st);
     TemplateSet := TemplateSet (engine st); delims := d |} in
if negb (sliceLen d =? 2)%nat
then (st', Exited "app.conf: Incorrect format for template.delimiters")
else (st', Returned tt).

Definition CompiledTemplates (st : State) : option Tmpl :=
TemplateSet (engine st).

Definition Clear (st : State) : State :=
emit EvClear (withEngine st
  {| seen_paths := ∅; handlers := handlers (engine st);
     TemplateSet := None; delims := delims (engine st) |}).

Definition RegisterTemplater (extension : string) (loader : TemplateLoader)
  (st : State) : State :=
withEngine st
  {| seen_paths := seen_paths (engine st);
     handlers := <[extension := loader]> (handlers (engine st));
     TemplateSet := TemplateSet (engine st); delims := delims (engine st) |}.

(** The error of [AddTemplate] for an extension without a handler. *)
Definition noHandlerError (path ext fileStr : string) : error :=
EngineErrorPtr
  {| Title := "Template Load Error";
     Path := path;
     Description := "No known handler for extension '" +:+ ext +:+ "'";
     Line := (-1)%Z;
     SourceLines := GoLib.Split fileStr "010" |}.

Definition isOk (r : option Tmpl * option error) : bool :=
match r with
| (Some _, None) => true
| _ => false
end.

(** The tail of [AddTemplate], the same in both versions: run the
  handler and merge what it gives into the set. *)
Definition compileAndMerge (loader : TemplateLoader) (info : TemplateInfo)
  (fileStr : string) (st : State) : State * Outcome (option error) :=
match loader (Name info) fileStr (delims (engine st)) with
| Panicked v => (st, Panicked v)
| Exited m => (st, Exited m)
| Returned (template, err) =>
    let st := emit (EvCompile (Name info) (isOk (template, err))) st in
    match err with
    | Some e => (st, Returned (Some e))
    | None =>
        match TemplateSet (engine st) with
        | None => (withEngine st (setTemplateSet template (engine st)), Returned None)
        | Some ts =>
            match template with
            | None =>
                (st, Panicked (PanicError
                   "runtime error: invalid memory address or nil pointer dereference"))
            | Some t =>
                let '(ts', err) := AddParseTree ts (Name info) (Tree t) in
                (withEngine st (setTemplateSet (Some ts') (engine st)), Returned err)
            end
        end
    end
end.

End WithTemplates.
End engine_types.

(** ** Package template_engine, [engine.go] *)

Module template_engine.
Export engine_types.
Section WithTemplates.
Context `{HtmlTemplate}.

(** [fileStr] is the empty string when the test [fileStr == ""] is
  reached, so the file is always read. *)
Definition AddTemplate (fs : Files) (info : TemplateInfo) (st : State)
  : State * Outcome (option error) :=
match seen_paths (engine st) !! Name info with
| Some _ => (st, Returned None)
| None =>
    let st := withEngine st (setSeen (Name info) (InfoPath info) (engine st)) in
    let st := emit (EvReadFile (InfoPath info)) st in
    match fs (InfoPath info) with
    | None => (st, Returned None)
    | Some fileStr =>
        let ext := GoLib.Ext (InfoPath info) in
        match handlers (engine st) !! ext with
        | None => (st, Returned (Some (noHandlerError (InfoPath info) ext fileStr)))
        | Some loader => compileAndMerge loader info fileStr st
        end
    end
end.

End WithTemplates.
End template_engine.

(** ** Package template_engine, its other version in the repository

    It differs in [AddTemplate]: the key of [seen_paths] is the local
    [templateName], which is assigned only where [os.PathSeparator] is a
    backslash, and the extension ["html"] is mapped to the empty one. *)

Module template_engine_alt.
Export engine_types.
Section WithTemplates.
Context `{HtmlTemplate}.

(** [strings.Replace(name, `\`, `/`, -1)] *)
Definition toSlash (name : string) : string :=
GoLib.mapBytes (fun c => if Ascii.eqb c "\" then "/"%char else c) name.

Definition templateNameOf (PathSeparator : ascii) (info : TemplateInfo) : string :=
if Ascii.eqb PathSeparator "\" then toSlash (Name info) else EmptyString.

Definition AddTemplate (PathSeparator : ascii) (fs : Files)
  (info : TemplateInfo) (st : State) : State * Outcome (option error) :=
let templateName := templateNameOf PathSeparator info in
match seen_paths (engine st) !! templateName with
| Some _ => (st, Returned None)
| None =>
    let st := withEngine st (setSeen templateName (InfoPath info) (engine st)) in
    let st := emit (EvReadFile (InfoPath info)) st in
    match fs (InfoPath info) with
    | None => (st, Returned None)
    | Some fileStr =>
        let ext := GoLib.Ext (InfoPath info) in
        let ext := if String.eqb ext "html" then EmptyString else ext in
        match handlers (engine st) !! ext with
        | None => (st, Returned (Some (noHandlerError (InfoPath info) ext fileStr)))
        | Some loader => compileAndMerge loader info fileStr st
        end
    end
end.

End WithTemplates.
End template_engine_alt.

(** ** Package path/filepath: [Walk] *)

Module filepath.

(** A file, or a directory with its entries in lexical order ([None]
    when the directory cannot be listed). *)
#[warnings="-register-all"] Inductive Node : Type :=
| File (name : string)
| Dir (name : string) (entries : option (list Node)).

(** [os.FileInfo], as far as the code reads it. *)
Record FileInfo : Type := mkFileInfo {
  fiName : string;
  IsDir : bool
}.

Definition infoOf (n : Node) : FileInfo :=
  match n with
  | File name => mkFileInfo name false
  | Dir name _ => mkFileInfo name true
  end.

Definition nodeName (n : Node) : string := fiName (infoOf n).

(** What [Lstat] finds at a root, [None] when it fails. *)
Definition Roots : Type := string -> option Node.

(** The error a [WalkFunc] returns. *)
Inductive WalkErr : Type :=
| SkipDir
| WalkError (e : error).

(** The elements of a path as [Clean] leaves them, on a system whose
    separator is the slash: [out] holds the elements written so far,
    the last one first, of which the first [dotdot] are leading [..]
    that nothing can remove.  Empty elements and [.] are dropped; [..]
    removes the element before it, stays where there is none and the
    path is not rooted, and is dropped at the root. *)
Fixpoint cleanElements (rooted : bool) (elems out : list string) (dotdot : nat)
    : list string :=
  match elems with
  | [] => rev out
  | e :: rest =>
      if String.eqb e EmptyString || String.eqb e "." then
        cleanElements rooted rest out dotdot
      else if String.eqb e ".." then
        if (dotdot <? length out)%nat then cleanElements rooted rest (tl out) dotdot
        else if rooted then cleanElements rooted rest out dotdot
        else cleanElements rooted rest (".." :: out) (S dotdot)
      else cleanElements rooted rest (e :: out) dotdot
  end.

(** [strings.Join(elems, "/")] *)
Fixpoint joinSlash (elems : list string) : string :=
  match elems with
  | [] => EmptyString
  | [e] => e
  | e :: rest => e +:+ "/" +:+ joinSlash rest
  end.

(** [filepath.Clean] *)
Definition Clean (path : string) : string :=
  match path with
  | EmptyString => "."
  | String c _ =>
      let rooted := Ascii.eqb c "/" in
      let out := cleanElements rooted (GoLib.Split path "/") [] 0 in
      if rooted then "/" +:+ joinSlash out
      else match out with
           | [] => "."
           | _ => joinSlash out
           end
  end.

(** [filepath.Join(dir, name)]: the elements that are not empty, joined
    by the separator and cleaned. *)
Definition Join (dir name : string) : string :=
  if negb (String.eqb dir EmptyString) then Clean (dir +:+ "/" +:+ name)
  else if negb (String.eqb name EmptyString) then Clean name
  else EmptyString.

Section Walk.
Context {S : Type}.

(** [type WalkFunc func(path string, info os.FileInfo, err error) error];
    of [err] only whether it is nil is read ([true]: an error). *)
Definition WalkFunc : Type :=
  string -> option FileInfo -> bool -> S -> S * Outcome (option WalkErr).

Variable walkFn : WalkFunc.

Fixpoint walk (path : string) (n : Node) (st : S) : S * Outcome (option WalkErr) :=
  match walkFn path (Some (infoOf n)) false st with
  | (st, Returned (Some err)) =>
      match n, err with
      | Dir _ _, SkipDir => (st, Returned None)
      | _, _ => (st, Returned (Some err))
      end
  | (st, Returned None) =>
      match n with
      | File _ => (st, Returned None)
      | Dir _ None => walkFn path (Some (infoOf n)) true st
      | Dir _ (Some entries) =>
          (fix range (entries : list Node) (st : S) : S * Outcome (option WalkErr) :=
             match entries with
             | [] => (st, Returned None)
             | fileInfo :: rest =>
                 match walk (Join path (nodeName fileInfo)) fileInfo st with
                 | (st, Returned (Some err)) =>
                     match fileInfo, err with
                     | Dir _ _, SkipDir => range rest st
                     | _, _ => (st, Returned (Some err))
                     end
                 | (st, Returned None) => range rest st
                 | (st, o) => (st, o)
                 end
             end) entries st
      end
  | (st, o) => (st, o)
  end.

Definition Walk (roots : Roots) (root : string) (st : S)
    : S * Outcome (option WalkErr) :=
  match roots root with
  | None => walkFn root None true st
  | Some n => walk root n st
  end.
End Walk.

End filepath.

(** ** Sequencing of calls that may panic or exit *)

Definition ret {S A : Type} (a : A) : S -> S * Outcome A :=
  fun s => (s, Returned a).

Definition raise {S A : Type} (v : PanicValue) : S -> S * Outcome A :=
  fun s => (s, Panicked v).

Definition bind {S A B : Type} (m : S -> S * Outcome A)
    (k : A -> S -> S * Outcome B) : S -> S * Outcome B :=
  fun s =>
    match m s with
    | (s', Returned a) => k a s'
    | (s', Panicked v) => (s', Panicked v)
    | (s', Exited msg) => (s', Exited msg)
    end.

Definition boundsPanic : PanicValue :=
  PanicError "runtime error: slice bounds out of range".

Definition indexPanic : PanicValue :=
  PanicError "runtime error: index out of range".

Definition nilPanic : PanicValue :=
  PanicError "runtime error: invalid memory address or nil pointer dereference".

(** ** The inner function of the Go templater

    [GoTemplater] of package revel and [goTemplater] of package
    template_engines run the same inner function under their own
    deferred [recover()]. *)

Module templater.
Section WithTemplates.
Context `{HtmlTemplate}.

(** The variables [tmpl] and [err] of the enclosing function, which the
    inner function assigns. *)
Record Results : Type := mkResults {
  tmpl : option Tmpl;
  err : option error
}.

(** The variables as the inner function leaves them, and how it ends. *)
Definition construct (templateName templateStr : string)
    (delims : option (list string)) : Results * Outcome unit :=
  match Funcs (New templateName) with
  | Returned t =>
      let withDelims : Outcome Tmpl :=
        match delims with
        | Some ds =>
            match ds !! 0%nat, ds !! 1%nat with
            | Some l, Some r => Returned (Delims t l r)
            | _, _ => Panicked indexPanic
            end
        | None => Returned (Delims t EmptyString EmptyString)
        end in
      match withDelims with
      | Returned t =>
          match Parse t templateStr with
          | Returned (t, e) => (mkResults (Some t) e, Returned tt)
          | Panicked v => (mkResults (Some t) None, Panicked v)
          | Exited msg => (mkResults (Some t) None, Exited msg)
          end
      | Panicked v => (mkResults (Some t) None, Panicked v)
      | Exited msg => (mkResults (Some t) None, Exited msg)
      end
  | Panicked v => (mkResults None None, Panicked v)
  | Exited msg => (mkResults None None, Exited msg)
  end.

End WithTemplates.
End templater.

(** ** Package revel: the template loader *)

Module revel.
Import engine_types.

(** What the loader uses of package revel that is declared in other
    files: the method [Error()] of [*revel.Error] and the configuration
    variable [TemplateDelims]. *)
Class Decls : Type := {
  Error_Error : ErrorRec -> string;
  TemplateDelims : string
}.

Section WithLibs.
Context `{HtmlTemplate} `{GoLib.Unicode} `{Decls}.

Record TemplateLoader : Type := mkLoader {
  templateSet : option Tmpl;
  compileError : option ErrorRec;
  paths : list string;
  templatePaths : gmap string string
}.

Definition NewTemplateLoader (paths : list string) : TemplateLoader :=
  {| templateSet := None; compileError := None; paths := paths;
     templatePaths := ∅ |}.

Definition setCompileError (e : option ErrorRec) (loader : TemplateLoader)
    : TemplateLoader :=
  {| templateSet := templateSet loader; compileError := e;
     paths := paths loader; templatePaths := templatePaths loader |}.

(** [err.Error()], by the dynamic type of [err]. *)
Definition errorMessage (err : error) : string :=
  match err with
  | EngineError e | EngineErrorPtr e => Error_ e
  | RevelErrorPtr e => Error_Error e
  | OtherError msg => msg
  end.

(** [regexp.MustCompile(`:\d+:`)] *)
Definition lineFragment : GoLib.Regexp :=
  [GoLib.One (Ascii.eqb ":"); GoLib.Many1 GoLib.isDigit; GoLib.One (Ascii.eqb ":")].

(** The body of [parseTemplateError] after [description = err.Error()].
    The error of [Atoi] is only logged. *)
Definition parseDescription (description : string) : Outcome (string * Z * string) :=
  match GoLib.FindStringIndex lineFragment description with
  | Some (i0, i1) =>
      match GoLib.slice description (i0 + 1) (i1 - 1),
            GoLib.sliceTo description i0,
            GoLib.sliceFrom description (i1 + 1) with
      | Some digits, Some templateName, Some rest =>
          let line := fst (GoLib.Atoi digits) in
          let templateName :=
            match GoLib.Index templateName ":" with
            | Some colon => default EmptyString (GoLib.sliceFrom templateName (colon + 1))
            | None => templateName
            end in
          let templateName := GoLib.TrimSpace templateName in
          Returned (templateName, line, rest)
      | _, _, _ => Panicked boundsPanic
      end
  | None => Returned (EmptyString, 0%Z, description)
  end.

Definition parseTemplateError (err : error) : Outcome (string * Z * string) :=
  parseDescription (errorMessage err).

(** The closure [checkTemplateError] of [Refresh]; it writes
    [loader.compileError]. *)
Definition checkTemplateError (err : option error) (name : string)
    (loader : TemplateLoader) : Outcome TemplateLoader :=
  match err, compileError loader with
  | Some e, None =>
      match e with
      | EngineError r =>
          Returned (setCompileError
            (Some {| Title := Title r; Path := Path r;
                     Description := Description r; Line := Line r;
                     SourceLines := SourceLines r |}) loader)
      | RevelErrorPtr _ =>
          match parseTemplateError e with
          | Returned (_, line, description) =>
              Returned (setCompileError
                (Some {| Title := "Template Compilation Error"; Path := name;
                         Description := description; Line := line;
                         SourceLines := ["not implemented"] |}) loader)
          | Panicked v => Panicked v
          | Exited msg => Exited msg
          end
      | _ => Returned loader
      end
  | _, _ => Returned loader
  end.

Definition WatchDir (info : filepath.FileInfo) : bool :=
  negb (GoLib.HasPrefix (filepath.fiName info) ".").

Definition WatchFile (basename : string) : bool :=
  negb (GoLib.HasPrefix basename ".").

(** The loader and the engine's package state, which [Refresh] and its
    walk function both update. *)
Definition World : Type := TemplateLoader * State.

Definition onEngine {A : Type} (m : State -> State * Outcome A)
    : World -> World * Outcome A :=
  fun '(loader, st) => let '(st', o) := m st in ((loader, st'), o).

Definition onLoader (f : TemplateLoader -> Outcome TemplateLoader)
    : World -> World * Outcome unit :=
  fun '(loader, st) =>
    match f loader with
    | Returned loader' => ((loader', st), Returned tt)
    | Panicked v => ((loader, st), Panicked v)
    | Exited msg => ((loader, st), Exited msg)
    end.

Section Refresh.
(** [template_engine.AddTemplate], of either version of the package. *)
Variable AddTemplate : TemplateInfo -> State -> State * Outcome (option error).

(** The function [Refresh] hands to [filepath.Walk]. *)
Definition visit (basePath : string) : filepath.WalkFunc (S := World) :=
  fun path info err =>
    if err then ret None
    else match info with
    | None => raise nilPanic
    | Some info =>
        if filepath.IsDir info then
          if negb (WatchDir info) then ret (Some filepath.SkipDir) else ret None
        else if negb (WatchFile (filepath.fiName info)) then ret None
        else
          match GoLib.sliceFrom path (String.length basePath + 1) with
          | None => raise boundsPanic
          | Some templateName =>
              bind (onEngine (AddTemplate (mkInfo templateName path))) (fun err =>
              bind (onLoader (checkTemplateError err templateName)) (fun _ =>
              let lowerCaseTemplateName := GoLib.ToLower templateName in
              bind (onEngine (AddTemplate (mkInfo lowerCaseTemplateName path))) (fun err =>
              bind (onLoader (checkTemplateError err lowerCaseTemplateName)) (fun _ =>
              ret None))))
          end
    end.

(** The loop over [loader.paths]; [true] when [Refresh] returns from
    inside it. *)
Fixpoint rangePaths (roots : filepath.Roots) (ps : list string) (w : World)
    : World * Outcome bool :=
  match ps with
  | [] => (w, Returned false)
  | basePath :: rest =>
      match filepath.Walk (visit basePath) roots basePath w with
      | (w, Returned None) => rangePaths roots rest w
      | ((loader, st), Returned (Some funcErr)) =>
          match funcErr with
          | filepath.WalkError (RevelErrorPtr r) =>
              ((setCompileError (Some r) loader, st), Returned true)
          | _ =>
              ((loader, st),
               Panicked (PanicError "interface conversion: error is not *revel.Error"))
          end
      | (w, Panicked v) => (w, Panicked v)
      | (w, Exited msg) => (w, Exited msg)
      end
  end.

Definition Refresh (roots : filepath.Roots) (w : World)
    : World * Outcome (option ErrorRec) :=
  let '(loader, st) := w in
  let loader :=
    {| templateSet := templateSet loader; compileError := None;
       paths := paths loader; templatePaths := ∅ |} in
  let setDelims : State * Outcome unit :=
    if negb (String.eqb TemplateDelims EmptyString) then
      let splitDelims := GoLib.Split TemplateDelims " " in
      if negb (length splitDelims =? 2)%nat
      then (st, Exited "app.conf: Incorrect format for template.delimiters")
      else SetDelims (Some splitDelims) st
    else (st, Returned tt) in
  match setDelims with
  | (st, Returned _) =>
      match rangePaths roots (paths loader) (loader, st) with
      | ((loader, st), Returned true) => ((loader, st), Returned (compileError loader))
      | ((loader, st), Returned false) =>
          let loader :=
            {| templateSet := CompiledTemplates st;
               compileError := compileError loader;
               paths := paths loader; templatePaths := templatePaths loader |} in
          ((loader, st), Returned (compileError loader))
      | (w, Panicked v) => (w, Panicked v)
      | (w, Exited msg) => (w, Exited msg)
      end
  | (st, Panicked v) => ((loader, st), Panicked v)
  | (st, Exited msg) => ((loader, st), Exited msg)
  end.

End Refresh.

(** The deferred function of [GoTemplater]: [funcError] after
    [recover()]. *)
Definition recovered (o : Outcome unit) : option ErrorRec :=
  match o with
  | Panicked v =>
      Some {| Title := "Panic (Template Loader)"; Path := EmptyString;
              Description := Sprintln v; Line := 0%Z; SourceLines := [] |}
  | _ => None
  end.

(** [GoTemplater] has the named results [tmpl] and [err]; both of its
    [return]s are bare, so it returns those variables whatever
    [funcError] is. *)
Definition GoTemplater (templateName templateStr : string)
    (delims : option (list string)) : Outcome (option Tmpl * option error) :=
  let '(res, o) := templater.construct templateName templateStr delims in
  match o with
  | Exited msg => Exited msg
  | _ =>
      let funcError := recovered o in
      match funcError with
      | Some _ => Returned (templater.tmpl res, templater.err res)
      | None => Returned (templater.tmpl res, templater.err res)
      end
  end.

(** The adapter [GoTemplate]: the embedded [*template.Template] and the
    loader. *)
Record GoTemplate : Type := mkGoTemplate {
  embedded : option Tmpl;
  loader : TemplateLoader
}.

Definition Render (gotmpl : GoTemplate) (arg : Data) : Outcome (string * option error) :=
  Execute (embedded gotmpl) arg.

(** The promoted method [Name()]. *)
Definition GoTemplate_Name (gotmpl : GoTemplate) : Outcome string :=
  NameOf (embedded gotmpl).

(** [fmt.Errorf("Template %s not found.", name)] *)
Definition notFound (name : string) : error :=
  OtherError ("Template " +:+ name +:+ " not found.").

(** [TemplateLoader.Template]: the handle ([None]: a nil interface) and
    the error. *)
Definition Template (loader : TemplateLoader) (name : string)
    : Outcome (option GoTemplate * option error) :=
  let name := GoLib.ToLower name in
  match Lookup (templateSet loader) name with
  | Returned tmpl =>
      let err : option error :=
        match compileError loader with
        | Some e => Some (RevelErrorPtr e)
        | None => None
        end in
      match tmpl, err with
      | None, None => Returned (None, Some (notFound name))
      | _, _ => Returned (Some (mkGoTemplate tmpl loader), err)
      end
  | Panicked v => Panicked v
  | Exited msg => Exited msg
  end.

(** [regexp.MustCompile(`[^a-z0-9 _-]`)] *)
Definition slugByte (c : ascii) : bool :=
  GoLib.isLower c || GoLib.isDigit c || Ascii.eqb c " " || Ascii.eqb c "_"
  || Ascii.eqb c "-".

Definition invalidSlugPattern : GoLib.Regexp :=
  [GoLib.One (fun c => negb (slugByte c))].

(** [regexp.MustCompile(`\s+`)] *)
Definition whiteSpacePattern : GoLib.Regexp :=
  [GoLib.Many1 GoLib.isReSpace].

Definition Slug (text : string) : string :=
  let separator := "-" in
  let text := GoLib.ToLower text in
  let text := GoLib.ReplaceAllString invalidSlugPattern text EmptyString in
  let text := GoLib.ReplaceAllString whiteSpacePattern text separator in
  let text := GoLib.Trim text separator in
  text.

End WithLibs.
End revel.

(** ** Package template_engines, [go_engine.go] *)

Module template_engines.
Section WithTemplates.
Context `{HtmlTemplate}.

(** [goTemplater] with its third result [unrecoverable].  Its deferred
    function asserts that the recovered value is an [error]; for a value
    of another type that assertion panics in turn. *)
Definition goTemplater (templateName templateStr : string)
    (delims : option (list string))
    : Outcome (option Tmpl * option error * bool) :=
  let '(res, o) := templater.construct templateName templateStr delims in
  match o with
  | Exited msg => Exited msg
  | Panicked (PanicOther _) =>
      Panicked (PanicError "interface conversion: interface {} is not error")
  | Panicked (PanicError msg) =>
      let funcError : option error := Some (OtherError msg) in
      match funcError with
      | Some _ => Returned (templater.tmpl res, templater.err res, true)
      | None => Returned (templater.tmpl res, templater.err res, false)
      end
  | Returned _ => Returned (templater.tmpl res, templater.err res, false)
  end.

End WithTemplates.
End template_engines.

(** ** The registry over its lifetime *)

Module lifetime.
Import engine_types.
Section WithTemplates.
Context `{HtmlTemplate}.

(** The calls a client of the package can make. *)
Inductive Op : Type :=
| OpClear
| OpRegisterTemplater (extension : string) (loader : TemplateLoader)
| OpSetDelims (d : option (list string))
| OpAddTemplate (info : TemplateInfo).

Section Run.
(** [AddTemplate] of either version of the package. *)
Variable AddTemplate : TemplateInfo -> State -> State * Outcome (option error).

(** The state a call leaves behind, however it ends. *)
Definition step (op : Op) (st : State) : State :=
  match op with
  | OpClear => Clear st
  | OpRegisterTemplater extension loader => RegisterTemplater extension loader st
  | OpSetDelims d => fst (SetDelims d st)
  | OpAddTemplate info => fst (AddTemplate info st)
  end.

Definition run (ops : list Op) (st : State) : State :=
  fold_left (fun st op => step op st) ops st.
End Run.

(** The two versions of the package. *)
Inductive Version : Type :=
| EngineGo                                (* [engine.go] *)
| OtherVersion (PathSeparator : ascii).   (* the other one, on a given OS *)

Definition AddTemplateOf (v : Version) (fs : Files)
    : TemplateInfo -> State -> State * Outcome (option error) :=
  match v with
  | EngineGo => template_engine.AddTemplate fs
  | OtherVersion PathSeparator => template_engine_alt.AddTemplate PathSeparator fs
  end.

(** The key under which a version records a template in [seen_paths]. *)
Definition seenKey (v : Version) (info : TemplateInfo) : string :=
  match v with
  | EngineGo => Name info
  | OtherVersion PathSeparator => template_engine_alt.templateNameOf PathSeparator info
  end.

(** Whether a compiler gave a template, with a nil error, since the last
    [Clear] (the trace is newest first). *)
Fixpoint compiledSinceClear (tr : list Event) : bool :=
  match tr with
  | [] => false
  | EvClear :: _ => false
  | EvCompile _ true :: _ => true
  | _ :: tr' => compiledSinceClear tr'
  end.

(** The call [AddTemplate(info)] in the state [st] gets to a compiler,
    which gives the template [t] and a nil error. *)
Definition compiles (v : Version) (fs : Files) (info : TemplateInfo)
    (st : State) (t : Tmpl) : Prop :=
  exists loader fileStr,
    seen_paths (engine st) !! seenKey v info = None
    /\ fs (InfoPath info) = Some fileStr
    /\ handlers (engine st) !! GoLib.Ext (InfoPath info) = Some loader
    /\ loader (Name info) fileStr (delims (engine st)) = Returned (Some t, None).

(** The merged set is nil exactly when no compiler has given a template
    since the last [Clear]. *)
Definition nilIffNotCompiled (st : State) : Prop :=
  TemplateSet (engine st) = None <-> compiledSinceClear (trace st) = false.

End WithTemplates.
End lifetime.

(** ** The calls of one build generation *)

Module generation.
Import engine_types.
Section WithTemplates.
Context `{HtmlTemplate}.

(** A call of the package, with the files as they are when it is made. *)
Definition Call : Type := Files * lifetime.Op.

Definition isClear (op : lifetime.Op) : bool :=
  match op with
  | lifetime.OpClear => true
  | _ => false
  end.

Definition isRegister (op : lifetime.Op) : bool :=
  match op with
  | lifetime.OpRegisterTemplater _ _ => true
  | _ => false
  end.

(** No call is [Clear]: the calls belong to one build generation. *)
Definition sameGeneration (calls : list Call) : bool :=
  forallb (fun c => negb (isClear (snd c))) calls.

(** No call is [RegisterTemplater]. *)
Definition noRegistration (calls : list Call) : bool :=
  forallb (fun c => negb (isRegister (snd c))) calls.

(** The state after the calls, made in order, of a version of the
    package. *)
Definition runCalls (v : lifetime.Version) (calls : list Call) (st : State)
    : State :=
  fold_left (fun st c => lifetime.step (lifetime.AddTemplateOf v (fst c)) (snd c) st)
    calls st.

End WithTemplates.
End generation.

(** ** The properties in the words of the specification *)

Module spec.

(** *** The slug *)

(** Each run of bytes in [p] becomes one [sep]; [inRun] tells that the
    byte before was in [p]. *)
Fixpoint collapseRuns (p : ascii -> bool) (sep : string) (inRun : bool)
    (s : string) : string :=
  match s with
  | EmptyString => EmptyString
  | String c s' =>
      if p c then
        if inRun then collapseRuns p sep true s'
        else sep +:+ collapseRuns p sep true s'
      else String c (collapseRuns p sep false s')
  end.

(** The length of the run of [p] at the head of [s]. *)
Fixpoint runLength (p : ascii -> bool) (s : string) : nat :=
  match s with
  | EmptyString => 0
  | String c s' => if p c then S (runLength p s') else 0
  end.

Definition isSeparator (c : ascii) : bool := Ascii.eqb c "-".

Definition trimSeparators (s : string) : string :=
  GoLib.dropWhileEnd isSeparator (GoLib.dropWhile isSeparator s).

(** Lower-case, strip what is outside [[a-z0-9 _-]], collapse each run
    of white space to one separator, trim the separators at both ends. *)
Definition slugOf `{GoLib.Unicode} (text : string) : string :=
  trimSeparators
    (collapseRuns GoLib.isReSpace "-" false
       (GoLib.filterBytes revel.slugByte (GoLib.ToLower text))).

(** *** Lines *)

(** The lines of a text, put together again with newlines. *)
Fixpoint joinLines (lines : list string) : string :=
  match lines with
  | [] => EmptyString
  | [l] => l
  | l :: rest => l +:+ String "010" (joinLines rest)
  end.

(** *** The [path:line:] fragment of an error message *)

Fixpoint takeWhile (p : ascii -> bool) (s : string) : string :=
  match s with
  | EmptyString => EmptyString
  | String c s' => if p c then String c (takeWhile p s') else EmptyString
  end.

(** [s] starts with a colon, one or more digits and a colon. *)
Definition startsFragment (s : string) : bool :=
  match s with
  | String ":" s' =>
      negb (String.eqb (takeWhile GoLib.isDigit s') EmptyString)
      && String.prefix ":" (GoLib.dropWhile GoLib.isDigit s')
  | _ => false
  end.

(** Where the first such fragment starts. *)
Fixpoint firstFragment (s : string) : option nat :=
  if startsFragment s then Some 0%nat
  else match s with
       | EmptyString => None
       | String _ s' => S <$> firstFragment s'
       end.

(** What follows the first colon of [s]. *)
Fixpoint afterFirstColon (s : string) : option string :=
  match s with
  | EmptyString => None
  | String c s' => if Ascii.eqb c ":" then Some s' else afterFirstColon s'
  end.

(** What follows the last colon of [s]. *)
Fixpoint afterLastColon (s : string) : option string :=
  match s with
  | EmptyString => None
  | String c s' =>
      match afterLastColon s' with
      | Some r => Some r
      | None => if Ascii.eqb c ":" then Some s' else None
      end
  end.

End spec.

(** ** A small instance of the libraries, to run the code on inputs *)

Module demo.
Import engine_types.

(** A template: its name and the templates of its set, by name. *)
Record T : Type := mkT {
  tname : string;
  defs : list (string * string)
}.

Fixpoint find (name : string) (l : list (string * string)) : option string :=
  match l with
  | [] => None
  | (n, src) :: l' => if String.eqb n name then Some src else find name l'
  end.

(** Parsing fails on a text that opens an action and never closes it. *)
Definition parse (t : T) (text : string) : Outcome (T * option error) :=
  match GoLib.Index text "{{", GoLib.Index text "}}" with
  | Some _, None =>
      Returned (t, Some (OtherError
        ("template: " +:+ tname t +:+ ":1: unexpected unclosed action")))
  | _, _ => Returned (mkT (tname t) ((tname t, text) :: defs t), None)
  end.

Definition addParseTree (t : T) (name tree : string) : T * option error :=
  match find name (defs t) with
  | Some _ =>
      (t, Some (OtherError ("template: redefinition of template " +:+ name)))
  | None => (mkT (tname t) ((name, tree) :: defs t), None)
  end.

Definition lookup (t : option T) (name : string) : Outcome (option T) :=
  match t with
  | None => Panicked nilPanic
  | Some t =>
      Returned (match find name (defs t) with
                | Some _ => Some (mkT name (defs t))
                | None => None
                end)
  end.

Definition treeOf (t : T) : string := default EmptyString (find (tname t) (defs t)).

#[export] Instance templates : HtmlTemplate := {|
  Tmpl := T;
  ParseTree := string;
  Tree := treeOf;
  New := fun name => mkT name [];
  Funcs := fun t => Returned t;
  Delims := fun t _ _ => t;
  Parse := parse;
  AddParseTree := addParseTree;
  Lookup := lookup;
  Lookup_nil := fun _ => eq_refl;
  Data := unit;
  Execute := fun t _ =>
    match t with
    | None => Panicked nilPanic
    | Some t => Returned (treeOf t, None)
    end;
  NameOf := fun t =>
    match t with
    | None => Panicked nilPanic
    | Some t => Returned (tname t)
    end
|}.

#[export] Instance unicode : GoLib.Unicode := {|
  GoLib.mapToLower := fun s => s;
  GoLib.trimFuncIsSpace := fun s => s
|}.

#[export] Instance decls : revel.Decls := {|
  revel.Error_Error := Error_;
  revel.TemplateDelims := EmptyString
|}.

(** A views directory with a template of an extension nobody handles. *)
Definition xyzRoots : filepath.Roots :=
  fun root =>
    if String.eqb root "views"
    then Some (filepath.Dir "views" (Some [filepath.File "a.xyz"]))
    else None.

Definition xyzFiles : Files :=
  fun path => if String.eqb path "views/a.xyz" then Some "hello" else None.

(** A views directory with a broken and a valid template. *)
Definition twoRoots : filepath.Roots :=
  fun root =>
    if String.eqb root "views"
    then Some (filepath.Dir "views"
                 (Some [filepath.File "bad.html"; filepath.File "good.html"]))
    else None.

Definition twoFiles : Files :=
  fun path =>
    if String.eqb path "views/bad.html" then Some "{{ if"
    else if String.eqb path "views/good.html" then Some "fine"
    else None.

(** The engine after package revel's [init()], which registers
    [GoTemplater] for the empty extension, plus the same for [.html]. *)
Definition registered : State :=
  RegisterTemplater ".html" revel.GoTemplater
    (RegisterTemplater EmptyString revel.GoTemplater init).

Definition views : revel.TemplateLoader := revel.NewTemplateLoader ["views"].

End demo.

(** ** Package template_engine, [engine.go]: modules of the configuration *)

Module template_engine_module.

(** [type Module struct]; [Module] is a keyword here. *)
Record Module_ : Type := mkModule {
  ModName : string;
  Extension : string;
  ModPath : string
}.

(** [NewModule(config_key, value)]; [None] is the nil module. *)
Definition NewModule (config_key value : string) : Outcome (option Module_) :=
  if negb (GoLib.HasPrefix config_key "template.handler.") then Returned None
  else
    let fields := GoLib.Split config_key "." in
    if (3 <? length fields)%nat then Returned None
    else
      match fields !! 2%nat with
      | Some field =>
          Returned (Some {| ModName := "template_" +:+ field;
                            Extension := "." +:+ field;
                            ModPath := value |})
      | None => Panicked indexPanic
      end.

End template_engine_module.

(** ** Package revel: the functions of [TemplateFuncs] *)

Module funcs.

(** *** Package html *)

Definition quote : ascii := "034".

(** [html.EscapeString]: the five bytes it replaces. *)
Definition escapeByte (c : ascii) : string :=
  if Ascii.eqb c "&" then "&amp;"
  else if Ascii.eqb c "'" then "&#39;"
  else if Ascii.eqb c "<" then "&lt;"
  else if Ascii.eqb c ">" then "&gt;"
  else if Ascii.eqb c quote then "&#34;"
  else String c EmptyString.

Fixpoint EscapeString (s : string) : string :=
  match s with
  | EmptyString => EmptyString
  | String c s' => escapeByte c +:+ EscapeString s'
  end.

(** [count] copies of [s], one after the other. *)
Fixpoint copies (s : string) (count : nat) : string :=
  match count with
  | O => EmptyString
  | S n => s +:+ copies s n
  end.

Definition repeatNegative : PanicValue :=
  PanicError "strings: negative Repeat count".

Definition repeatOverflow : PanicValue :=
  PanicError "strings: Repeat output length overflow".

(** [strings.Repeat(s, count)] for an [int] [count]: it panics on a
    negative count and when the length of the result, [len(s) * count],
    is more than the largest [int]. *)
Definition Repeat (s : string) (count : Z) : Outcome string :=
  if (count <? 0)%Z then Panicked repeatNegative
  else if (Z.of_nat (String.length s) * count >? GoLib.maxInt)%Z
       then Panicked repeatOverflow
       else Returned (copies s (Z.to_nat count)).

(** *** Values of type [interface{}] in the render arguments *)

(** A slice of type [[]interface{}]: the backing array it points into,
    where it starts there, its length and its capacity. *)
Record Slice : Type := mkSlice {
  array : nat;
  offset : nat;
  len : nat;
  cap : nat
}.

(** A value by what the helpers ask of it: whether it is nil, whether it
    is a [[]interface{}], and its kind for [reflect]. *)
Inductive Value : Type :=
| VNil                              (* the nil interface *)
| VSlice (s : Slice)                (* []interface{} *)
| VInt (n : Z)                      (* int *)
| VNamedInt (n : Z)                 (* a defined type of kind Int *)
| VOtherSlice (n : nat)             (* a slice of another type, of length n *)
| VOther (text : string).           (* any other value *)

(** The backing arrays of the [[]interface{}] slices, by address; a new
    array gets the next address.  Slices that point into one array share
    its elements. *)
Abbreviation Arrays := (list (list Value)).

(** The elements of a slice. *)
Definition elements (arrays : Arrays) (s : Slice) : list Value :=
  take (len s) (drop (offset s) (default [] (arrays !! array s))).

(** A slice lies within its backing array; a slice of capacity zero,
    like the nil slice, needs none. *)
Definition inBounds (arrays : Arrays) (s : Slice) : Prop :=
  (len s <= cap s)%nat
  /\ (offset s + cap s <= length (default [] (arrays !! array s)))%nat.

(** [map[string]interface{}]; [None] is the nil map, which reads as
    empty and panics when written. *)
Definition RenderArgs : Type := option (gmap string Value).

(** [renderArgs[key]] *)
Definition get (renderArgs : RenderArgs) (key : string) : Value :=
  match renderArgs with
  | Some m => default VNil (m !! key)
  | None => VNil
  end.

Definition assignPanic : PanicValue :=
  PanicError "assignment to entry in nil map".

(** [renderArgs[key] = value] *)
Definition put (renderArgs : RenderArgs) (key : string) (value : Value)
    : RenderArgs * Outcome unit :=
  match renderArgs with
  | Some m => (Some (<[key := value]> m), Returned tt)
  | None => (None, Panicked assignPanic)
  end.

Definition isNil (v : Value) : bool :=
  match v with
  | VNil => true
  | _ => false
  end.

(** The helper ["set"]: the map afterwards and the markup returned. *)
Definition set (renderArgs : RenderArgs) (key : string) (value : Value)
    : RenderArgs * Outcome string :=
  match put renderArgs key value with
  | (m, Returned _) => (m, Returned EmptyString)
  | (m, Panicked v) => (m, Panicked v)
  | (m, Exited msg) => (m, Exited msg)
  end.

Section Append.
(** The capacity the runtime chooses when [append] has to grow a slice
    of the capacity [old] so that it holds [needed] elements.  The
    language leaves the choice open; the capacity is at least
    [needed]. *)
Variable growslice : nat -> nat -> nat.

Definition newCap (old needed : nat) : nat :=
  Nat.max needed (growslice old needed).

(** The built-in [append(s, value)].  With room left in the capacity,
    the value is written into the backing array, behind the elements of
    [s], and the slice returned points into the same array; otherwise
    the elements are copied into a new array. *)
Definition goAppend (arrays : Arrays) (s : Slice) (value : Value)
    : Arrays * Slice :=
  if (len s <? cap s)%nat then
    (alter (fun elems => <[(offset s + len s)%nat := value]> elems) (array s) arrays,
     mkSlice (array s) (offset s) (S (len s)) (cap s))
  else
    let c := newCap (cap s) (S (len s)) in
    ((arrays ++ [(elements arrays s
                  ++ value :: replicate (c - S (len s)) VNil)%list])%list,
     mkSlice (length arrays) 0 (S (len s)) c).

(** The helper ["append"]: the arrays and the map afterwards, and the
    markup returned.  The slice literal [[]interface{}{value}] is a new
    array of one element. *)
Definition append (arrays : Arrays) (renderArgs : RenderArgs) (key : string)
    (value : Value) : Arrays * RenderArgs * Outcome string :=
  let stored : Arrays * RenderArgs * Outcome unit :=
    if isNil (get renderArgs key) then
      let '(m, r) := put renderArgs key (VSlice (mkSlice (length arrays) 0 1 1)) in
      ((arrays ++ [[value]])%list, m, r)
    else
      match get renderArgs key with
      | VSlice s =>
          let '(arrays', s') := goAppend arrays s value in
          let '(m, r) := put renderArgs key (VSlice s') in
          (arrays', m, r)
      | _ =>
          (arrays, renderArgs,
           Panicked (PanicError "interface conversion: interface {} is not []interface {}"))
      end in
  match stored with
  | (a, m, Returned _) => (a, m, Returned EmptyString)
  | (a, m, Panicked v) => (a, m, Panicked v)
  | (a, m, Exited msg) => (a, m, Exited msg)
  end.

End Append.

(** The helper ["pluralize"].  The message on a value of another kind is
    only logged. *)
Definition pluralize (items : Value) (pluralOverrides : list string)
    : Outcome string :=
  let '(singular, plural) :=
    if (1 <=? length pluralOverrides)%nat then
      (default EmptyString (pluralOverrides !! 0%nat),
       if (length pluralOverrides =? 2)%nat
       then default EmptyString (pluralOverrides !! 1%nat)
       else "s")
    else (EmptyString, "s") in
  match items with
  | VInt n => Returned (if negb (n =? 1)%Z then plural else singular)
  | VNamedInt _ =>
      Panicked (PanicError "interface conversion: interface {} is not int")
  | VSlice s => Returned (if negb (len s =? 1)%nat then plural else singular)
  | VOtherSlice n => Returned (if negb (n =? 1)%nat then plural else singular)
  | _ => Returned singular
  end.

(** The helper ["pad"]; [width] is an [int].  The difference
    [width-len(str)] is taken only when [len(str) < width], where it
    does not overflow. *)
Definition pad (str : string) (width : Z) : Outcome string :=
  if (Z.of_nat (String.length str) >=? width)%Z then Returned (EscapeString str)
  else
    match Repeat "&nbsp;" (width - Z.of_nat (String.length str)) with
    | Returned spaces => Returned (EscapeString str +:+ spaces)
    | Panicked v => Panicked v
    | Exited msg => Exited msg
    end.

Definition q : string := String quote EmptyString.

(** The helper ["option"]; [flash] is [f.Flash()]. *)
Definition option_ (flash val label : string) : string :=
  let selected := if String.eqb flash val then " selected" else EmptyString in
  "<option value=" +:+ q +:+ EscapeString val +:+ q +:+ selected +:+ ">"
  +:+ EscapeString label +:+ "</option>".

(** The helper ["radio"]; [name] is [f.Name]. *)
Definition radio (flash name val : string) : string :=
  let checked := if String.eqb flash val then " checked" else EmptyString in
  "<input type=" +:+ q +:+ "radio" +:+ q +:+ " name=" +:+ q +:+ EscapeString name
  +:+ q +:+ " value=" +:+ q +:+ EscapeString val +:+ q +:+ checked +:+ ">".

(** The helper ["checkbox"]. *)
Definition checkbox (flash name val : string) : string :=
  let checked := if String.eqb flash val then " checked" else EmptyString in
  "<input type=" +:+ q +:+ "checkbox" +:+ q +:+ " name=" +:+ q +:+ EscapeString name
  +:+ q +:+ " value=" +:+ q +:+ EscapeString val +:+ q +:+ checked +:+ ">".

End funcs.

(** ** Package revel: [GoTemplate.Content] *)

Module content.
Section WithLibs.
Context `{HtmlTemplate}.

(** revel's [ReadLines], declared in another file: the lines it gives
    (its error is dropped by [Content]). *)
Variable ReadLines : string -> list string.

Definition Content (gotmpl : revel.GoTemplate) : Outcome (list string) :=
  match revel.GoTemplate_Name gotmpl with
  | Returned name =>
      Returned (ReadLines
        (default EmptyString (revel.templatePaths (revel.loader gotmpl) !! name)))
  | Panicked v => Panicked v
  | Exited msg => Exited msg
  end.

End WithLibs.
End content.

(** ** More words for the properties *)

Module spec2.

(** How often the byte [c] occurs in [s]. *)
Fixpoint count (c : ascii) (s : string) : nat :=
  match s with
  | EmptyString => 0
  | String d s' => (if Ascii.eqb d c then 1 else 0) + count c s'
  end.

(** The first and the last byte of a text. *)
Definition firstByte (s : string) : option ascii :=
  match s with
  | EmptyString => None
  | String c _ => Some c
  end.

Fixpoint lastByte (s : string) : option ascii :=
  match s with
  | EmptyString => None
  | String c EmptyString => Some c
  | String _ s' => lastByte s'
  end.

(** The bytes a slug is made of: [[a-z0-9_-]]. *)
Definition slugOutByte (c : ascii) : bool :=
  GoLib.isLower c || GoLib.isDigit c || Ascii.eqb c "_" || Ascii.eqb c "-".

End spec2.

(** ** The registry when the program starts *)

Module startup.
Section WithTemplates.
Context `{HtmlTemplate}.

(** The engine after the [init()] of package template_engine and then
    the [init()] of package revel, which registers [GoTemplater] for the
    empty extension. *)
Definition afterInit : engine_types.State :=
  engine_types.RegisterTemplater EmptyString revel.GoTemplater engine_types.init.

End WithTemplates.
End startup.

(** ** An instance whose [Funcs] panics *)

Module demo_panics.

(** The small instance, with a helper table that [Funcs] rejects by a
    panic whose value is not an [error]. *)
#[export] Instance templates : HtmlTemplate := {|
  Tmpl := demo.T;
  ParseTree := string;
  Tree := demo.treeOf;
  New := fun name => demo.mkT name [];
  Funcs := fun _ => Panicked (PanicOther "bad helper");
  Delims := fun t _ _ => t;
  Parse := demo.parse;
  AddParseTree := demo.addParseTree;
  Lookup := demo.lookup;
  Lookup_nil := fun _ => eq_refl;
  Data := unit;
  Execute := fun _ _ => Panicked nilPanic;
  NameOf := fun _ => Panicked nilPanic
|}.

End demo_panics.

(** ** Sequences of calls of a helper *)

Module calls.

(** The helper ["append"] called once for each of [values], in order,
    on the same key, up to the first call that does not return. *)
Fixpoint appendAll (growslice : nat -> nat -> nat) (arrays : funcs.Arrays)
    (renderArgs : funcs.RenderArgs) (key : string) (values : list funcs.Value)
    : funcs.Arrays * funcs.RenderArgs * Outcome string :=
  match values with
  | [] => (arrays, renderArgs, Returned EmptyString)
  | value :: rest =>
      match funcs.append growslice arrays renderArgs key value with
      | (arrays', renderArgs', Returned _) =>
          appendAll growslice arrays' renderArgs' key rest
      | r => r
      end
  end.

(** What [pluralize] counts: an [int], or the length of a slice. *)
Definition countOf (items : funcs.Value) : option Z :=
  match items with
  | funcs.VInt n => Some n
  | funcs.VSlice s => Some (Z.of_nat (funcs.len s))
  | funcs.VOtherSlice n => Some (Z.of_nat n)
  | _ => None
  end.

(** The slice [other] holds no element at or behind the place where
    [append] writes next through [s]: it points into another array, or
    it ends before that place. *)
Definition clearOf (s other : funcs.Slice) : Prop :=
  funcs.array other <> funcs.array s
  \/ (funcs.offset other + funcs.len other <= funcs.offset s + funcs.len s)%nat.

End calls.

(** ** The loop of [filepath.walk] on its own *)

Module walking.
Section Walk.
Context {S : Type}.
Variable walkFn : filepath.WalkFunc (S := S).
Variable path : string.

(** The [for] loop of [walk] over the entries of the directory [path]. *)
Fixpoint range (entries : list filepath.Node) (st : S)
    : S * Outcome (option filepath.WalkErr) :=
  match entries with
  | [] => (st, Returned None)
  | fileInfo :: rest =>
      match filepath.walk walkFn
              (filepath.Join path (filepath.nodeName fileInfo)) fileInfo st with
      | (st, Returned (Some err)) =>
          match fileInfo, err with
          | filepath.Dir _ _, filepath.SkipDir => range rest st
          | _, _ => (st, Returned (Some err))
          end
      | (st, Returned None) => range rest st
      | (st, o) => (st, o)
      end
  end.

(** A walk function that returns no error but [SkipDir], and that only
    for a directory it is shown without an error. *)
Definition onlySkipsDirs : Prop :=
  forall dir info err st e,
    snd (walkFn dir info err st) = Returned (Some e) ->
    e = filepath.SkipDir /\ err = false
    /\ exists i, info = Some i /\ filepath.IsDir i = true.

End Walk.
End walking.

(** ** An instance with a delimiter setting of three tokens *)

Module demo_delims.

#[export] Instance decls : revel.Decls := {|
  revel.Error_Error := engine_types.Error_;
  revel.TemplateDelims := "[[  ]]"
|}.

End demo_delims.

(** ** What a walk keeps of the loader *)

Module refresh_words.
Section WithLibs.
Context `{HtmlTemplate}.

(** From [w] to [w'] the loader keeps its template set, its paths and
    its template paths, and a stored [compileError] stays the same. *)
Definition keeps (w w' : revel.World) : Prop :=
  revel.templateSet (fst w') = revel.templateSet (fst w)
  /\ revel.paths (fst w') = revel.paths (fst w)
  /\ revel.templatePaths (fst w') = revel.templatePaths (fst w)
  /\ (forall e, revel.compileError (fst w) = Some e ->
                revel.compileError (fst w') = Some e).

(** Every key of [seen_paths] in [w] is one in [w']. *)
Definition seenGrows (w w' : revel.World) : Prop :=
  forall k,
    is_Some (engine_types.seen_paths (engine_types.engine (snd w)) !! k) ->
    is_Some (engine_types.seen_paths (engine_types.engine (snd w')) !! k).

End WithLibs.
End refresh_words.
(** * Properties *)

(** ** Regular expressions of one class *)

Module regexp_facts.
Import GoLib.

Lemma dropWhile_ext (p q : ascii -> bool) (s : string) :
  (forall c, p c = q c) -> dropWhile p s = dropWhile q s.
Proof.
  intros Hpq. induction s as [|c s IH]; simpl; [reflexivity|].
  rewrite Hpq, IH. reflexivity.
Qed.

Lemma dropWhileEnd_ext (p q : ascii -> bool) (s : string) :
  (forall c, p c = q c) -> dropWhileEnd p s = dropWhileEnd q s.
Proof.
  intros Hpq. induction s as [|c s IH]; simpl; [reflexivity|].
  rewrite Hpq, IH. reflexivity.
Qed.

(** Replacing every byte of a class by nothing filters the text. *)
Lemma replaceAll_One_empty (p : ascii -> bool) (s : string) :
  replaceAll [One p] EmptyString 0 s = filterBytes (fun c => negb (p c)) s.
Proof.
  induction s as [|c s IH]; simpl; [reflexivity|].
  destruct (p c); simpl; rewrite IH; reflexivity.
Qed.

Lemma matchHere_Many1 (p : ascii -> bool) (s : string) :
  matchHere [Many1 p] s =
  match spec.runLength p s with
  | O => None
  | S n => Some (S n)
  end.
Proof.
  induction s as [|c s IH]; simpl; [reflexivity|].
  destruct (p c); [|reflexivity].
  simpl in IH. rewrite IH.
  destruct s as [|d s]; simpl; [reflexivity|].
  destruct (p d); reflexivity.
Qed.

(** Replacing the runs of a class: at the start of a match the whole run
    is still to be skipped. *)
Lemma replaceAll_Many1 (p : ascii -> bool) (sep : string) (s : string) :
  replaceAll [Many1 p] sep 0 s = spec.collapseRuns p sep false s
  /\ replaceAll [Many1 p] sep (spec.runLength p s) s = spec.collapseRuns p sep true s.
Proof.
  induction s as [|c s [IH0 IHrun]]; [split; reflexivity|].
  assert (H0 : replaceAll [Many1 p] sep 0 (String c s)
               = spec.collapseRuns p sep false (String c s)).
  { cbn [replaceAll]. rewrite matchHere_Many1. cbn [spec.runLength spec.collapseRuns].
    destruct (p c).
    - rewrite IHrun. reflexivity.
    - rewrite IH0. reflexivity. }
  split; [exact H0|].
  cbn [spec.runLength]. destruct (p c) eqn:Hc.
  - cbn [replaceAll spec.collapseRuns]. rewrite Hc. exact IHrun.
  - rewrite H0. cbn [spec.collapseRuns]. rewrite Hc. reflexivity.
Qed.

End regexp_facts.

(** ** The slug *)

Module slug_facts.
Import GoLib.

Lemma filter_invalidSlug (s : string) :
  ReplaceAllString revel.invalidSlugPattern s EmptyString
  = filterBytes revel.slugByte s.
Proof.
  unfold ReplaceAllString, revel.invalidSlugPattern.
  rewrite regexp_facts.replaceAll_One_empty.
  induction s as [|c s IH]; simpl; [reflexivity|].
  rewrite negb_involutive, IH. reflexivity.
Qed.

Lemma Trim_separator (s : string) : Trim s "-" = spec.trimSeparators s.
Proof.
  unfold Trim, spec.trimSeparators.
  rewrite (regexp_facts.dropWhile_ext _ spec.isSeparator).
  - apply regexp_facts.dropWhileEnd_ext. intros c. simpl. apply orb_false_r.
  - intros c. simpl. apply orb_false_r.
Qed.

End slug_facts.

(** C5: for every input text, [Slug] lower-cases it, strips the bytes
    outside [[a-z0-9 _-]], collapses each run of white space to one
    ["-"] and trims the separators at both ends; and it maps
    ["Hello, World!  Foo_Bar"] to ["hello-world-foo_bar"] and
    ["  ---Test---  "] to ["test"]. *)
Theorem Slug_lower_strip_collapse_trim `{GoLib.Unicode} :
  (forall text : string, revel.Slug text = spec.slugOf text)
  /\ revel.Slug "Hello, World!  Foo_Bar" = "hello-world-foo_bar"
  /\ revel.Slug "  ---Test---  " = "test".
Proof.
  split; [|split; reflexivity].
  intros text. unfold revel.Slug, spec.slugOf.
  rewrite slug_facts.Trim_separator, slug_facts.filter_invalidSlug.
  unfold GoLib.ReplaceAllString, revel.whiteSpacePattern.
  rewrite (proj1 (regexp_facts.replaceAll_Many1 _ _ _)). reflexivity.
Qed.

(** ** Slices and the line fragment *)

Module fragment_facts.
Import GoLib.

Lemma app_nil (x : string) : EmptyString +:+ x = x.
Proof. reflexivity. Qed.

Lemma app_cons (c : ascii) (a x : string) : String c a +:+ x = String c (a +:+ x).
Proof. reflexivity. Qed.

Lemma sliceTo_app (pre x : string) :
  sliceTo (pre +:+ x) (String.length pre) = Some pre.
Proof.
  induction pre as [|c pre IH]; [reflexivity|].
  rewrite app_cons. simpl. rewrite IH. reflexivity.
Qed.

Lemma sliceFrom_app (pre x : string) :
  sliceFrom (pre +:+ x) (String.length pre) = Some x.
Proof. induction pre as [|c pre IH]; [reflexivity|exact IH]. Qed.

Lemma app_assoc (a b c : string) : (a +:+ b) +:+ c = a +:+ (b +:+ c).
Proof.
  induction a as [|x a IH]; [reflexivity|].
  rewrite !app_cons, IH. reflexivity.
Qed.

Lemma length_app (a b : string) :
  String.length (a +:+ b) = (String.length a + String.length b)%nat.
Proof.
  induction a as [|x a IH]; [reflexivity|].
  rewrite app_cons. simpl. rewrite IH. reflexivity.
Qed.

Lemma prefix_empty (s : string) : String.prefix EmptyString s = true.
Proof. destruct s; reflexivity. Qed.

Lemma prefix_colon (c : ascii) (s : string) :
  String.prefix ":" (String c s) = Ascii.eqb c ":".
Proof.
  change (String.prefix ":" (String c s))
    with (match ascii_dec ":" c with
          | left _ => String.prefix EmptyString s
          | right _ => false
          end).
  destruct (ascii_dec ":" c) as [<-|Hne].
  - rewrite prefix_empty. reflexivity.
  - symmetry. apply Ascii.eqb_neq. congruence.
Qed.

Lemma matchHere_One (p : ascii -> bool) (re : Regexp) (c : ascii) (s : string) :
  matchHere (One p :: re) (String c s)
  = if p c then S <$> matchHere re s else None.
Proof. reflexivity. Qed.

Lemma matchHere_Many1_cons (p : ascii -> bool) (re : Regexp) (c : ascii) (s : string) :
  matchHere (Many1 p :: re) (String c s)
  = if p c then
      match matchHere (Many1 p :: re) s with
      | Some n => Some (S n)
      | None => S <$> matchHere re s
      end
    else None.
Proof. reflexivity. Qed.

(** Digits, then a colon: the match of the last two atoms. *)
Lemma matchHere_digits_colon (s : string) :
  matchHere [Many1 isDigit; One (Ascii.eqb ":")] s =
  if negb (String.eqb (spec.takeWhile isDigit s) EmptyString)
     && String.prefix ":" (dropWhile isDigit s)
  then Some (S (String.length (spec.takeWhile isDigit s)))
  else None.
Proof.
  induction s as [|c s IH]; [reflexivity|].
  rewrite matchHere_Many1_cons, IH. clear IH.
  cbn [spec.takeWhile dropWhile].
  destruct (isDigit c) eqn:Hc; [|reflexivity].
  cbn [String.eqb negb andb String.length].
  destruct s as [|d s]; [reflexivity|].
  rewrite matchHere_One.
  cbn [spec.takeWhile dropWhile].
  destruct (isDigit d) eqn:Hd.
  - cbn [String.eqb negb andb String.length].
    destruct (String.prefix ":" (dropWhile isDigit s)); [reflexivity|].
    destruct (Ascii.eqb ":" d) eqn:E; [|reflexivity].
    apply Ascii.eqb_eq in E. subst d. discriminate Hd.
  - cbn [String.eqb negb andb String.length]. rewrite prefix_colon.
    rewrite (Ascii.eqb_sym ":" d).
    destruct (Ascii.eqb d ":"); reflexivity.
Qed.

Lemma matchHere_lineFragment_None (s : string) :
  spec.startsFragment s = false -> matchHere revel.lineFragment s = None.
Proof.
  destruct s as [|c s]; [reflexivity|].
  intros Hs. unfold revel.lineFragment. rewrite matchHere_One.
  destruct (Ascii.eqb ":" c) eqn:Hc; [|reflexivity].
  apply Ascii.eqb_eq in Hc. subst c.
  rewrite matchHere_digits_colon. cbn [spec.startsFragment] in Hs.
  rewrite Hs. reflexivity.
Qed.

Lemma takeWhile_digits (ds x : string) :
  allBytes isDigit ds = true ->
  spec.takeWhile isDigit (ds +:+ String ":" x) = ds
  /\ dropWhile isDigit (ds +:+ String ":" x) = String ":" x.
Proof.
  induction ds as [|c ds IH]; intros Hds.
  - split; reflexivity.
  - rewrite app_cons. cbn [allBytes] in Hds.
    apply andb_true_iff in Hds as [Hc Hds].
    cbn [spec.takeWhile dropWhile]. rewrite Hc.
    destruct (IH Hds) as [-> ->]. split; reflexivity.
Qed.

Lemma matchHere_lineFragment_Some (ds x : string) :
  String.eqb ds EmptyString = false -> allBytes isDigit ds = true ->
  matchHere revel.lineFragment (String ":" (ds +:+ String ":" x))
  = Some (S (S (String.length ds))).
Proof.
  intros Hne Hds. unfold revel.lineFragment.
  rewrite matchHere_One, matchHere_digits_colon.
  destruct (takeWhile_digits ds x Hds) as [-> ->].
  rewrite Hne, prefix_colon. reflexivity.
Qed.

(** What follows the colon that closes a fragment does not decide
    whether the fragment is there. *)
Lemma startsFragment_app (c : ascii) (q x : string) :
  spec.startsFragment (String c (q +:+ String ":" x))
  = spec.startsFragment (String c (q +:+ ":")).
Proof.
  assert (Hq : forall q,
    spec.takeWhile isDigit (q +:+ String ":" x) = spec.takeWhile isDigit (q +:+ ":")
    /\ String.prefix ":" (dropWhile isDigit (q +:+ String ":" x))
       = String.prefix ":" (dropWhile isDigit (q +:+ ":"))).
  { clear q. induction q as [|d q [IH1 IH2]].
    - rewrite !app_nil. cbn [spec.takeWhile dropWhile].
      change (isDigit ":") with false. cbn iota.
      rewrite !prefix_colon. split; reflexivity.
    - rewrite !app_cons. cbn [spec.takeWhile dropWhile].
      destruct (isDigit d).
      + rewrite IH1, IH2. split; reflexivity.
      + rewrite !prefix_colon. split; reflexivity. }
  unfold spec.startsFragment.
  destruct (Hq q) as [-> ->]. reflexivity.
Qed.

Lemma FindStringIndex_first (pre ds x : string) :
  String.eqb ds EmptyString = false -> allBytes isDigit ds = true ->
  spec.firstFragment (pre +:+ ":") = None ->
  FindStringIndex revel.lineFragment (pre +:+ String ":" (ds +:+ String ":" x))
  = Some (String.length pre, String.length pre + S (S (String.length ds)))%nat.
Proof.
  intros Hne Hds. induction pre as [|c pre IH]; intros Hfirst.
  - rewrite app_nil. destruct ds as [|d ds]; [discriminate|].
    rewrite app_cons.
    change (FindStringIndex ?re (String ?a ?s))
      with (match matchHere re (String a s) with
            | Some n => Some (0, n)%nat
            | None => '(i0, i1) ← FindStringIndex re s; Some (S i0, S i1)
            end).
    rewrite <- app_cons, matchHere_lineFragment_Some by assumption.
    reflexivity.
  - rewrite app_cons in *.
    change (FindStringIndex ?re (String ?a ?s))
      with (match matchHere re (String a s) with
            | Some n => Some (0, n)%nat
            | None => '(i0, i1) ← FindStringIndex re s; Some (S i0, S i1)
            end).
    change (spec.firstFragment (String ?a ?s))
      with (if spec.startsFragment (String a s) then Some 0%nat
            else S <$> spec.firstFragment s) in Hfirst.
    destruct (spec.startsFragment (String c (pre +:+ ":"))) eqn:Hs; [discriminate|].
    rewrite matchHere_lineFragment_None
      by (rewrite startsFragment_app; exact Hs).
    rewrite IH; [reflexivity|].
    destruct (spec.firstFragment (pre +:+ ":")); [discriminate|reflexivity].
Qed.

Lemma FindStringIndex_none (s : string) :
  spec.firstFragment s = None -> FindStringIndex revel.lineFragment s = None.
Proof.
  induction s as [|c s IH]; intros Hfirst.
  - reflexivity.
  - change (FindStringIndex ?re (String ?a ?s))
      with (match matchHere re (String a s) with
            | Some n => Some (0, n)%nat
            | None => '(i0, i1) ← FindStringIndex re s; Some (S i0, S i1)
            end).
    change (spec.firstFragment (String ?a ?s))
      with (if spec.startsFragment (String a s) then Some 0%nat
            else S <$> spec.firstFragment s) in Hfirst.
    destruct (spec.startsFragment (String c s)) eqn:Hs; [discriminate|].
    rewrite matchHere_lineFragment_None by exact Hs.
    rewrite IH; [reflexivity|].
    destruct (spec.firstFragment s); [discriminate|reflexivity].
Qed.

Lemma digitsVal_nonneg (s : string) (acc : Z) :
  (0 <= acc)%Z -> (0 <= digitsVal acc s)%Z.
Proof.
  revert acc. induction s as [|c s IH]; intros acc Hacc; [exact Hacc|].
  apply IH. unfold digitVal. lia.
Qed.

(** [Atoi] of a text of digits: its value, or the largest [int]. *)
Lemma Atoi_digits (ds : string) :
  String.eqb ds EmptyString = false -> allBytes isDigit ds = true ->
  fst (Atoi ds) = Z.min (digitsVal 0 ds) maxInt.
Proof.
  destruct ds as [|c ds]; [discriminate|]. intros _ Hall.
  assert (Hshape : Atoi (String c ds) =
    let v := digitsVal 0 (String c ds) in
    if (v >? maxInt)%Z then (maxInt, false)
    else if (v <? minInt)%Z then (minInt, false) else (v, true)).
  { pose proof Hall as Hc. cbn [allBytes] in Hc.
    apply andb_true_iff in Hc as [Hc _].
    destruct c as [[] [] [] [] [] [] [] []]; try discriminate Hc;
      cbv beta iota delta [Atoi]; rewrite Hall; reflexivity. }
  rewrite Hshape. cbv zeta.
  pose proof (digitsVal_nonneg (String c ds) 0 ltac:(lia)) as Hv.
  destruct (Z.gtb_spec (digitsVal 0 (String c ds)) maxInt) as [Hgt|Hle].
  - cbn [fst]. lia.
  - destruct (Z.ltb_spec (digitsVal 0 (String c ds)) minInt) as [Hlt|_].
    + unfold minInt in Hlt. lia.
    + cbn [fst]. lia.
Qed.

Lemma Index_afterFirstColon (s : string) :
  match Index s ":" with
  | Some colon =>
      sliceFrom s (colon + 1) = spec.afterFirstColon s
      /\ is_Some (spec.afterFirstColon s)
  | None => spec.afterFirstColon s = None
  end.
Proof.
  induction s as [|c s IH]; [reflexivity|].
  change (Index (String c s) ":")
    with (if String.prefix ":" (String c s) then Some 0%nat
          else S <$> Index s ":").
  rewrite prefix_colon. cbn [spec.afterFirstColon].
  destruct (Ascii.eqb c ":"); [split; [reflexivity|eexists; reflexivity]|].
  destruct (Index s ":") as [colon|]; [|exact IH].
  exact IH.
Qed.

Lemma trim_to_first_colon (s : string) :
  match Index s ":" with
  | Some colon => default EmptyString (sliceFrom s (colon + 1))
  | None => s
  end = default s (spec.afterFirstColon s).
Proof.
  pose proof (Index_afterFirstColon s) as Hs.
  destruct (Index s ":") as [colon|].
  - destruct Hs as [-> [r ->]]. reflexivity.
  - rewrite Hs. reflexivity.
Qed.

(** The three slices [parseTemplateError] takes around a fragment. *)
Lemma slices_around (pre ds rest : string) (c : ascii) :
  let description := pre +:+ String ":" (ds +:+ String ":" (String c rest)) in
  let i0 := String.length pre in
  let i1 := (String.length pre + S (S (String.length ds)))%nat in
  slice description (i0 + 1) (i1 - 1) = Some ds
  /\ sliceTo description i0 = Some pre
  /\ sliceFrom description (i1 + 1) = Some rest.
Proof.
  intros description i0 i1. subst description i0 i1. repeat split.
  - unfold slice.
    replace (String.length pre + S (S (String.length ds)) - 1)%nat
      with (String.length (pre +:+ String ":" ds))
      by (rewrite length_app; simpl; lia).
    destruct (Nat.leb_spec (String.length pre + 1)
                (String.length (pre +:+ String ":" ds))) as [_|Hlt];
      [|rewrite length_app in Hlt; simpl in Hlt; lia].
    replace (pre +:+ String ":" (ds +:+ String ":" (String c rest)))
      with ((pre +:+ String ":" ds) +:+ String ":" (String c rest))
      by (rewrite app_assoc, app_cons; reflexivity).
    rewrite sliceTo_app. cbn [mbind option_bind].
    replace (pre +:+ String ":" ds) with ((pre +:+ ":") +:+ ds)
      by (rewrite app_assoc; reflexivity).
    replace (String.length pre + 1)%nat with (String.length (pre +:+ ":"))
      by (rewrite length_app; reflexivity).
    apply sliceFrom_app.
  - apply sliceTo_app.
  - replace (pre +:+ String ":" (ds +:+ String ":" (String c rest)))
      with ((pre +:+ String ":" (ds +:+ String ":" (String c EmptyString))) +:+ rest)
      by (rewrite !app_assoc, !app_cons, !app_assoc; reflexivity).
    replace (String.length pre + S (S (String.length ds)) + 1)%nat
      with (String.length (pre +:+ String ":" (ds +:+ String ":" (String c EmptyString))))
      by (rewrite length_app; simpl; rewrite length_app; simpl; lia).
    apply sliceFrom_app.
Qed.

End fragment_facts.

(** C4 (as amended): when the message of a compiler error holds a
    [:<digits>:] fragment that is followed by at least one byte,
    [parseTemplateError] takes the line number from the first such
    fragment (the largest [int] when the digits exceed it), drops what
    precedes the fragment up to its FIRST colon and trims the white
    space around the rest to give the template name, and returns as the
    description what follows the byte after the fragment; when the
    message holds no such fragment it returns the empty name, line zero
    and the whole message. *)
Theorem parseTemplateError_first_colon `{GoLib.Unicode} `{revel.Decls}
    (err plain : error) (pre ds rest : string) (c : ascii) :
  revel.errorMessage err = pre +:+ ":" +:+ ds +:+ ":" +:+ String c rest ->
  String.eqb ds EmptyString = false ->
  GoLib.allBytes GoLib.isDigit ds = true ->
  spec.firstFragment (pre +:+ ":") = None ->
  spec.firstFragment (revel.errorMessage plain) = None ->
  revel.parseTemplateError err
  = Returned (GoLib.TrimSpace (default pre (spec.afterFirstColon pre)),
              Z.min (GoLib.digitsVal 0 ds) GoLib.maxInt, rest)
  /\ revel.parseTemplateError plain
     = Returned (EmptyString, 0%Z, revel.errorMessage plain).
Proof.
  intros Hmsg Hne Hds Hfirst Hplain. split.
  - unfold revel.parseTemplateError. rewrite Hmsg.
    change (pre +:+ ":" +:+ ds +:+ ":" +:+ String c rest)
      with (pre +:+ String ":" (ds +:+ String ":" (String c rest))).
    unfold revel.parseDescription.
    rewrite fragment_facts.FindStringIndex_first by assumption.
    destruct (fragment_facts.slices_around pre ds rest c) as (-> & -> & ->).
    rewrite fragment_facts.trim_to_first_colon,
      fragment_facts.Atoi_digits by assumption.
    reflexivity.
  - unfold revel.parseTemplateError, revel.parseDescription.
    rewrite fragment_facts.FindStringIndex_none by assumption.
    reflexivity.
Qed.

(** The amended C4 at the message of the comment in the code and at a
    message without a position. *)
Lemma parseTemplateError_first_colon_witness :
  @revel.parseTemplateError demo.unicode demo.decls
    (OtherError "html/template:Application/Register.html:36: no such template")
  = Returned ("Application/Register.html", 36%Z, "no such template")
  /\ @revel.parseTemplateError demo.unicode demo.decls (OtherError "unexpected EOF")
     = Returned (EmptyString, 0%Z, "unexpected EOF").
Proof.
  apply (@parseTemplateError_first_colon demo.unicode demo.decls
           (OtherError "html/template:Application/Register.html:36: no such template")
           (OtherError "unexpected EOF")
           "html/template:Application/Register.html" "36" "no such template" " ");
    reflexivity.
Defined.

(** C4 as stated fails: with two colons before the fragment, the name is
    cut at the first colon, not at the last one. *)
Lemma parseTemplateError_not_last_colon :
  let pre := "html/template:C:/views/app.html" in
  let msg := pre +:+ ":36: unexpected EOF" in
  @revel.parseTemplateError demo.unicode demo.decls (OtherError msg)
  = Returned ("C:/views/app.html", 36%Z, "unexpected EOF")
  /\ @revel.parseTemplateError demo.unicode demo.decls (OtherError msg)
     <> Returned (@GoLib.TrimSpace demo.unicode (default pre (spec.afterLastColon pre)),
                  36%Z, "unexpected EOF").
Proof. split; [reflexivity|discriminate]. Qed.

(** ** The engine registry *)

Module engine_facts.
Import engine_types lifetime.

Lemma Ext_shape (p : string) :
  GoLib.Ext p = EmptyString \/ exists r, GoLib.Ext p = String "." r.
Proof.
  induction p as [|c p IH]; [left; reflexivity|].
  cbn [GoLib.Ext]. destruct IH as [-> | [r ->]]; [|right; eauto].
  destruct (Ascii.eqb c ".") eqn:Hc; [|left; reflexivity].
  apply Ascii.eqb_eq in Hc. subst c.
  destruct (negb (GoLib.memByte "/" p)); [right; eauto|left; reflexivity].
Qed.

(** [path.Ext] keeps the dot, so the test [ext == "html"] of the other
    version never holds. *)
Lemma Ext_not_html (p : string) : String.eqb (GoLib.Ext p) "html" = false.
Proof. destruct (Ext_shape p) as [-> | [r ->]]; reflexivity. Qed.

Lemma Split_joinLines (s : string) :
  spec.joinLines (GoLib.Split s "010") = s
  /\ GoLib.Split s "010" <> [].
Proof.
  induction s as [|c s [IH Hne]]; [split; [reflexivity|discriminate]|].
  cbn [GoLib.Split].
  destruct (Ascii.eqb c "010") eqn:Hc.
  - apply Ascii.eqb_eq in Hc. subst c. split; [|discriminate].
    destruct (GoLib.Split s "010") as [|w ws]; [congruence|].
    change (spec.joinLines (EmptyString :: w :: ws))
      with (String "010" (spec.joinLines (w :: ws))).
    rewrite IH. reflexivity.
  - destruct (GoLib.Split s "010") as [|w ws]; [congruence|].
    split; [|discriminate].
    destruct ws as [|w' ws].
    + cbn in IH |- *. rewrite IH. reflexivity.
    + change (spec.joinLines (String c w :: w' :: ws))
        with (String c (w +:+ String "010" (spec.joinLines (w' :: ws)))).
      change (spec.joinLines (w :: w' :: ws))
        with (w +:+ String "010" (spec.joinLines (w' :: ws))) in IH.
      rewrite IH. reflexivity.
Qed.

Section WithTemplates.
Context `{HtmlTemplate}.

(** Both versions of [AddTemplate] in one shape. *)
Lemma AddTemplateOf_eq (v : Version) (fs : Files) (info : TemplateInfo) (st : State) :
  AddTemplateOf v fs info st =
  match seen_paths (engine st) !! seenKey v info with
  | Some _ => (st, Returned None)
  | None =>
      let st1 := emit (EvReadFile (InfoPath info))
                   (withEngine st (setSeen (seenKey v info) (InfoPath info) (engine st))) in
      match fs (InfoPath info) with
      | None => (st1, Returned None)
      | Some fileStr =>
          match handlers (engine st) !! GoLib.Ext (InfoPath info) with
          | None =>
              (st1, Returned (Some (noHandlerError (InfoPath info)
                                      (GoLib.Ext (InfoPath info)) fileStr)))
          | Some loader => compileAndMerge loader info fileStr st1
          end
      end
  end.
Proof.
  destruct v as [|sep]; cbn [AddTemplateOf seenKey].
  - reflexivity.
  - unfold template_engine_alt.AddTemplate.
    rewrite Ext_not_html. reflexivity.
Qed.

(** Where [os.PathSeparator] is not a backslash, the other version
    records every template under the empty key: once one call has got
    past the test of [seen_paths], every later call, of whatever name,
    returns nil at once. *)
Lemma alt_after_first_call (sep : ascii) (fs fs' : Files)
    (info info' : TemplateInfo) (st : State) :
  Ascii.eqb sep "\" = false ->
  let st1 := fst (template_engine_alt.AddTemplate sep fs info st) in
  template_engine_alt.AddTemplate sep fs' info' st1 = (st1, Returned None).
Proof.
  intros Hsep st1.
  assert (Hkey : forall i, seenKey (OtherVersion sep) i = EmptyString).
  { intros i. cbn. unfold template_engine_alt.templateNameOf.
    rewrite Hsep. reflexivity. }
  assert (Hseen : is_Some (seen_paths (engine st1) !! EmptyString)).
  { subst st1.
    change (template_engine_alt.AddTemplate sep fs info st)
      with (AddTemplateOf (OtherVersion sep) fs info st).
    rewrite AddTemplateOf_eq, Hkey.
    destruct (seen_paths (engine st) !! EmptyString) as [p|] eqn:Hs.
    - cbn. rewrite Hs. eauto.
    - cbv zeta.
      assert (Hins : is_Some (<[EmptyString := InfoPath info]>
                                (seen_paths (engine st)) !! EmptyString))
        by (rewrite lookup_insert_eq; eauto).
      destruct (fs (InfoPath info)) as [fileStr|]; [|exact Hins].
      destruct (handlers (engine st) !! GoLib.Ext (InfoPath info)) as [loader|];
        [|exact Hins].
      unfold compileAndMerge.
      destruct (loader _ _ _) as [[[t|] [e|]]|pv|msg]; cbn; try exact Hins.
      + destruct (TemplateSet (engine st)) as [ts|]; cbn; [|exact Hins].
        destruct (AddParseTree ts (Name info) (Tree t)); exact Hins.
      + destruct (TemplateSet (engine st)) as [ts|]; exact Hins. }
  change (template_engine_alt.AddTemplate sep fs' info' st1)
    with (AddTemplateOf (OtherVersion sep) fs' info' st1).
  rewrite AddTemplateOf_eq, Hkey. destruct Hseen as [p ->]. reflexivity.
Qed.

(** What [compileAndMerge] does to the merged set and to the trace. *)
Lemma compileAndMerge_cases (loader : TemplateLoader) (info : TemplateInfo)
    (fileStr : string) (st : State) :
  let st' := fst (compileAndMerge loader info fileStr st) in
  seen_paths (engine st') = seen_paths (engine st)
  /\ handlers (engine st') = handlers (engine st)
  /\ delims (engine st') = delims (engine st)
  /\ ((TemplateSet (engine st') = TemplateSet (engine st)
       /\ (trace st' = trace st
           \/ trace st' = EvCompile (Name info) false :: trace st))
      \/ (exists t, loader (Name info) fileStr (delims (engine st)) = Returned (Some t, None)
          /\ trace st' = EvCompile (Name info) true :: trace st
          /\ TemplateSet (engine st') =
             Some (match TemplateSet (engine st) with
                   | None => t
                   | Some ts => fst (AddParseTree ts (Name info) (Tree t))
                   end))).
Proof.
  unfold compileAndMerge.
  destruct (loader (Name info) fileStr (delims (engine st)))
    as [[[t|] [e|]]|v|msg]; cbn; try (repeat split; left; split; eauto; fail).
  - destruct (TemplateSet (engine st)) as [ts|] eqn:Hts; cbn.
    + destruct (AddParseTree ts (Name info) (Tree t)) as [ts' e] eqn:Hadd. cbn.
      repeat split. right. exists t. rewrite Hadd. repeat split.
    + repeat split. right. exists t. repeat split.
  - destruct (TemplateSet (engine st)) as [ts|] eqn:Hts; cbn.
    + repeat split. left. split; eauto.
    + repeat split. left. split; eauto.
Qed.

Lemma compileAndMerge_inv (loader : TemplateLoader) (info : TemplateInfo)
    (fileStr : string) (st : State) :
  nilIffNotCompiled st ->
  nilIffNotCompiled (fst (compileAndMerge loader info fileStr st)).
Proof.
  intros Hinv.
  destruct (compileAndMerge_cases loader info fileStr st)
    as (_ & _ & _ & [[Hset [Htr|Htr]] | (t & _ & Htr & Hset)]);
    unfold nilIffNotCompiled in *; rewrite Hset, Htr; cbn.
  - exact Hinv.
  - exact Hinv.
  - split; discriminate.
Qed.

Lemma AddTemplateOf_inv (v : Version) (fs : Files) (info : TemplateInfo) (st : State) :
  nilIffNotCompiled st -> nilIffNotCompiled (fst (AddTemplateOf v fs info st)).
Proof.
  intros Hinv. rewrite AddTemplateOf_eq.
  destruct (seen_paths (engine st) !! seenKey v info); [exact Hinv|].
  cbv zeta.
  destruct (fs (InfoPath info)) as [fileStr|]; [|exact Hinv].
  destruct (handlers (engine st) !! GoLib.Ext (InfoPath info)); [|exact Hinv].
  apply compileAndMerge_inv. exact Hinv.
Qed.

Lemma step_inv (v : Version) (fs : Files) (op : Op) (st : State) :
  nilIffNotCompiled st -> nilIffNotCompiled (step (AddTemplateOf v fs) op st).
Proof.
  intros Hinv. destruct op as [|ext loader|d|info]; cbn [step].
  - split; reflexivity.
  - exact Hinv.
  - unfold SetDelims. destruct (negb (sliceLen d =? 2)%nat); exact Hinv.
  - apply AddTemplateOf_inv. exact Hinv.
Qed.

Lemma run_inv (v : Version) (fs : Files) (ops : list Op) (st : State) :
  nilIffNotCompiled st -> nilIffNotCompiled (run (AddTemplateOf v fs) ops st).
Proof.
  revert st. induction ops as [|op ops IH]; intros st Hinv; [exact Hinv|].
  apply IH, step_inv, Hinv.
Qed.

(** How a call of [AddTemplate] changes the set. *)
Lemma AddTemplateOf_TemplateSet (v : Version) (fs : Files) (info : TemplateInfo)
    (st : State) :
  let st' := fst (AddTemplateOf v fs info st) in
  (TemplateSet (engine st') = TemplateSet (engine st)
   /\ forall t, ~ compiles v fs info st t)
  \/ exists t,
       compiles v fs info st t
       /\ trace st' = EvCompile (Name info) true :: EvReadFile (InfoPath info) :: trace st
       /\ TemplateSet (engine st') =
          Some (match TemplateSet (engine st) with
                | None => t
                | Some ts => fst (AddParseTree ts (Name info) (Tree t))
                end).
Proof.
  rewrite AddTemplateOf_eq. unfold compiles.
  destruct (seen_paths (engine st) !! seenKey v info) eqn:Hseen;
    [left; split; [reflexivity|]; intros t (l & f & ? & _); congruence|].
  cbv zeta.
  destruct (fs (InfoPath info)) as [fileStr|] eqn:Hfs;
    [|left; split; [reflexivity|]; intros t (l & f & _ & ? & _); congruence].
  destruct (handlers (engine st) !! GoLib.Ext (InfoPath info)) as [loader|] eqn:Hh;
    [|left; split; [reflexivity|]; intros t (l & f & _ & _ & ? & _); congruence].
  unfold compileAndMerge.
  cbn [engine emit withEngine setSeen delims TemplateSet].
  destruct (loader (Name info) fileStr (delims (engine st)))
    as [[[t|] [e|]]|pv|msg] eqn:Hl; cbn;
    try (left; split; [reflexivity|];
         intros t' (l & f & _ & Hf & Hl' & Hr); congruence).
  - right. exists t. split; [exists loader, fileStr; auto|].
    destruct (TemplateSet (engine st)) as [ts|]; cbn.
    + destruct (AddParseTree ts (Name info) (Tree t)) as [ts' e]. cbn.
      split; reflexivity.
    + split; reflexivity.
  - left. destruct (TemplateSet (engine st)) as [ts|] eqn:Hts; cbn; rewrite ?Hts;
      (split; [reflexivity|]; intros t' (l & f & _ & Hf & Hl' & Hr); congruence).
Qed.

End WithTemplates.
End engine_facts.

(** ** The calls of one build generation *)

Module generation_facts.
Import engine_types lifetime generation.
Section WithTemplates.
Context `{HtmlTemplate}.

(** What a call of [AddTemplate] does to [seen_paths] and to the
    handlers, however it ends: it adds the entry of its key when there
    is none, and nothing else. *)
Lemma AddTemplateOf_seen_paths (v : Version) (fs : Files) (info : TemplateInfo)
    (st : State) :
  seen_paths (engine (fst (AddTemplateOf v fs info st)))
  = match seen_paths (engine st) !! seenKey v info with
    | Some _ => seen_paths (engine st)
    | None => <[seenKey v info := InfoPath info]> (seen_paths (engine st))
    end
  /\ handlers (engine (fst (AddTemplateOf v fs info st))) = handlers (engine st).
Proof.
  rewrite engine_facts.AddTemplateOf_eq.
  destruct (seen_paths (engine st) !! seenKey v info) as [p|]; [split; reflexivity|].
  cbv zeta. destruct (fs (InfoPath info)) as [fileStr|]; [|split; reflexivity].
  destruct (handlers (engine st) !! GoLib.Ext (InfoPath info)) as [loader|];
    [|split; reflexivity].
  match goal with
  | |- context [compileAndMerge loader info fileStr ?s] =>
      destruct (engine_facts.compileAndMerge_cases loader info fileStr s)
        as (-> & -> & _)
  end.
  split; reflexivity.
Qed.

(** A call whose key is in [seen_paths] returns nil at once. *)
Lemma seen_is_skipped (v : Version) (fs : Files) (info : TemplateInfo) (st : State) :
  is_Some (seen_paths (engine st) !! seenKey v info) ->
  AddTemplateOf v fs info st = (st, Returned None).
Proof.
  intros [p Hp]. rewrite engine_facts.AddTemplateOf_eq, Hp. reflexivity.
Qed.

(** A call records its key, whatever it does afterwards. *)
Lemma key_is_recorded (v : Version) (fs : Files) (info : TemplateInfo) (st : State) :
  is_Some (seen_paths (engine (fst (AddTemplateOf v fs info st))) !! seenKey v info).
Proof.
  destruct (AddTemplateOf_seen_paths v fs info st) as (-> & _).
  destruct (seen_paths (engine st) !! seenKey v info) as [p|] eqn:Hs.
  - rewrite Hs. eauto.
  - rewrite lookup_insert_eq. eauto.
Qed.

(** Within a generation an entry of [seen_paths] is never removed and
    never overwritten. *)
Lemma step_seen (v : Version) (fs : Files) (op : Op) (st : State)
    (k p : string) :
  isClear op = false ->
  seen_paths (engine st) !! k = Some p ->
  seen_paths (engine (step (AddTemplateOf v fs) op st)) !! k = Some p.
Proof.
  intros Hop Hk. destruct op as [|extension loader|d|info]; cbn [step].
  - discriminate Hop.
  - exact Hk.
  - unfold SetDelims. destruct (negb _); exact Hk.
  - destruct (AddTemplateOf_seen_paths v fs info st) as (-> & _).
    destruct (seen_paths (engine st) !! seenKey v info) as [q|] eqn:Hs; [exact Hk|].
    rewrite lookup_insert_ne; [exact Hk|]. intros <-. congruence.
Qed.

Lemma runCalls_seen (v : Version) (calls : list Call) (st : State) (k p : string) :
  sameGeneration calls = true ->
  seen_paths (engine st) !! k = Some p ->
  seen_paths (engine (runCalls v calls st)) !! k = Some p.
Proof.
  revert st. induction calls as [|[fs op] calls IH]; intros st Hgen Hk; [exact Hk|].
  cbn [sameGeneration forallb snd] in Hgen.
  apply andb_prop in Hgen as [Hop Hgen]. apply negb_true_iff in Hop.
  cbn [runCalls fold_left fst snd]. apply IH; [exact Hgen|].
  apply step_seen; assumption.
Qed.

(** The calls other than [RegisterTemplater] leave the handlers. *)
Lemma step_handlers (v : Version) (fs : Files) (op : Op) (st : State) :
  isRegister op = false ->
  handlers (engine (step (AddTemplateOf v fs) op st)) = handlers (engine st).
Proof.
  intros Hop. destruct op as [|extension loader|d|info]; cbn [step].
  - reflexivity.
  - discriminate Hop.
  - unfold SetDelims. destruct (negb _); reflexivity.
  - apply AddTemplateOf_seen_paths.
Qed.

Lemma runCalls_handlers (v : Version) (calls : list Call) (st : State) :
  noRegistration calls = true ->
  handlers (engine (runCalls v calls st)) = handlers (engine st).
Proof.
  revert st. induction calls as [|[fs op] calls IH]; intros st Hreg; [reflexivity|].
  cbn [noRegistration forallb snd] in Hreg.
  apply andb_prop in Hreg as [Hop Hreg]. apply negb_true_iff in Hop.
  cbn [runCalls fold_left fst snd].
  etrans; [exact (IH _ Hreg)|]. apply step_handlers, Hop.
Qed.

(** After a call for a name, every later call of the generation for a
    key that was recorded is skipped. *)
Lemma later_is_skipped (v : Version) (fs fs' : Files) (info info' : TemplateInfo)
    (calls : list Call) (st : State) :
  sameGeneration calls = true ->
  seenKey v info' = seenKey v info ->
  let st2 := runCalls v calls (fst (AddTemplateOf v fs info st)) in
  AddTemplateOf v fs' info' st2 = (st2, Returned None).
Proof.
  intros Hgen Hkey st2. apply seen_is_skipped. rewrite Hkey.
  destruct (key_is_recorded v fs info st) as [p Hp].
  exists p. apply runCalls_seen; assumption.
Qed.

(** The key of the other version where the path separator is not a
    backslash. *)
Lemma alt_key_empty (sep : ascii) (info : TemplateInfo) :
  Ascii.eqb sep "\" = false -> seenKey (OtherVersion sep) info = EmptyString.
Proof.
  intros Hsep. cbn [seenKey]. unfold template_engine_alt.templateNameOf.
  rewrite Hsep. reflexivity.
Qed.

End WithTemplates.
End generation_facts.

(** C9: in both versions of the package and at every point of the
    registry's lifetime, [TemplateSet] is nil if and only if no compiler
    has given a template (with a nil error) since the last [Clear]: it
    starts nil, [Clear] makes it nil, no other call makes a non-nil set
    nil, and [AddTemplate] makes a nil set non-nil exactly when its
    compiler succeeds, the set then being that compiler's template; on a
    later success the set is the old one extended by [AddParseTree]. *)
Theorem TemplateSet_nil_iff_not_compiled `{HtmlTemplate}
    (v : lifetime.Version) (fs : Files) (ops : list lifetime.Op)
    (st : engine_types.State) (op : lifetime.Op)
    (info : engine_types.TemplateInfo) :
  let AddTemplate := lifetime.AddTemplateOf v fs in
  let st' := fst (AddTemplate info st) in
  lifetime.nilIffNotCompiled (lifetime.run AddTemplate ops engine_types.init)
  /\ engine_types.TemplateSet (engine_types.engine engine_types.init) = None
  /\ engine_types.TemplateSet (engine_types.engine (engine_types.Clear st)) = None
  /\ (op <> lifetime.OpClear ->
      engine_types.TemplateSet (engine_types.engine st) <> None ->
      engine_types.TemplateSet
        (engine_types.engine (lifetime.step AddTemplate op st)) <> None)
  /\ (engine_types.TemplateSet (engine_types.engine st) = None ->
      forall t,
        engine_types.TemplateSet (engine_types.engine st') = Some t
        <-> lifetime.compiles v fs info st t)
  /\ (forall ts,
        engine_types.TemplateSet (engine_types.engine st) = Some ts ->
        (engine_types.TemplateSet (engine_types.engine st') = Some ts
         /\ forall t, ~ lifetime.compiles v fs info st t)
        \/ exists t,
             lifetime.compiles v fs info st t
             /\ engine_types.TemplateSet (engine_types.engine st')
                = Some (fst (AddParseTree ts (engine_types.Name info) (Tree t)))).
Proof.
  intros AddTemplate st'. subst AddTemplate st'.
  split; [|split; [|split; [|split; [|split]]]].
  - apply engine_facts.run_inv. split; reflexivity.
  - reflexivity.
  - reflexivity.
  - intros Hop Hset. destruct op as [|ext loader|d|info']; cbn [lifetime.step].
    + congruence.
    + exact Hset.
    + unfold engine_types.SetDelims.
      destruct (negb (engine_types.sliceLen d =? 2)%nat); exact Hset.
    + destruct (engine_facts.AddTemplateOf_TemplateSet v fs info' st)
        as [[-> _] | (t & _ & _ & ->)]; [exact Hset|discriminate].
  - intros Hnil t.
    destruct (engine_facts.AddTemplateOf_TemplateSet v fs info st)
      as [[Heq Hno] | (t0 & Hc0 & _ & Heq)]; rewrite Heq, Hnil.
    + split; [discriminate|]. intros Hc. destruct (Hno t Hc).
    + split.
      * intros [= <-]. exact Hc0.
      * intros (l & f & _ & Hf & Hl & Hr).
        destruct Hc0 as (l0 & f0 & _ & Hf0 & Hl0 & Hr0). congruence.
  - intros ts Hts.
    destruct (engine_facts.AddTemplateOf_TemplateSet v fs info st)
      as [[Heq Hno] | (t0 & Hc & _ & Heq)].
    + left. split; [congruence|exact Hno].
    + right. exists t0. rewrite Hts in Heq. split; assumption.
Qed.

(** C9 on a registry with the Go templater: the first template that
    compiles becomes the set, and registering a templater afterwards
    keeps it. *)
Lemma TemplateSet_nil_iff_not_compiled_witness :
  let info := engine_types.mkInfo "good.html" "views/good.html" in
  let st' := fst (template_engine.AddTemplate demo.twoFiles info demo.registered) in
  engine_types.TemplateSet (engine_types.engine st')
  = Some (demo.mkT "good.html" [("good.html", "fine")])
  /\ engine_types.TemplateSet
       (engine_types.engine
          (engine_types.RegisterTemplater ".txt" revel.GoTemplater st')) <> None.
Proof.
  intros info st'.
  pose proof (TemplateSet_nil_iff_not_compiled lifetime.EngineGo demo.twoFiles []
                demo.registered (lifetime.OpAddTemplate info) info)
    as (_ & _ & _ & _ & Hfirst & _).
  pose proof (TemplateSet_nil_iff_not_compiled lifetime.EngineGo demo.twoFiles []
                st' (lifetime.OpRegisterTemplater ".txt" revel.GoTemplater) info)
    as (_ & _ & _ & Hkeep & _).
  split.
  - apply (Hfirst eq_refl).
    exists revel.GoTemplater, "fine". repeat split; reflexivity.
  - apply Hkeep; discriminate.
Defined.

(** C3: within one build generation [AddTemplate] of [engine.go] is
    idempotent per logical name.  Whatever the first call does (it may
    fail to read, fail to compile or panic), its key is in [seen_paths]
    after it, and in [engine.go] the key is the name.  After any further
    calls of the generation (of [AddTemplate] for any names and files,
    of [RegisterTemplater] and [SetDelims], but not of [Clear]), a call
    with the same name, whatever its path and whatever the files then
    hold, returns nil at once: the state, and with it the merged set and
    the record of reads and compiles, is the same as before the call.

    The other version of the package fails the claim where the path
    separator is not a backslash: the key it records is the empty
    string, the entry of the name itself stays as it was, and every
    later call of the generation is skipped, for a name that was never
    seen as well. *)
Theorem AddTemplate_idempotent_per_name `{HtmlTemplate}
    (v : lifetime.Version) (fs fs' : Files)
    (info : engine_types.TemplateInfo) (path' : string)
    (calls : list generation.Call) (st : engine_types.State) :
  generation.sameGeneration calls = true ->
  let st1 := fst (lifetime.AddTemplateOf v fs info st) in
  let st2 := generation.runCalls v calls st1 in
  let later := engine_types.mkInfo (engine_types.Name info) path' in
  is_Some (engine_types.seen_paths (engine_types.engine st1)
             !! lifetime.seenKey v info)
  /\ lifetime.seenKey lifetime.EngineGo info = engine_types.Name info
  /\ is_Some (engine_types.seen_paths (engine_types.engine st2)
                !! lifetime.seenKey v info)
  /\ lifetime.AddTemplateOf v fs' later st2 = (st2, Returned None)
  /\ (forall sep, v = lifetime.OtherVersion sep -> Ascii.eqb sep "\" = false ->
      lifetime.seenKey v info = EmptyString
      /\ (engine_types.Name info <> EmptyString ->
          engine_types.seen_paths (engine_types.engine st1) !! engine_types.Name info
          = engine_types.seen_paths (engine_types.engine st) !! engine_types.Name info)
      /\ forall (files : Files) (other : engine_types.TemplateInfo),
           lifetime.AddTemplateOf v files other st2 = (st2, Returned None)).
Proof.
  intros Hgen st1 st2 later.
  pose proof (generation_facts.key_is_recorded v fs info st) as Hseen.
  split; [exact Hseen|]. split; [reflexivity|].
  split; [destruct Hseen as [p Hp]; exists p;
          apply generation_facts.runCalls_seen; assumption|].
  split.
  - apply generation_facts.later_is_skipped; [exact Hgen|].
    destruct v; reflexivity.
  - intros sep -> Hsep.
    split; [apply generation_facts.alt_key_empty, Hsep|]. split.
    + intros Hname. subst st1.
      destruct (generation_facts.AddTemplateOf_seen_paths
                  (lifetime.OtherVersion sep) fs info st) as (-> & _).
      rewrite (generation_facts.alt_key_empty sep info Hsep).
      destruct (engine_types.seen_paths (engine_types.engine st) !! EmptyString);
        [reflexivity|].
      apply lookup_insert_ne. intros Heq. apply Hname. symmetry. exact Heq.
    + intros files other. apply generation_facts.later_is_skipped; [exact Hgen|].
      rewrite !generation_facts.alt_key_empty by exact Hsep. reflexivity.
Qed.

(** C3 on the small instance.  In [engine.go], after [good.html] and
    then [bad.html], a call for [good.html] under another root is
    skipped.  In the other version, with the slash as path separator,
    after [good.html] the template [bad.html], which was never seen, is
    skipped too. *)
Lemma AddTemplate_idempotent_per_name_witness :
  let good := engine_types.mkInfo "good.html" "views/good.html" in
  let bad := engine_types.mkInfo "bad.html" "views/bad.html" in
  let st2 := generation.runCalls lifetime.EngineGo
               [(demo.twoFiles, lifetime.OpAddTemplate bad)]
               (fst (template_engine.AddTemplate demo.twoFiles good demo.registered)) in
  let alt1 := fst (template_engine_alt.AddTemplate "/" demo.twoFiles good
                     demo.registered) in
  template_engine.AddTemplate demo.twoFiles
    (engine_types.mkInfo "good.html" "modules/views/good.html") st2
  = (st2, Returned None)
  /\ template_engine_alt.AddTemplate "/" demo.twoFiles bad alt1 = (alt1, Returned None).
Proof.
  intros good bad st2 alt1. split.
  - exact (proj1 (proj2 (proj2 (proj2
             (AddTemplate_idempotent_per_name lifetime.EngineGo demo.twoFiles
                demo.twoFiles good "modules/views/good.html"
                [(demo.twoFiles, lifetime.OpAddTemplate bad)] demo.registered
                eq_refl))))).
  - exact (proj2 (proj2 (proj2 (proj2 (proj2 (proj2
             (AddTemplate_idempotent_per_name (lifetime.OtherVersion "/")
                demo.twoFiles demo.twoFiles good "views/good.html" []
                demo.registered eq_refl))))
             "/"%char eq_refl eq_refl)) demo.twoFiles bad).
Defined.

(** C6: a call of [AddTemplate] whose key is not yet in [seen_paths],
    whose file can be read and whose extension has no handler, returns
    an error: a [*Error] titled ["Template Load Error"], with the path
    of the file, a description that names the extension, the line [-1]
    and the contents of the file split into lines.  No compiler runs
    and the merged set stays as it was.  In [engine.go] the key is the
    name, so this is every call for a name not yet seen.

    The other version of the package fails the claim where the path
    separator is not a backslash: its key is the empty string for every
    template, so after any call of [AddTemplate] every later call of
    the generation returns nil, for a readable file of a name never seen
    and an extension without a handler as well. *)
Theorem AddTemplate_no_handler `{HtmlTemplate}
    (v : lifetime.Version) (fs : Files) (info : engine_types.TemplateInfo)
    (st : engine_types.State) (fileStr : string) :
  engine_types.seen_paths (engine_types.engine st) !! lifetime.seenKey v info = None ->
  fs (engine_types.InfoPath info) = Some fileStr ->
  engine_types.handlers (engine_types.engine st)
    !! GoLib.Ext (engine_types.InfoPath info) = None ->
  let ext := GoLib.Ext (engine_types.InfoPath info) in
  let st' := fst (lifetime.AddTemplateOf v fs info st) in
  snd (lifetime.AddTemplateOf v fs info st)
  = Returned (Some (EngineErrorPtr
      {| Title := "Template Load Error";
         Path := engine_types.InfoPath info;
         Description := "No known handler for extension '" +:+ ext +:+ "'";
         Line := (-1)%Z;
         SourceLines := GoLib.Split fileStr "010" |}))
  /\ spec.joinLines (GoLib.Split fileStr "010") = fileStr
  /\ engine_types.TemplateSet (engine_types.engine st')
     = engine_types.TemplateSet (engine_types.engine st)
  /\ engine_types.trace st'
     = engine_types.EvReadFile (engine_types.InfoPath info) :: engine_types.trace st
  /\ lifetime.seenKey lifetime.EngineGo info = engine_types.Name info
  /\ (forall (sep : ascii) (fs0 : Files) (first : engine_types.TemplateInfo)
             (calls : list generation.Call) (st0 : engine_types.State),
        Ascii.eqb sep "\" = false ->
        generation.sameGeneration calls = true ->
        let st2 := generation.runCalls (lifetime.OtherVersion sep) calls
                     (fst (template_engine_alt.AddTemplate sep fs0 first st0)) in
        template_engine_alt.AddTemplate sep fs info st2 = (st2, Returned None)).
Proof.
  intros Hseen Hfs Hh ext st'. subst ext st'.
  split; [|split; [|split; [|split; [|split]]]].
  - rewrite engine_facts.AddTemplateOf_eq, Hseen, Hfs, Hh. reflexivity.
  - apply engine_facts.Split_joinLines.
  - rewrite engine_facts.AddTemplateOf_eq, Hseen, Hfs, Hh. reflexivity.
  - rewrite engine_facts.AddTemplateOf_eq, Hseen, Hfs, Hh. reflexivity.
  - reflexivity.
  - intros sep fs0 first calls st0 Hsep Hgen st2.
    apply (generation_facts.later_is_skipped (lifetime.OtherVersion sep) fs0 fs
             first info calls st0 Hgen).
    rewrite !generation_facts.alt_key_empty by exact Hsep. reflexivity.
Qed.

(** C6 on a registry that handles [.html] and the empty extension.  In
    [engine.go] the file [a.xyz] gets the error.  In the other version,
    with the slash as path separator, the same call made after a call
    for [good.html] returns nil, although [a.xyz] was never seen, its
    file is read and [.xyz] has no handler. *)
Lemma AddTemplate_no_handler_witness :
  let xyz := engine_types.mkInfo "a.xyz" "views/a.xyz" in
  let st2 := fst (template_engine_alt.AddTemplate "/" demo.twoFiles
                    (engine_types.mkInfo "good.html" "views/good.html")
                    demo.registered) in
  snd (template_engine.AddTemplate demo.xyzFiles xyz demo.registered)
  = Returned (Some (EngineErrorPtr
      {| Title := "Template Load Error";
         Path := "views/a.xyz";
         Description := "No known handler for extension '.xyz'";
         Line := (-1)%Z;
         SourceLines := ["hello"] |}))
  /\ engine_types.seen_paths (engine_types.engine st2) !! "a.xyz" = None
  /\ demo.xyzFiles "views/a.xyz" = Some "hello"
  /\ engine_types.handlers (engine_types.engine st2) !! ".xyz" = None
  /\ template_engine_alt.AddTemplate "/" demo.xyzFiles xyz st2 = (st2, Returned None).
Proof.
  intros xyz st2.
  pose proof (AddTemplate_no_handler lifetime.EngineGo demo.xyzFiles xyz
                demo.registered "hello" eq_refl eq_refl eq_refl)
    as (Herr & _ & _ & _ & _ & Halt).
  split; [exact Herr|].
  split; [reflexivity|]. split; [reflexivity|]. split; [reflexivity|].
  exact (Halt "/"%char demo.twoFiles
           (engine_types.mkInfo "good.html" "views/good.html") [] demo.registered
           eq_refl eq_refl).
Defined.

(** C7: in both versions, a call of [AddTemplate] for a name not yet
    seen whose file cannot be read returns nil, neither an error nor a
    panic, so the walk goes on; no compiler runs, and the merged set and
    the handlers stay as they were. *)
Theorem AddTemplate_unreadable `{HtmlTemplate}
    (v : lifetime.Version) (fs : Files) (info : engine_types.TemplateInfo)
    (st : engine_types.State) :
  engine_types.seen_paths (engine_types.engine st) !! lifetime.seenKey v info = None ->
  fs (engine_types.InfoPath info) = None ->
  let st' := fst (lifetime.AddTemplateOf v fs info st) in
  snd (lifetime.AddTemplateOf v fs info st) = Returned None
  /\ engine_types.TemplateSet (engine_types.engine st')
     = engine_types.TemplateSet (engine_types.engine st)
  /\ engine_types.handlers (engine_types.engine st')
     = engine_types.handlers (engine_types.engine st)
  /\ engine_types.trace st'
     = engine_types.EvReadFile (engine_types.InfoPath info) :: engine_types.trace st.
Proof.
  intros Hseen Hfs st'. subst st'.
  rewrite engine_facts.AddTemplateOf_eq, Hseen, Hfs.
  repeat split.
Qed.

(** C7 on a registry with the Go templater, for a file that is not
    there. *)
Lemma AddTemplate_unreadable_witness :
  let info := engine_types.mkInfo "gone.html" "views/gone.html" in
  snd (template_engine.AddTemplate demo.twoFiles info demo.registered) = Returned None
  /\ engine_types.TemplateSet
       (engine_types.engine
          (fst (template_engine.AddTemplate demo.twoFiles info demo.registered)))
     = None.
Proof.
  intros info.
  destruct (AddTemplate_unreadable lifetime.EngineGo demo.twoFiles info demo.registered
              eq_refl eq_refl) as (Hret & Hset & _).
  split; [exact Hret|exact Hset].
Defined.

(** ** The loader *)

Module loader_facts.
Section WithLibs.
Context `{HtmlTemplate} `{GoLib.Unicode}.

(** On a loader whose template set is nil, [Template] panics in the
    lookup, whatever error is stored. *)
Lemma Template_nil_set (loader : revel.TemplateLoader) (name : string) :
  revel.templateSet loader = None ->
  revel.Template loader name = Panicked nilPanic.
Proof.
  intros Hset. unfold revel.Template. rewrite Hset, Lookup_nil. reflexivity.
Qed.

End WithLibs.
End loader_facts.

(** C8 (as amended): on a loader whose template set is not nil,
    [Template(name)] looks up the lower-cased name in that set, so two
    names with the same lower-case form give the same result.  When the
    lookup finds nothing and no [compileError] is stored, it returns a
    nil template and the error ["Template <name> not found."]; whenever
    a [compileError] is stored, that error is returned together with a
    handle around whatever the lookup gave, also around a template that
    was found. *)
Theorem Template_lookup_and_error `{HtmlTemplate} `{GoLib.Unicode}
    (loader : revel.TemplateLoader) (set : Tmpl) (name name' : string)
    (found : option Tmpl) (e : ErrorRec) :
  revel.templateSet loader = Some set ->
  Lookup (Some set) (GoLib.ToLower name) = Returned found ->
  (GoLib.ToLower name' = GoLib.ToLower name ->
   revel.Template loader name' = revel.Template loader name)
  /\ (revel.compileError loader = None -> found = None ->
      revel.Template loader name
      = Returned (None, Some (OtherError
                    ("Template " +:+ GoLib.ToLower name +:+ " not found."))))
  /\ (revel.compileError loader = Some e ->
      revel.Template loader name
      = Returned (Some (revel.mkGoTemplate found loader), Some (RevelErrorPtr e)))
  /\ (revel.compileError loader = None -> forall t, found = Some t ->
      revel.Template loader name
      = Returned (Some (revel.mkGoTemplate (Some t) loader), None)).
Proof.
  intros Hset Hlookup. split; [|split; [|split]].
  - intros Hlow. unfold revel.Template. rewrite Hlow. reflexivity.
  - intros Herr ->. unfold revel.Template. rewrite Hset, Hlookup, Herr. reflexivity.
  - intros Herr. unfold revel.Template. rewrite Hset, Hlookup, Herr.
    destruct found; reflexivity.
  - intros Herr t ->. unfold revel.Template. rewrite Hset, Hlookup, Herr. reflexivity.
Qed.

(** C10: when the lookup of [Template(name)] finds nothing but a
    [compileError] is stored, the result is not a nil handle: it is a
    [GoTemplate] whose embedded [*template.Template] is nil, returned
    with the error; [Render] and [Name] on that handle call [Execute]
    and [Name] on the nil template. *)
Theorem Template_miss_with_error_wraps_nil `{HtmlTemplate} `{GoLib.Unicode}
    (loader : revel.TemplateLoader) (name : string) (e : ErrorRec) (arg : Data) :
  Lookup (revel.templateSet loader) (GoLib.ToLower name) = Returned None ->
  revel.compileError loader = Some e ->
  exists handle,
    revel.Template loader name = Returned (Some handle, Some (RevelErrorPtr e))
    /\ revel.embedded handle = None
    /\ revel.Render handle arg = Execute None arg
    /\ revel.GoTemplate_Name handle = NameOf None.
Proof.
  intros Hlookup Herr. exists (revel.mkGoTemplate None loader).
  unfold revel.Template. rewrite Hlookup, Herr. repeat split.
Qed.

(** ** The Go templater *)

Module templater_facts.
Section WithTemplates.
Context `{HtmlTemplate}.

(** When the inner function panics, it has not assigned [err]. *)
Lemma construct_panic_err (name str : string) (delims : option (list string))
    (v : PanicValue) :
  snd (templater.construct name str delims) = Panicked v ->
  templater.err (fst (templater.construct name str delims)) = None.
Proof.
  unfold templater.construct.
  destruct (Funcs (New name)) as [t|pv|msg]; cbn; [|reflexivity..].
  destruct delims as [ds|].
  - destruct (ds !! 0%nat), (ds !! 1%nat); cbn; try reflexivity.
    destruct (Parse _ str) as [[t' e]|pv|msg]; cbn; [discriminate|reflexivity..].
  - destruct (Parse _ str) as [[t' e]|pv|msg]; cbn; [discriminate|reflexivity..].
Qed.

(** [GoTemplater] recovers every panic of its inner function, builds
    the error ["Panic (Template Loader)"] for it, and then returns a nil
    error. *)
Lemma GoTemplater_panic_nil_error (name str : string)
    (delims : option (list string)) (v : PanicValue) :
  snd (templater.construct name str delims) = Panicked v ->
  revel.recovered (snd (templater.construct name str delims))
  = Some {| Title := "Panic (Template Loader)"; Path := EmptyString;
            Description := Sprintln v; Line := 0%Z; SourceLines := [] |}
  /\ revel.GoTemplater name str delims
     = Returned (templater.tmpl (fst (templater.construct name str delims)), None).
Proof.
  intros Hp. pose proof (construct_panic_err name str delims v Hp) as Herr.
  unfold revel.GoTemplater.
  destruct (templater.construct name str delims) as [res o].
  cbn in Hp, Herr. subst o. cbn. rewrite Herr. split; reflexivity.
Qed.

(** [goTemplater] of [go_engine.go] drops the recovered error as well:
    it only sets [unrecoverable]. *)
Lemma goTemplater_panic_nil_error (name str : string)
    (delims : option (list string)) (msg : string) :
  snd (templater.construct name str delims) = Panicked (PanicError msg) ->
  template_engines.goTemplater name str delims
  = Returned (templater.tmpl (fst (templater.construct name str delims)), None, true).
Proof.
  intros Hp.
  pose proof (construct_panic_err name str delims _ Hp) as Herr.
  unfold template_engines.goTemplater.
  destruct (templater.construct name str delims) as [res o].
  cbn in Hp, Herr. subst o. cbn. rewrite Herr. reflexivity.
Qed.

End WithTemplates.
End templater_facts.

(** ** Refresh *)

Module refresh_facts.
Section WithLibs.
Context `{HtmlTemplate} `{GoLib.Unicode} `{revel.Decls}.

(** The type switch of [checkTemplateError] has no case for the
    [*template_engine.Error] that [AddTemplate] returns, nor for the
    errors of other types that a parser returns: they leave
    [compileError] as it is. *)
Lemma checkTemplateError_unmatched (err : error) (name : string)
    (loader : revel.TemplateLoader) :
  match err with
  | EngineErrorPtr _ | OtherError _ => True
  | _ => False
  end ->
  revel.checkTemplateError (Some err) name loader = Returned loader.
Proof.
  intros Hty. unfold revel.checkTemplateError.
  destruct err; try contradiction; destruct (revel.compileError loader); reflexivity.
Qed.

(** A stored error is never replaced: the first one wins. *)
Lemma checkTemplateError_first_wins (err : option error) (name : string)
    (loader : revel.TemplateLoader) (e : ErrorRec) :
  revel.compileError loader = Some e ->
  revel.checkTemplateError err name loader = Returned loader.
Proof.
  intros He. unfold revel.checkTemplateError. rewrite He.
  destruct err; reflexivity.
Qed.

End WithLibs.
End refresh_facts.

(** ** The claims on the small instance *)

Section OnTheDemo.
#[local] Existing Instance demo.templates.
#[local] Existing Instance demo.unicode.
#[local] Existing Instance demo.decls.

(** C8 on a loader that holds [good.html] and a stored error: the
    template is found under another case of its name and comes with the
    error. *)
Lemma Template_lookup_and_error_witness :
  let good := demo.mkT "good.html" [("good.html", "fine")] in
  let e := {| Title := "Template Compilation Error"; Path := "bad.html";
              Description := "unexpected EOF"; Line := 1%Z;
              SourceLines := [] |} in
  let loader := revel.mkLoader (Some good) (Some e) ["views"] ∅ in
  revel.Template loader "Good.HTML"
  = Returned (Some (revel.mkGoTemplate (Some good) loader), Some (RevelErrorPtr e)).
Proof.
  intros good e loader.
  apply (Template_lookup_and_error loader good "Good.HTML" "good.html" (Some good) e
           eq_refl eq_refl).
  reflexivity.
Defined.

(** C8 as stated fails on a loader whose template set is nil, which is
    the state of a new loader and the state after a [Refresh] in which
    no template compiled, here one over an empty views directory: no
    template [index.html] is there and no [compileError] is stored, but
    [Template] does not return the error ["Template index.html not
    found."]: the lookup on the nil set panics. *)
Lemma Template_nil_set_panics :
  let emptyRoots : filepath.Roots :=
    fun root => if String.eqb root "views"
                then Some (filepath.Dir "views" (Some [])) else None in
  let refreshed :=
    revel.Refresh (template_engine.AddTemplate demo.twoFiles) emptyRoots
      (demo.views, demo.registered) in
  let loader := fst (fst refreshed) in
  snd refreshed = Returned None
  /\ revel.templateSet loader = None
  /\ revel.compileError loader = None
  /\ revel.Template loader "index.html" = Panicked nilPanic
  /\ revel.Template loader "index.html"
     <> Returned (None, Some (OtherError "Template index.html not found."))
  /\ revel.Template demo.views "index.html" = Panicked nilPanic.
Proof.
  intros emptyRoots refreshed loader.
  assert (Hrun : refreshed = ((demo.views, demo.registered), Returned None))
    by reflexivity.
  assert (Hpanic : revel.Template loader "index.html" = Panicked nilPanic).
  { apply loader_facts.Template_nil_set. subst loader. rewrite Hrun. reflexivity. }
  subst loader. rewrite Hrun in *. cbn [fst snd] in *.
  repeat split; try reflexivity; try exact Hpanic.
  rewrite Hpanic. discriminate.
Qed.

(** C10 on a loader that holds [good.html] and a stored error, asked for
    a template that is not there: rendering the handle panics on the nil
    template. *)
Lemma Template_miss_with_error_wraps_nil_witness :
  let good := demo.mkT "good.html" [("good.html", "fine")] in
  let e := {| Title := "Template Compilation Error"; Path := "bad.html";
              Description := "unexpected EOF"; Line := 1%Z;
              SourceLines := [] |} in
  let loader := revel.mkLoader (Some good) (Some e) ["views"] ∅ in
  exists handle,
    revel.Template loader "bad.html" = Returned (Some handle, Some (RevelErrorPtr e))
    /\ revel.Render handle tt = Panicked nilPanic.
Proof.
  intros good e loader.
  destruct (Template_miss_with_error_wraps_nil loader "bad.html" e tt
              eq_refl eq_refl) as (handle & Hret & _ & Hrender & _).
  exists handle. split; [exact Hret|exact Hrender].
Defined.

(** C1 fails on the code: with a slice of one delimiter, the inner
    function of [GoTemplater] panics on [delims[1]]; the panic is
    recovered and [funcError] is built with the title
    ["Panic (Template Loader)"], but the function returns its named
    result [err], which is nil. *)
Lemma GoTemplater_returns_nil_error_on_panic :
  snd (templater.construct "a.html" "hello" (Some ["<%"])) = Panicked indexPanic
  /\ revel.recovered (snd (templater.construct "a.html" "hello" (Some ["<%"])))
     = Some {| Title := "Panic (Template Loader)"; Path := EmptyString;
               Description := Sprintln indexPanic; Line := 0%Z;
               SourceLines := [] |}
  /\ revel.GoTemplater "a.html" "hello" (Some ["<%"])
     = Returned (Some (demo.mkT "a.html" []), None)
  /\ template_engines.goTemplater "a.html" "hello" (Some ["<%"])
     = Returned (Some (demo.mkT "a.html" []), None, true).
Proof. repeat split. Qed.

(** C2 fails on the code.  On a root with the single template [a.xyz],
    for whose extension no handler is registered, [AddTemplate] returns
    its ["Template Load Error"], yet [Refresh] retains nothing and
    returns nil; and on a root with a template that does not parse and a
    valid one, [Refresh] returns nil as well (the valid template is
    compiled and [Template] finds it). *)
Lemma Refresh_retains_no_error :
  let add := lifetime.AddTemplateOf lifetime.EngineGo in
  let xyz := revel.Refresh (add demo.xyzFiles) demo.xyzRoots (demo.views, demo.registered) in
  let two := revel.Refresh (add demo.twoFiles) demo.twoRoots (demo.views, demo.registered) in
  snd (add demo.xyzFiles (engine_types.mkInfo "a.xyz" "views/a.xyz") demo.registered)
  = Returned (Some (engine_types.noHandlerError "views/a.xyz" ".xyz" "hello"))
  /\ snd xyz = Returned None
  /\ revel.compileError (fst (fst xyz)) = None
  /\ revel.GoTemplater "bad.html" "{{ if" (Some [EmptyString; EmptyString])
     = Returned (Some (demo.mkT "bad.html" []),
                 Some (OtherError "template: bad.html:1: unexpected unclosed action"))
  /\ snd two = Returned None
  /\ revel.compileError (fst (fst two)) = None
  /\ exists handle,
       revel.Template (fst (fst two)) "good.html" = Returned (Some handle, None).
Proof.
  intros add xyz two. repeat split.
  eexists. reflexivity.
Qed.

End OnTheDemo.

(** * More properties of the code *)

(** ** The slug, continued *)

Module slug_more.
Import GoLib.

Lemma Slug_slugOf `{Unicode} (text : string) : revel.Slug text = spec.slugOf text.
Proof.
  unfold revel.Slug, spec.slugOf.
  rewrite slug_facts.Trim_separator, slug_facts.filter_invalidSlug.
  unfold ReplaceAllString, revel.whiteSpacePattern.
  rewrite (proj1 (regexp_facts.replaceAll_Many1 _ _ _)). reflexivity.
Qed.

Lemma slugOutByte_facts (c : ascii) :
  spec2.slugOutByte c = true ->
  revel.slugByte c = true /\ isReSpace c = false /\ isASCII c = true
  /\ lowerByte c = c.
Proof.
  destruct c as [[] [] [] [] [] [] [] []]; vm_compute; intros Hc;
    try discriminate Hc; repeat split.
Qed.

Lemma slugByte_not_space (c : ascii) :
  revel.slugByte c = true -> isReSpace c = false -> spec2.slugOutByte c = true.
Proof.
  destruct c as [[] [] [] [] [] [] [] []]; vm_compute; intros H1 H2;
    try discriminate H1; try discriminate H2; reflexivity.
Qed.

Lemma allBytes_filterBytes (p : ascii -> bool) (s : string) :
  allBytes p (filterBytes p s) = true.
Proof.
  induction s as [|c s IH]; [reflexivity|]. cbn [filterBytes].
  destruct (p c) eqn:Hc; [|exact IH]. cbn [allBytes]. rewrite Hc. exact IH.
Qed.

Lemma allBytes_collapse (b : bool) (s : string) :
  allBytes revel.slugByte s = true ->
  allBytes spec2.slugOutByte (spec.collapseRuns isReSpace "-" b s) = true.
Proof.
  revert b. induction s as [|c s IH]; intros b Hs; [reflexivity|].
  cbn [allBytes] in Hs. apply andb_true_iff in Hs as [Hc Hs].
  cbn [spec.collapseRuns]. destruct (isReSpace c) eqn:Hsp.
  - destruct b; [apply IH, Hs|].
    change ("-" +:+ ?x) with (String "-" x). cbn [allBytes].
    rewrite IH by exact Hs. reflexivity.
  - cbn [allBytes]. rewrite (slugByte_not_space c Hc Hsp). apply IH, Hs.
Qed.

Lemma allBytes_dropWhile (p q : ascii -> bool) (s : string) :
  allBytes p s = true -> allBytes p (dropWhile q s) = true.
Proof.
  induction s as [|c s IH]; intros Hs; [reflexivity|].
  cbn [dropWhile]. destruct (q c); [|exact Hs].
  cbn [allBytes] in Hs. apply andb_true_iff in Hs as [_ Hs]. apply IH, Hs.
Qed.

Lemma allBytes_dropWhileEnd (p q : ascii -> bool) (s : string) :
  allBytes p s = true -> allBytes p (dropWhileEnd q s) = true.
Proof.
  induction s as [|c s IH]; intros Hs; [reflexivity|].
  cbn [allBytes] in Hs. apply andb_true_iff in Hs as [Hc Hs].
  cbn [dropWhileEnd]. specialize (IH Hs).
  destruct (dropWhileEnd q s) as [|d r].
  - destruct (q c); [reflexivity|]. cbn [allBytes]. rewrite Hc. reflexivity.
  - cbn [allBytes] in IH |- *. rewrite Hc. exact IH.
Qed.

Lemma firstByte_dropWhile (p : ascii -> bool) (s : string) (c : ascii) :
  spec2.firstByte (dropWhile p s) = Some c -> p c = false.
Proof.
  induction s as [|d s IH]; [discriminate|].
  cbn [dropWhile]. destruct (p d) eqn:Hd; [exact IH|].
  cbn. intros [= <-]. exact Hd.
Qed.

Lemma firstByte_dropWhileEnd (p : ascii -> bool) (s : string) (c : ascii) :
  spec2.firstByte (dropWhileEnd p s) = Some c -> spec2.firstByte s = Some c.
Proof.
  destruct s as [|d s]; [discriminate|].
  cbn [dropWhileEnd]. destruct (dropWhileEnd p s).
  - destruct (p d); [discriminate|]. intros H. exact H.
  - intros H. exact H.
Qed.

Lemma lastByte_dropWhileEnd (p : ascii -> bool) (s : string) (c : ascii) :
  spec2.lastByte (dropWhileEnd p s) = Some c -> p c = false.
Proof.
  induction s as [|d s IH]; [discriminate|].
  cbn [dropWhileEnd]. destruct (dropWhileEnd p s) as [|e r].
  - destruct (p d) eqn:Hd; [discriminate|]. cbn. intros [= <-]. exact Hd.
  - intros H. apply IH. exact H.
Qed.

Lemma dropWhile_id (p : ascii -> bool) (s : string) :
  (forall c, spec2.firstByte s = Some c -> p c = false) -> dropWhile p s = s.
Proof.
  destruct s as [|c s]; [reflexivity|]. intros H.
  cbn [dropWhile]. rewrite (H c eq_refl). reflexivity.
Qed.

Lemma dropWhileEnd_id (p : ascii -> bool) (s : string) :
  (forall c, spec2.lastByte s = Some c -> p c = false) -> dropWhileEnd p s = s.
Proof.
  induction s as [|c s IH]; [reflexivity|]. intros H.
  cbn [dropWhileEnd]. destruct s as [|d s].
  - cbn. rewrite (H c eq_refl). reflexivity.
  - rewrite IH by (intros e He; apply H; exact He). reflexivity.
Qed.

Lemma filterBytes_id (p : ascii -> bool) (s : string) :
  allBytes p s = true -> filterBytes p s = s.
Proof.
  induction s as [|c s IH]; intros Hs; [reflexivity|].
  cbn [allBytes] in Hs. apply andb_true_iff in Hs as [Hc Hs].
  cbn [filterBytes]. rewrite Hc, IH by exact Hs. reflexivity.
Qed.

Lemma collapseRuns_id (p : ascii -> bool) (sep : string) (b : bool) (s : string) :
  allBytes (fun c => negb (p c)) s = true -> spec.collapseRuns p sep b s = s.
Proof.
  revert b. induction s as [|c s IH]; intros b Hs; [reflexivity|].
  cbn [allBytes] in Hs. apply andb_true_iff in Hs as [Hc Hs].
  cbn [spec.collapseRuns]. apply negb_true_iff in Hc. rewrite Hc.
  rewrite IH by exact Hs. reflexivity.
Qed.

Lemma allBytes_impl (p q : ascii -> bool) (s : string) :
  (forall c, p c = true -> q c = true) -> allBytes p s = true -> allBytes q s = true.
Proof.
  intros Hpq. induction s as [|c s IH]; intros Hs; [reflexivity|].
  cbn [allBytes] in *. apply andb_true_iff in Hs as [Hc Hs].
  rewrite (Hpq c Hc), IH by exact Hs. reflexivity.
Qed.

Lemma mapBytes_id (f : ascii -> ascii) (s : string) :
  allBytes (fun c => Ascii.eqb (f c) c) s = true -> mapBytes f s = s.
Proof.
  induction s as [|c s IH]; intros Hs; [reflexivity|].
  cbn [allBytes] in Hs. apply andb_true_iff in Hs as [Hc Hs].
  apply Ascii.eqb_eq in Hc. cbn [mapBytes]. rewrite Hc, IH by exact Hs.
  reflexivity.
Qed.

(** The shape of a slug. *)
Lemma Slug_shape `{Unicode} (text : string) :
  allBytes spec2.slugOutByte (revel.Slug text) = true
  /\ spec2.firstByte (revel.Slug text) <> Some "-"%char
  /\ spec2.lastByte (revel.Slug text) <> Some "-"%char.
Proof.
  rewrite Slug_slugOf. unfold spec.slugOf, spec.trimSeparators.
  split; [|split].
  - apply allBytes_dropWhileEnd, allBytes_dropWhile,
      allBytes_collapse, allBytes_filterBytes.
  - intros Hfirst. apply firstByte_dropWhileEnd in Hfirst.
    apply firstByte_dropWhile in Hfirst. discriminate Hfirst.
  - intros Hlast. apply lastByte_dropWhileEnd in Hlast.
    discriminate Hlast.
Qed.

End slug_more.

(** X1: a slug is made of the bytes [[a-z0-9_-]] only (no space is
    left), and it neither starts nor ends with the separator ["-"]. *)
Theorem Slug_alphabet `{GoLib.Unicode} (text : string) :
  GoLib.allBytes spec2.slugOutByte (revel.Slug text) = true
  /\ spec2.firstByte (revel.Slug text) <> Some "-"%char
  /\ spec2.lastByte (revel.Slug text) <> Some "-"%char.
Proof. apply slug_more.Slug_shape. Qed.

(** X2: [Slug] is idempotent: the slug of a slug is that slug. *)
Theorem Slug_idempotent `{GoLib.Unicode} (text : string) :
  revel.Slug (revel.Slug text) = revel.Slug text.
Proof.
  destruct (slug_more.Slug_shape text) as (Hall & Hfirst & Hlast).
  set (s := revel.Slug text) in *.
  assert (Hsub : forall q : ascii -> bool,
            (forall c, spec2.slugOutByte c = true -> q c = true) ->
            GoLib.allBytes q s = true)
    by (intros q Hq; apply (slug_more.allBytes_impl spec2.slugOutByte); assumption).
  rewrite (slug_more.Slug_slugOf s). unfold spec.slugOf, spec.trimSeparators.
  assert (Hlow : GoLib.ToLower s = s).
  { unfold GoLib.ToLower.
    rewrite (Hsub GoLib.isASCII)
      by (intros c Hc; apply slug_more.slugOutByte_facts, Hc).
    apply slug_more.mapBytes_id, Hsub.
    intros c Hc. apply Ascii.eqb_eq. apply slug_more.slugOutByte_facts, Hc. }
  rewrite Hlow.
  rewrite slug_more.filterBytes_id
    by (apply Hsub; intros c Hc; apply slug_more.slugOutByte_facts, Hc).
  rewrite slug_more.collapseRuns_id
    by (apply Hsub; intros c Hc; apply negb_true_iff;
        apply slug_more.slugOutByte_facts, Hc).
  rewrite slug_more.dropWhile_id.
  - apply slug_more.dropWhileEnd_id. intros c Hc.
    destruct (Ascii.eqb c "-") eqn:E; [|exact E].
    apply Ascii.eqb_eq in E. subst c. contradiction.
  - intros c Hc. destruct (Ascii.eqb c "-") eqn:E; [|exact E].
    apply Ascii.eqb_eq in E. subst c. contradiction.
Qed.

(** ** The line fragment at the end of a message *)

Module fragment_more.
Import GoLib.

Lemma sliceFrom_beyond (s : string) :
  sliceFrom s (String.length s + 1) = None.
Proof. induction s as [|c s IH]; [reflexivity|exact IH]. Qed.

Lemma parseDescription_at_end `{Unicode} (pre ds : string) :
  String.eqb ds EmptyString = false ->
  allBytes isDigit ds = true ->
  spec.firstFragment (pre +:+ ":") = None ->
  revel.parseDescription (pre +:+ ":" +:+ ds +:+ ":") = Panicked boundsPanic.
Proof.
  intros Hne Hds Hfirst.
  change (pre +:+ ":" +:+ ds +:+ ":")
    with (pre +:+ String ":" (ds +:+ String ":" EmptyString)).
  unfold revel.parseDescription.
  rewrite fragment_facts.FindStringIndex_first by assumption.
  replace (String.length pre + S (S (String.length ds)) + 1)%nat
    with (String.length (pre +:+ String ":" (ds +:+ String ":" EmptyString)) + 1)%nat
    by (rewrite fragment_facts.length_app; simpl;
        rewrite fragment_facts.length_app; simpl; lia).
  rewrite sliceFrom_beyond.
  destruct (slice _ _ _); [|reflexivity].
  destruct (sliceTo _ _); reflexivity.
Qed.

End fragment_more.

(** X3: when the message of an error ends with its first [:<digits>:]
    fragment, [parseTemplateError] panics: the slice
    [description[i[1]+1:]] starts one byte past the end.  So does
    [checkTemplateError] for a [*revel.Error] with such a message while
    no error is stored. *)
Theorem parseTemplateError_panics_at_end `{HtmlTemplate} `{GoLib.Unicode} `{revel.Decls}
    (err : error) (pre ds name : string) (r : ErrorRec)
    (loader : revel.TemplateLoader) :
  revel.errorMessage err = pre +:+ ":" +:+ ds +:+ ":" ->
  String.eqb ds EmptyString = false ->
  GoLib.allBytes GoLib.isDigit ds = true ->
  spec.firstFragment (pre +:+ ":") = None ->
  revel.parseTemplateError err = Panicked boundsPanic
  /\ (err = RevelErrorPtr r -> revel.compileError loader = None ->
      revel.checkTemplateError (Some err) name loader = Panicked boundsPanic).
Proof.
  intros Hmsg Hne Hds Hfirst.
  assert (Hparse : revel.parseTemplateError err = Panicked boundsPanic).
  { unfold revel.parseTemplateError. rewrite Hmsg.
    apply fragment_more.parseDescription_at_end; assumption. }
  split; [exact Hparse|].
  intros -> Hnone. unfold revel.checkTemplateError.
  rewrite Hnone, Hparse. reflexivity.
Qed.

(** X3 at the message ["views/app.html:12:"]. *)
Lemma parseTemplateError_panics_at_end_witness :
  @revel.parseTemplateError demo.unicode demo.decls (OtherError "views/app.html:12:")
  = Panicked boundsPanic.
Proof.
  apply (@parseTemplateError_panics_at_end demo.templates demo.unicode demo.decls
           (OtherError "views/app.html:12:") "views/app.html" "12" "x"
           (mkError EmptyString EmptyString EmptyString 0%Z [])
           (revel.NewTemplateLoader []));
    reflexivity.
Defined.

(** ** The engine registry, continued *)

Module engine_more.
Import engine_types lifetime.
Section WithTemplates.
Context `{HtmlTemplate}.

(** A call that gets to the handler [loader] with the text [fileStr]. *)
Lemma AddTemplateOf_reaches (v : Version) (fs : Files) (info : TemplateInfo)
    (st : State) (fileStr : string) (loader : TemplateLoader) :
  seen_paths (engine st) !! seenKey v info = None ->
  fs (InfoPath info) = Some fileStr ->
  handlers (engine st) !! GoLib.Ext (InfoPath info) = Some loader ->
  AddTemplateOf v fs info st
  = compileAndMerge loader info fileStr
      (emit (EvReadFile (InfoPath info))
         (withEngine st (setSeen (seenKey v info) (InfoPath info) (engine st)))).
Proof.
  intros Hseen Hfs Hh. rewrite engine_facts.AddTemplateOf_eq, Hseen, Hfs, Hh.
  reflexivity.
Qed.

Lemma Clear_fields (st : State) :
  seen_paths (engine (Clear st)) = ∅
  /\ handlers (engine (Clear st)) = handlers (engine st)
  /\ delims (engine (Clear st)) = delims (engine st)
  /\ trace (Clear st) = EvClear :: trace st.
Proof. repeat split. Qed.

End WithTemplates.
End engine_more.

(** X4: in both versions, when the handler of a template returns an
    error, [AddTemplate] returns that very error; the template the
    handler may have returned with it is dropped, and the merged set
    stays as it was. *)
Theorem AddTemplate_compiler_error `{HtmlTemplate}
    (v : lifetime.Version) (fs : Files) (info : engine_types.TemplateInfo)
    (st : engine_types.State) (fileStr : string)
    (loader : engine_types.TemplateLoader) (t : option Tmpl) (e : error) :
  engine_types.seen_paths (engine_types.engine st) !! lifetime.seenKey v info = None ->
  fs (engine_types.InfoPath info) = Some fileStr ->
  engine_types.handlers (engine_types.engine st)
    !! GoLib.Ext (engine_types.InfoPath info) = Some loader ->
  loader (engine_types.Name info) fileStr
    (engine_types.delims (engine_types.engine st)) = Returned (t, Some e) ->
  let st' := fst (lifetime.AddTemplateOf v fs info st) in
  snd (lifetime.AddTemplateOf v fs info st) = Returned (Some e)
  /\ engine_types.TemplateSet (engine_types.engine st')
     = engine_types.TemplateSet (engine_types.engine st)
  /\ engine_types.trace st'
     = engine_types.EvCompile (engine_types.Name info) false
         :: engine_types.EvReadFile (engine_types.InfoPath info)
         :: engine_types.trace st.
Proof.
  intros Hseen Hfs Hh Hl st'. subst st'.
  rewrite (engine_more.AddTemplateOf_reaches v fs info st fileStr loader)
    by assumption.
  unfold engine_types.compileAndMerge. cbn. rewrite Hl.
  destruct t; repeat split.
Qed.

(** X4 on the broken template of the small instance. *)
Lemma AddTemplate_compiler_error_witness :
  snd (template_engine.AddTemplate demo.twoFiles
         (engine_types.mkInfo "bad.html" "views/bad.html") demo.registered)
  = Returned (Some (OtherError "template: bad.html:1: unexpected unclosed action")).
Proof.
  apply (AddTemplate_compiler_error lifetime.EngineGo demo.twoFiles
           (engine_types.mkInfo "bad.html" "views/bad.html") demo.registered
           "{{ if" revel.GoTemplater (Some (demo.mkT "bad.html" []))
           (OtherError "template: bad.html:1: unexpected unclosed action"));
    reflexivity.
Defined.

(** X5: in both versions, a handler that returns a nil template with a
    nil error makes [AddTemplate] panic on [template.Tree] when a merged
    set exists; when none exists, [AddTemplate] returns nil and the set
    stays nil, although the name is now marked as seen. *)
Theorem AddTemplate_nil_template `{HtmlTemplate}
    (v : lifetime.Version) (fs : Files) (info : engine_types.TemplateInfo)
    (st : engine_types.State) (fileStr : string)
    (loader : engine_types.TemplateLoader) :
  engine_types.seen_paths (engine_types.engine st) !! lifetime.seenKey v info = None ->
  fs (engine_types.InfoPath info) = Some fileStr ->
  engine_types.handlers (engine_types.engine st)
    !! GoLib.Ext (engine_types.InfoPath info) = Some loader ->
  loader (engine_types.Name info) fileStr
    (engine_types.delims (engine_types.engine st)) = Returned (None, None) ->
  let st' := fst (lifetime.AddTemplateOf v fs info st) in
  engine_types.TemplateSet (engine_types.engine st')
  = engine_types.TemplateSet (engine_types.engine st)
  /\ engine_types.seen_paths (engine_types.engine st') !! lifetime.seenKey v info
     = Some (engine_types.InfoPath info)
  /\ snd (lifetime.AddTemplateOf v fs info st)
     = match engine_types.TemplateSet (engine_types.engine st) with
       | Some _ => Panicked nilPanic
       | None => Returned None
       end.
Proof.
  intros Hseen Hfs Hh Hl st'. subst st'.
  rewrite (engine_more.AddTemplateOf_reaches v fs info st fileStr loader)
    by assumption.
  unfold engine_types.compileAndMerge. cbn. rewrite Hl. cbn.
  destruct (engine_types.TemplateSet (engine_types.engine st)) eqn:Hts; cbn;
    rewrite ?Hts, lookup_insert_eq; repeat split.
Qed.

(** X5 with a handler that always returns nil and nil, on a registry
    that already holds a set. *)
Lemma AddTemplate_nil_template_witness :
  let nothing : engine_types.TemplateLoader := fun _ _ _ => Returned (None, None) in
  let st := engine_types.RegisterTemplater ".txt" nothing
              (fst (template_engine.AddTemplate demo.twoFiles
                      (engine_types.mkInfo "good.html" "views/good.html")
                      demo.registered)) in
  let fs : Files := fun _ => Some "text" in
  snd (template_engine.AddTemplate fs (engine_types.mkInfo "a.txt" "views/a.txt") st)
  = Panicked nilPanic.
Proof.
  intros nothing st fs.
  apply (AddTemplate_nil_template lifetime.EngineGo fs
           (engine_types.mkInfo "a.txt" "views/a.txt") st "text" nothing);
    reflexivity.
Defined.

(** X6: in both versions, when the handler returns a template and a nil
    error, the first such template becomes the merged set as it is and
    [AddTemplate] returns nil; with a set already there, the template's
    tree is merged under the name by [AddParseTree], and what
    [AddTemplate] returns is the error of that merge. *)
Theorem AddTemplate_merge_result `{HtmlTemplate}
    (v : lifetime.Version) (fs : Files) (info : engine_types.TemplateInfo)
    (st : engine_types.State) (fileStr : string)
    (loader : engine_types.TemplateLoader) (t : Tmpl) :
  engine_types.seen_paths (engine_types.engine st) !! lifetime.seenKey v info = None ->
  fs (engine_types.InfoPath info) = Some fileStr ->
  engine_types.handlers (engine_types.engine st)
    !! GoLib.Ext (engine_types.InfoPath info) = Some loader ->
  loader (engine_types.Name info) fileStr
    (engine_types.delims (engine_types.engine st)) = Returned (Some t, None) ->
  let st' := fst (lifetime.AddTemplateOf v fs info st) in
  match engine_types.TemplateSet (engine_types.engine st) with
  | None =>
      snd (lifetime.AddTemplateOf v fs info st) = Returned None
      /\ engine_types.TemplateSet (engine_types.engine st') = Some t
  | Some ts =>
      snd (lifetime.AddTemplateOf v fs info st)
      = Returned (snd (AddParseTree ts (engine_types.Name info) (Tree t)))
      /\ engine_types.TemplateSet (engine_types.engine st')
         = Some (fst (AddParseTree ts (engine_types.Name info) (Tree t)))
  end.
Proof.
  intros Hseen Hfs Hh Hl st'. subst st'.
  rewrite (engine_more.AddTemplateOf_reaches v fs info st fileStr loader)
    by assumption.
  unfold engine_types.compileAndMerge. cbn. rewrite Hl. cbn.
  destruct (engine_types.TemplateSet (engine_types.engine st)) as [ts|]; cbn.
  - destruct (AddParseTree ts (engine_types.Name info) (Tree t)). split; reflexivity.
  - split; reflexivity.
Qed.

(** X6 on the small instance: a second template whose name is already in
    the set is reported as a redefinition. *)
Lemma AddTemplate_merge_result_witness :
  let st := engine_types.withEngine demo.registered
              (@engine_types.setTemplateSet demo.templates
                 (Some (demo.mkT "good.html" [("x.html", "old")]))
                 (engine_types.engine demo.registered)) in
  snd (template_engine.AddTemplate demo.twoFiles
         (engine_types.mkInfo "x.html" "views/good.html") st)
  = Returned (Some (OtherError "template: redefinition of template x.html")).
Proof.
  intros st.
  exact (proj1 (AddTemplate_merge_result lifetime.EngineGo demo.twoFiles
                  (engine_types.mkInfo "x.html" "views/good.html") st "fine"
                  revel.GoTemplater (demo.mkT "x.html" [("x.html", "fine")])
                  eq_refl eq_refl eq_refl eq_refl)).
Defined.

(** ** Extensions *)

Module ext_facts.
Import GoLib.

Lemma Ext_no_dot (e : string) : memByte "." e = false -> Ext e = EmptyString.
Proof.
  induction e as [|c e IH]; [reflexivity|].
  cbn [memByte]. intros Hc. apply orb_false_iff in Hc as [Hc He].
  cbn [Ext]. rewrite (IH He).
  rewrite Ascii.eqb_sym in Hc. rewrite Hc. reflexivity.
Qed.

(** [path.Ext] of a path that ends in a dot and an extension without
    dots and slashes. *)
Lemma Ext_suffix (base e : string) :
  memByte "." e = false -> memByte "/" e = false ->
  Ext (base +:+ String "." e) = String "." e.
Proof.
  intros Hdot Hslash. induction base as [|c base IH].
  - rewrite fragment_facts.app_nil. cbn [Ext].
    rewrite (Ext_no_dot e Hdot), Hslash. reflexivity.
  - rewrite fragment_facts.app_cons. cbn [Ext]. rewrite IH. reflexivity.
Qed.

End ext_facts.

(** X7: [Clear] starts a new build generation and nothing else.  It
    keeps the handlers and the delimiters and empties [seen_paths] and
    the merged set; so a template that [AddTemplate] skipped as seen
    before the [Clear] is attempted again after it: its file is read as
    the first thing after the [Clear]. *)
Theorem Clear_starts_new_generation `{HtmlTemplate}
    (v : lifetime.Version) (fs : Files) (info : engine_types.TemplateInfo)
    (st : engine_types.State) :
  let cleared := engine_types.Clear st in
  engine_types.handlers (engine_types.engine cleared)
  = engine_types.handlers (engine_types.engine st)
  /\ engine_types.delims (engine_types.engine cleared)
     = engine_types.delims (engine_types.engine st)
  /\ engine_types.seen_paths (engine_types.engine cleared) = ∅
  /\ engine_types.TemplateSet (engine_types.engine cleared) = None
  /\ (is_Some (engine_types.seen_paths (engine_types.engine st)
                 !! lifetime.seenKey v info) ->
      lifetime.AddTemplateOf v fs info st = (st, Returned None))
  /\ exists evs,
       engine_types.trace (fst (lifetime.AddTemplateOf v fs info cleared))
       = (evs ++ engine_types.EvReadFile (engine_types.InfoPath info)
              :: engine_types.EvClear :: engine_types.trace st)%list
       /\ (length evs <= 1)%nat.
Proof.
  intros cleared. subst cleared. repeat split.
  - intros [p Hp]. rewrite engine_facts.AddTemplateOf_eq, Hp. reflexivity.
  - rewrite engine_facts.AddTemplateOf_eq.
    cbn [engine_types.Clear engine_types.emit engine_types.withEngine
         engine_types.engine engine_types.seen_paths engine_types.handlers].
    rewrite lookup_empty. cbv zeta.
    destruct (fs (engine_types.InfoPath info)) as [fileStr|];
      [|exists []; split; [reflexivity|simpl; lia]].
    destruct (engine_types.handlers (engine_types.engine st)
                !! GoLib.Ext (engine_types.InfoPath info)) as [loader|];
      [|exists []; split; [reflexivity|simpl; lia]].
    match goal with
    | |- context [engine_types.compileAndMerge loader info fileStr ?s] =>
        destruct (engine_facts.compileAndMerge_cases loader info fileStr s)
          as (_ & _ & _ & [[_ [Htr|Htr]] | (t & _ & Htr & _)]); rewrite Htr
    end.
    + exists []. split; [reflexivity|simpl; lia].
    + eexists [_]. split; [reflexivity|simpl; lia].
    + eexists [_]. split; [reflexivity|simpl; lia].
Qed.

(** X7 on the small instance: the same call is skipped before [Clear]
    and reads the file after it. *)
Lemma Clear_starts_new_generation_witness :
  let info := engine_types.mkInfo "good.html" "views/good.html" in
  let st := fst (template_engine.AddTemplate demo.twoFiles info demo.registered) in
  template_engine.AddTemplate demo.twoFiles info st = (st, Returned None).
Proof.
  intros info st.
  destruct (Clear_starts_new_generation lifetime.EngineGo demo.twoFiles info st)
    as (_ & _ & _ & _ & Hskip & _).
  apply Hskip. eexists. reflexivity.
Defined.

(** X8: when the program starts, only the empty extension has a handler,
    and [path.Ext] keeps the dot of an extension.  So, as long as no
    other templater is registered, that is in every state that calls of
    [AddTemplate], [Clear] and [SetDelims] lead to from the start,
    [AddTemplate] of [engine.go] rejects every readable template of a
    name not yet seen whose path has an extension with the
    ["Template Load Error"], for instance every path that ends in
    [.html]; the Go templater is reached only for paths without an
    extension. *)
Theorem startup_rejects_extensions `{HtmlTemplate}
    (fs : Files) (calls : list generation.Call)
    (info : engine_types.TemplateInfo) (fileStr base : string) :
  generation.noRegistration calls = true ->
  let st := generation.runCalls lifetime.EngineGo calls startup.afterInit in
  (forall ext : string, ext <> EmptyString ->
     engine_types.handlers (engine_types.engine st) !! ext = None)
  /\ (engine_types.seen_paths (engine_types.engine st) !! engine_types.Name info = None ->
      fs (engine_types.InfoPath info) = Some fileStr ->
      GoLib.Ext (engine_types.InfoPath info) <> EmptyString ->
      snd (template_engine.AddTemplate fs info st)
      = Returned (Some (engine_types.noHandlerError (engine_types.InfoPath info)
                          (GoLib.Ext (engine_types.InfoPath info)) fileStr)))
  /\ GoLib.Ext (base +:+ ".html") = ".html".
Proof.
  intros Hreg st.
  assert (Hh : forall ext : string, ext <> EmptyString ->
                 engine_types.handlers (engine_types.engine st) !! ext = None).
  { intros ext Hext. subst st.
    rewrite (generation_facts.runCalls_handlers _ _ _ Hreg).
    cbn [startup.afterInit engine_types.RegisterTemplater engine_types.init
         engine_types.withEngine engine_types.engine engine_types.handlers].
    rewrite lookup_insert_ne by congruence. apply lookup_empty. }
  split; [exact Hh|]. split.
  - intros Hseen Hfs Hext.
    change (template_engine.AddTemplate fs info st)
      with (lifetime.AddTemplateOf lifetime.EngineGo fs info st).
    rewrite engine_facts.AddTemplateOf_eq. cbn [lifetime.seenKey].
    rewrite Hseen, Hfs. cbv zeta. rewrite (Hh _ Hext). reflexivity.
  - apply (ext_facts.Ext_suffix base "html"); reflexivity.
Qed.

(** X8 for the template [views/index.html], asked for after
    [views/about.html] and a [Clear]. *)
Lemma startup_rejects_extensions_witness :
  let files : Files := fun _ => Some "Hello" in
  let st := generation.runCalls lifetime.EngineGo
              [(files, lifetime.OpAddTemplate
                         (engine_types.mkInfo "about.html" "views/about.html"));
               (files, lifetime.OpClear)]
              (@startup.afterInit demo.templates) in
  snd (template_engine.AddTemplate files
         (engine_types.mkInfo "index.html" "views/index.html") st)
  = Returned (Some (EngineErrorPtr
      {| Title := "Template Load Error";
         Path := "views/index.html";
         Description := "No known handler for extension '.html'";
         Line := (-1)%Z;
         SourceLines := ["Hello"] |})).
Proof.
  intros files st.
  apply (proj1 (proj2 (@startup_rejects_extensions demo.templates files
                         [(files, lifetime.OpAddTemplate
                                    (engine_types.mkInfo "about.html" "views/about.html"));
                          (files, lifetime.OpClear)]
                         (engine_types.mkInfo "index.html" "views/index.html")
                         "Hello" "x" eq_refl)));
    [reflexivity|reflexivity|discriminate].
Defined.

(** X9: registrations compose as a map: the last templater registered
    for an extension is the one looked up and replaces the earlier one
    without a trace, registrations for different extensions do not
    disturb each other, and none of them touches [seen_paths], the
    merged set or the delimiters. *)
Theorem RegisterTemplater_last_wins `{HtmlTemplate}
    (ext ext' : string) (l1 l2 : engine_types.TemplateLoader)
    (st : engine_types.State) :
  let st2 := engine_types.RegisterTemplater ext l2
               (engine_types.RegisterTemplater ext l1 st) in
  engine_types.handlers (engine_types.engine st2) !! ext = Some l2
  /\ st2 = engine_types.RegisterTemplater ext l2 st
  /\ (ext <> ext' ->
      engine_types.handlers (engine_types.engine st2) !! ext'
      = engine_types.handlers (engine_types.engine st) !! ext'
      /\ engine_types.RegisterTemplater ext l1
           (engine_types.RegisterTemplater ext' l2 st)
         = engine_types.RegisterTemplater ext' l2
             (engine_types.RegisterTemplater ext l1 st))
  /\ engine_types.seen_paths (engine_types.engine st2)
     = engine_types.seen_paths (engine_types.engine st)
  /\ engine_types.TemplateSet (engine_types.engine st2)
     = engine_types.TemplateSet (engine_types.engine st)
  /\ engine_types.delims (engine_types.engine st2)
     = engine_types.delims (engine_types.engine st).
Proof.
  intros st2. subst st2. unfold engine_types.RegisterTemplater.
  cbn [engine_types.withEngine engine_types.engine engine_types.handlers
       engine_types.seen_paths engine_types.TemplateSet engine_types.delims
       engine_types.trace].
  split; [apply lookup_insert_eq|].
  split; [rewrite insert_insert_eq; reflexivity|].
  split; [|repeat split].
  intros Hne. split.
  - rewrite !lookup_insert_ne by exact Hne. reflexivity.
  - rewrite insert_insert_ne by exact Hne. reflexivity.
Qed.

(** X9 for the extensions [.html] and [.txt]. *)
Lemma RegisterTemplater_last_wins_witness :
  engine_types.handlers
    (engine_types.engine
       (engine_types.RegisterTemplater ".html" revel.GoTemplater
          (engine_types.RegisterTemplater ".html" (fun _ _ _ => Returned (None, None))
             (@engine_types.init demo.templates)))) !! ".txt"
  = None.
Proof.
  destruct (@RegisterTemplater_last_wins demo.templates ".html" ".txt"
              (fun _ _ _ => Returned (None, None)) revel.GoTemplater
              engine_types.init) as (_ & _ & Hother & _).
  destruct Hother as [Hlookup _]; [discriminate|].
  rewrite Hlookup. reflexivity.
Defined.

(** ** The Go templater, continued *)

Module templater_more.
Section WithTemplates.
Context `{HtmlTemplate}.

(** The inner function reads the first two delimiters only. *)
Lemma construct_two_delims (name str l r : string) (rest : list string) :
  templater.construct name str (Some (l :: r :: rest))
  = templater.construct name str (Some [l; r]).
Proof. reflexivity. Qed.

Lemma construct_empty_delims (name str : string) :
  templater.construct name str (Some [EmptyString; EmptyString])
  = templater.construct name str None.
Proof. reflexivity. Qed.

(** With fewer than two delimiters the inner function panics, unless
    [Funcs] has ended it before. *)
Lemma construct_short_delims (name str : string) (ds : list string) (t : Tmpl) :
  (length ds < 2)%nat ->
  Funcs (New name) = Returned t ->
  templater.construct name str (Some ds)
  = (templater.mkResults (Some t) None, Panicked indexPanic).
Proof.
  intros Hlen Hf. unfold templater.construct. rewrite Hf.
  destruct ds as [|l [|r rest]]; [reflexivity|reflexivity|simpl in Hlen; lia].
Qed.

End WithTemplates.
End templater_more.

(** X10: [GoTemplater] never panics, whatever [Funcs] and [Parse] do and
    whatever the delimiters are: every panic of its inner function is
    recovered.  When the inner function ends without a panic, the
    results are the template and the error that [Parse] left. *)
Theorem GoTemplater_never_panics `{HtmlTemplate}
    (name str : string) (delims : option (list string)) (v : PanicValue) :
  revel.GoTemplater name str delims <> Panicked v
  /\ (snd (templater.construct name str delims) = Returned tt ->
      exists t e,
        revel.GoTemplater name str delims = Returned (Some t, e)
        /\ exists t0, Parse t0 str = Returned (t, e)).
Proof.
  unfold revel.GoTemplater, templater.construct. split.
  - destruct (Funcs (New name)) as [t|pv|msg]; cbn; try discriminate.
    destruct delims as [ds|].
    + destruct (ds !! 0%nat), (ds !! 1%nat); cbn; try discriminate;
        destruct (Parse _ str) as [[t' e]|pv|msg]; cbn; discriminate.
    + destruct (Parse _ str) as [[t' e]|pv|msg]; cbn; discriminate.
  - destruct (Funcs (New name)) as [t|pv|msg]; cbn; try discriminate.
    destruct delims as [ds|].
    + destruct (ds !! 0%nat), (ds !! 1%nat); cbn; try discriminate.
      destruct (Parse _ str) as [[t' e]|pv|msg] eqn:Hp; cbn; try discriminate.
      intros _. exists t', e. split; [reflexivity|eauto].
    + destruct (Parse _ str) as [[t' e]|pv|msg] eqn:Hp; cbn; try discriminate.
      intros _. exists t', e. split; [reflexivity|eauto].
Qed.

(** X10 on the small instance, for a text that parses. *)
Lemma GoTemplater_never_panics_witness :
  exists (t : demo.T) (e : option error),
    @revel.GoTemplater demo.templates "a.html" "hello" None = Returned (Some t, e)
    /\ exists t0, demo.parse t0 "hello" = Returned (t, e).
Proof.
  exact (proj2 (@GoTemplater_never_panics demo.templates "a.html" "hello" None
                  indexPanic) eq_refl).
Defined.

(** X11: [GoTemplater] reads the first two delimiters only, and the pair
    of two empty strings, which the engine holds when the program
    starts, gives the same result as no delimiters at all.  With a
    non-nil slice of fewer than two delimiters and a helper table that
    [Funcs] accepts, it returns the unparsed template and a nil error. *)
Theorem GoTemplater_delims `{HtmlTemplate}
    (name str l r : string) (rest short : list string) (t : Tmpl) :
  revel.GoTemplater name str (Some (l :: r :: rest))
  = revel.GoTemplater name str (Some [l; r])
  /\ revel.GoTemplater name str
       (engine_types.delims (engine_types.engine engine_types.init))
     = revel.GoTemplater name str None
  /\ ((length short < 2)%nat -> Funcs (New name) = Returned t ->
      revel.GoTemplater name str (Some short) = Returned (Some t, None)).
Proof.
  split; [|split].
  - unfold revel.GoTemplater. rewrite templater_more.construct_two_delims.
    reflexivity.
  - reflexivity.
  - intros Hlen Hf. unfold revel.GoTemplater.
    rewrite (templater_more.construct_short_delims name str short t Hlen Hf).
    reflexivity.
Qed.

(** X11 on the small instance, for an empty slice of delimiters. *)
Lemma GoTemplater_delims_witness :
  @revel.GoTemplater demo.templates "a.html" "hello" (Some [])
  = Returned (Some (demo.mkT "a.html" []), None).
Proof.
  apply (@GoTemplater_delims demo.templates "a.html" "hello" "" "" [] []
           (demo.mkT "a.html" [])); [simpl; lia|reflexivity].
Defined.

(** X12: [goTemplater] of [go_engine.go] agrees with [GoTemplater] on
    the template and the error whenever it returns, and its third
    result [unrecoverable] tells exactly that a panic was recovered.
    But its deferred function asserts that the recovered value is an
    [error]: a panic with a value of another type escapes from
    [goTemplater], where [GoTemplater] returns. *)
Theorem goTemplater_unrecoverable `{HtmlTemplate}
    (name str : string) (delims : option (list string))
    (t : option Tmpl) (e : option error) (u : bool) (msg : string) :
  (template_engines.goTemplater name str delims = Returned (t, e, u) ->
   revel.GoTemplater name str delims = Returned (t, e)
   /\ (u = true <->
       exists m, snd (templater.construct name str delims) = Panicked (PanicError m)))
  /\ (snd (templater.construct name str delims) = Panicked (PanicOther msg) ->
      template_engines.goTemplater name str delims
      = Panicked (PanicError "interface conversion: interface {} is not error")
      /\ revel.GoTemplater name str delims
         = Returned (templater.tmpl (fst (templater.construct name str delims)),
                     None)).
Proof.
  split.
  - unfold template_engines.goTemplater, revel.GoTemplater.
    destruct (templater.construct name str delims) as [res [[]|[m|m]|m]]; cbn;
      try discriminate.
    + intros [= <- <- <-]. split; [reflexivity|].
      split; [discriminate|]. intros [m Hm]. discriminate Hm.
    + intros [= <- <- <-]. split; [reflexivity|].
      split; [eauto|reflexivity].
  - intros Hp.
    pose proof (templater_facts.construct_panic_err name str delims _ Hp) as Herr.
    unfold template_engines.goTemplater, revel.GoTemplater.
    destruct (templater.construct name str delims) as [res o].
    cbn in Hp, Herr. subst o. cbn. rewrite Herr. split; reflexivity.
Qed.

(** X12 on the instance whose [Funcs] panics with a value that is not an
    [error]. *)
Lemma goTemplater_unrecoverable_witness :
  @template_engines.goTemplater demo_panics.templates "a.html" "hello" None
  = Panicked (PanicError "interface conversion: interface {} is not error").
Proof.
  exact (proj1 (proj2 (@goTemplater_unrecoverable demo_panics.templates
                         "a.html" "hello" None None None false "bad helper")
                  eq_refl)).
Defined.

(** ** Modules of the configuration *)

Module module_facts.
Import GoLib.

Lemma Split_no_sep (s : string) (c : ascii) :
  memByte c s = false -> Split s c = [s].
Proof.
  induction s as [|d s IH]; [reflexivity|].
  cbn [memByte]. intros Hd. apply orb_false_iff in Hd as [Hd Hs].
  cbn [Split]. rewrite Ascii.eqb_sym in Hd. rewrite Hd, (IH Hs). reflexivity.
Qed.

Lemma Split_app_sep (a b : string) (c : ascii) :
  memByte c a = false -> Split (a +:+ String c b) c = a :: Split b c.
Proof.
  induction a as [|d a IH].
  - intros _. rewrite fragment_facts.app_nil. cbn [Split].
    rewrite Ascii.eqb_refl. reflexivity.
  - cbn [memByte]. intros Hd. apply orb_false_iff in Hd as [Hd Ha].
    rewrite fragment_facts.app_cons. cbn [Split].
    rewrite Ascii.eqb_sym in Hd. rewrite Hd, (IH Ha). reflexivity.
Qed.

Lemma Split_length (s : string) (c : ascii) :
  length (Split s c) = S (spec2.count c s).
Proof.
  induction s as [|d s IH]; [reflexivity|].
  cbn [Split spec2.count]. destruct (Ascii.eqb d c).
  - cbn [length]. rewrite IH. reflexivity.
  - destruct (Split s c) as [|w ws]; [discriminate IH|]. exact IH.
Qed.

Lemma count_memByte (s : string) (c : ascii) :
  spec2.count c s = 0%nat <-> memByte c s = false.
Proof.
  induction s as [|d s IH]; [split; reflexivity|].
  cbn [spec2.count memByte]. rewrite (Ascii.eqb_sym c d).
  destruct (Ascii.eqb d c); cbn.
  - split; discriminate.
  - exact IH.
Qed.

Lemma prefix_app (p s : string) :
  String.prefix p s = true -> exists rest, s = p +:+ rest.
Proof.
  revert s. induction p as [|c p IH]; intros s Hp.
  - exists s. reflexivity.
  - destruct s as [|d s]; [discriminate|].
    change (String.prefix (String c p) (String d s))
      with (match ascii_dec c d with
            | left _ => String.prefix p s
            | right _ => false
            end) in Hp.
    destruct (ascii_dec c d) as [->|]; [|discriminate].
    destruct (IH s Hp) as [rest ->]. exists rest. reflexivity.
Qed.

Lemma prefix_app_true (p rest : string) : String.prefix p (p +:+ rest) = true.
Proof.
  induction p as [|c p IH]; [apply fragment_facts.prefix_empty|].
  rewrite fragment_facts.app_cons.
  change (String.prefix (String c p) (String c (p +:+ rest)))
    with (match ascii_dec c c with
          | left _ => String.prefix p (p +:+ rest)
          | right _ => false
          end).
  destruct (ascii_dec c c); [exact IH|congruence].
Qed.

(** The fields of a key that starts with ["template.handler."]. *)
Lemma Split_handler_key (ext : string) :
  Split ("template.handler." +:+ ext) "." = "template" :: "handler" :: Split ext ".".
Proof.
  change ("template.handler." +:+ ext)
    with ("template" +:+ String "." ("handler" +:+ String "." ext)).
  rewrite Split_app_sep by reflexivity.
  rewrite Split_app_sep by reflexivity. reflexivity.
Qed.

Lemma NewModule_key (ext value : string) :
  template_engine_module.NewModule ("template.handler." +:+ ext) value
  = Returned (if memByte "." ext then None
              else Some (template_engine_module.mkModule
                           ("template_" +:+ ext) ("." +:+ ext) value)).
Proof.
  unfold template_engine_module.NewModule, HasPrefix.
  rewrite prefix_app_true, Split_handler_key. cbn [negb].
  destruct (memByte "." ext) eqn:Hdot.
  - pose proof (Split_length ext ".") as Hlen.
    destruct (spec2.count "." ext) eqn:Hc.
    + apply count_memByte in Hc. congruence.
    + destruct (Split ext ".") as [|f [|g fs]]; [discriminate|discriminate|].
      reflexivity.
  - rewrite (Split_no_sep ext "." Hdot). reflexivity.
Qed.

End module_facts.

(** X13: [NewModule] never panics: for a key with the prefix
    ["template.handler."] the field it indexes is always there.  It
    returns nil for a key without that prefix and for a key whose part
    after the prefix holds a dot; otherwise the module has the name
    ["template_<ext>"], the extension [".<ext>"] and the given path,
    also for an empty [<ext>].  That extension is what [path.Ext] gives
    for a path ending in [.<ext>], so it is the key under which
    [AddTemplate] looks up the handler of such a file. *)
Theorem NewModule_result (config_key value ext base : string) (v : PanicValue) :
  template_engine_module.NewModule config_key value <> Panicked v
  /\ (GoLib.HasPrefix config_key "template.handler." = false ->
      template_engine_module.NewModule config_key value = Returned None)
  /\ (config_key = "template.handler." +:+ ext ->
      template_engine_module.NewModule config_key value
      = Returned (if GoLib.memByte "." ext then None
                  else Some (template_engine_module.mkModule
                               ("template_" +:+ ext) ("." +:+ ext) value)))
  /\ (GoLib.memByte "." ext = false -> GoLib.memByte "/" ext = false ->
      GoLib.Ext (base +:+ "." +:+ ext) = "." +:+ ext).
Proof.
  split; [|split; [|split]].
  - destruct (GoLib.HasPrefix config_key "template.handler.") eqn:Hp.
    + destruct (module_facts.prefix_app _ _ Hp) as [rest ->].
      rewrite module_facts.NewModule_key. discriminate.
    + unfold template_engine_module.NewModule. rewrite Hp. discriminate.
  - intros Hp. unfold template_engine_module.NewModule. rewrite Hp. reflexivity.
  - intros ->. apply module_facts.NewModule_key.
  - intros Hdot Hslash. apply (ext_facts.Ext_suffix base ext Hdot Hslash).
Qed.

(** X13 for the key [template.handler.mustache]. *)
Lemma NewModule_result_witness :
  template_engine_module.NewModule "template.handler.mustache" "github.com/x/mustache"
  = Returned (Some (template_engine_module.mkModule
                      "template_mustache" ".mustache" "github.com/x/mustache")).
Proof.
  exact (proj1 (proj2 (proj2 (NewModule_result "template.handler.mustache"
                                "github.com/x/mustache" "mustache" "x" indexPanic)))
           eq_refl).
Defined.

(** ** The helper functions of the templates *)

Module funcs_facts.
Import funcs.

Lemma count_app (c : ascii) (a b : string) :
  spec2.count c (a +:+ b) = (spec2.count c a + spec2.count c b)%nat.
Proof.
  induction a as [|d a IH]; [reflexivity|].
  rewrite fragment_facts.app_cons. cbn [spec2.count]. rewrite IH. lia.
Qed.

(** What [html.EscapeString] writes for a byte holds no quote, no
    apostrophe and no angle bracket. *)
Lemma count_escapeByte (d : ascii) :
  spec2.count quote (escapeByte d) = 0%nat
  /\ spec2.count "<" (escapeByte d) = 0%nat
  /\ spec2.count ">" (escapeByte d) = 0%nat
  /\ spec2.count "'" (escapeByte d) = 0%nat.
Proof. destruct d as [[] [] [] [] [] [] [] []]; repeat split. Qed.

Lemma count_EscapeString (s : string) :
  spec2.count quote (EscapeString s) = 0%nat
  /\ spec2.count "<" (EscapeString s) = 0%nat
  /\ spec2.count ">" (EscapeString s) = 0%nat
  /\ spec2.count "'" (EscapeString s) = 0%nat.
Proof.
  induction s as [|d s (IH1 & IH2 & IH3 & IH4)]; [repeat split|].
  cbn [EscapeString]. rewrite !count_app, IH1, IH2, IH3, IH4.
  destruct (count_escapeByte d) as (-> & -> & -> & ->). repeat split.
Qed.

Lemma count_flag (c : ascii) (b : bool) (word : string) :
  spec2.count c word = 0%nat ->
  spec2.count c (if b then word else EmptyString) = 0%nat.
Proof. destruct b; [intros H; exact H|reflexivity]. Qed.

End funcs_facts.

(** X14: the markup of the helpers ["option"], ["radio"] and
    ["checkbox"] holds exactly the quotes and angle brackets of its
    fixed frame, whatever the value, the label and the field name are:
    [html.EscapeString] leaves none of them in what is filled in, so a
    value cannot end its attribute or open a tag. *)
Theorem form_helpers_escape (flash name val label : string) :
  (spec2.count funcs.quote (funcs.option_ flash val label) = 2%nat
   /\ spec2.count "<" (funcs.option_ flash val label) = 2%nat
   /\ spec2.count ">" (funcs.option_ flash val label) = 2%nat)
  /\ (spec2.count funcs.quote (funcs.radio flash name val) = 6%nat
      /\ spec2.count "<" (funcs.radio flash name val) = 1%nat
      /\ spec2.count ">" (funcs.radio flash name val) = 1%nat)
  /\ (spec2.count funcs.quote (funcs.checkbox flash name val) = 6%nat
      /\ spec2.count "<" (funcs.checkbox flash name val) = 1%nat
      /\ spec2.count ">" (funcs.checkbox flash name val) = 1%nat).
Proof.
  destruct (funcs_facts.count_EscapeString val) as (Hv1 & Hv2 & Hv3 & _).
  destruct (funcs_facts.count_EscapeString label) as (Hl1 & Hl2 & Hl3 & _).
  destruct (funcs_facts.count_EscapeString name) as (Hn1 & Hn2 & Hn3 & _).
  unfold funcs.option_, funcs.radio, funcs.checkbox.
  repeat split; rewrite !funcs_facts.count_app;
    rewrite ?Hv1, ?Hv2, ?Hv3, ?Hl1, ?Hl2, ?Hl3, ?Hn1, ?Hn2, ?Hn3;
    rewrite funcs_facts.count_flag by reflexivity; reflexivity.
Qed.

(** ** Slices that share a backing array *)

Module slice_facts.
Import funcs.

(** Writing behind the elements of a slice adds one element to it. *)
Lemma write_behind (elems : list Value) (o n : nat) (v : Value) :
  (o + n < length elems)%nat ->
  take (S n) (drop o (<[(o + n)%nat := v]> elems))
  = (take n (drop o elems) ++ [v])%list.
Proof.
  intros Hlt. rewrite drop_insert_ge by lia.
  replace (o + n - o)%nat with n by lia.
  rewrite (take_S_r _ n v).
  - rewrite take_insert_ge by lia. reflexivity.
  - apply list_lookup_insert_eq. rewrite length_drop. lia.
Qed.

(** A write at or behind the end of a slice does not show in it. *)
Lemma write_elsewhere (elems : list Value) (o n i : nat) (v : Value) :
  (o + n <= i)%nat ->
  take n (drop o (<[i := v]> elems)) = take n (drop o elems).
Proof.
  intros Hle. rewrite drop_insert_ge by lia. apply take_insert_ge. lia.
Qed.

(** A write inside a slice shows in it. *)
Lemma write_seen (elems : list Value) (o n i : nat) (v : Value) :
  (o <= i < o + n)%nat -> (i < length elems)%nat ->
  take n (drop o (<[i := v]> elems)) !! (i - o)%nat = Some v.
Proof.
  intros Hin Hlt. rewrite lookup_take_lt by lia. rewrite lookup_drop.
  replace (o + (i - o))%nat with i by lia.
  apply list_lookup_insert_eq, Hlt.
Qed.

Lemma length_elements (arrays : Arrays) (s : Slice) :
  inBounds arrays s -> length (elements arrays s) = len s.
Proof.
  intros [H1 H2]. unfold elements. rewrite length_take, length_drop. lia.
Qed.

(** A new array at the next address leaves the slices that are there. *)
Lemma alloc_other (arrays : Arrays) (new : list Value) (s t : Slice) :
  array s = length arrays ->
  inBounds arrays t ->
  elements (arrays ++ [new])%list t = elements arrays t
  /\ inBounds (arrays ++ [new])%list t
  /\ calls.clearOf s t.
Proof.
  intros Hs [H1 H2]. unfold elements, inBounds, calls.clearOf.
  destruct (Nat.lt_ge_cases (array t) (length arrays)) as [Hlt|Hge].
  - rewrite lookup_app_l by exact Hlt. repeat split; try assumption.
    left. lia.
  - rewrite (lookup_ge_None_2 arrays (array t)) in * by exact Hge.
    cbn [from_option id length] in H2.
    replace (len t) with 0%nat by lia. rewrite !take_0.
    repeat split; try lia.
Qed.

Section Append.
Variable growslice : nat -> nat -> nat.

(** One [append]: the slice returned holds the elements and the value,
    and lies within its array. *)
Lemma goAppend_elements (arrays : Arrays) (s : Slice) (value : Value) :
  inBounds arrays s ->
  let r := goAppend growslice arrays s value in
  elements (fst r) (snd r) = (elements arrays s ++ [value])%list
  /\ inBounds (fst r) (snd r).
Proof.
  intros Hin r. pose proof (length_elements arrays s Hin) as Hlen.
  destruct Hin as [H1 H2]. subst r. unfold goAppend.
  destruct (Nat.ltb_spec (len s) (cap s)) as [Hroom|Hfull]; cbn [fst snd].
  - unfold elements, inBounds in *. cbn [array offset len cap].
    rewrite list_lookup_alter_eq.
    destruct (arrays !! array s) as [elems|]; cbn [fmap option_fmap option_map from_option id] in *.
    + rewrite length_insert. split; [apply write_behind; lia|lia].
    + cbn [length] in H2. lia.
  - unfold elements at 1, inBounds. cbn [array offset len cap].
    rewrite list_lookup_middle by reflexivity. cbn [from_option id]. rewrite drop_0.
    unfold newCap. split.
    + rewrite take_app, Hlen, take_ge by lia.
      replace (S (len s) - len s)%nat with 1%nat by lia. reflexivity.
    + rewrite length_app, Hlen. cbn [length]. rewrite length_replicate. lia.
Qed.

(** One [append] leaves the slices that hold nothing where it writes. *)
Lemma goAppend_other (arrays : Arrays) (s t : Slice) (value : Value) :
  inBounds arrays s -> inBounds arrays t -> calls.clearOf s t ->
  let r := goAppend growslice arrays s value in
  elements (fst r) t = elements arrays t
  /\ inBounds (fst r) t
  /\ calls.clearOf (snd r) t.
Proof.
  intros Hs Ht Hclear r. subst r. unfold goAppend.
  destruct (Nat.ltb_spec (len s) (cap s)) as [Hroom|Hfull]; cbn [fst snd].
  - destruct Ht as [T1 T2]. unfold elements, inBounds, calls.clearOf in *.
    cbn [array offset len cap].
    destruct (decide (array t = array s)) as [Heq|Hne].
    + destruct Hclear as [Hc|Hc]; [contradiction|].
      rewrite Heq in *. rewrite list_lookup_alter_eq.
      destruct (arrays !! array s) as [elems|];
        cbn [fmap option_fmap option_map from_option id] in *.
      * rewrite length_insert. rewrite write_elsewhere by lia.
        repeat split; try assumption. right. lia.
      * repeat split; try assumption. right. lia.
    + rewrite list_lookup_alter_ne by congruence.
      repeat split; try assumption. left. exact Hne.
  - apply alloc_other; [reflexivity|exact Ht].
Qed.

(** The helper on a key that holds a [[]interface{}]. *)
Lemma append_slice (arrays : Arrays) (m : gmap string Value) (key : string)
    (s : Slice) (value : Value) :
  m !! key = Some (VSlice s) ->
  append growslice arrays (Some m) key value
  = (fst (goAppend growslice arrays s value),
     Some (<[key := VSlice (snd (goAppend growslice arrays s value))]> m),
     Returned EmptyString).
Proof.
  intros Hk. unfold append, get. rewrite Hk. cbn [from_option id isNil put].
  destruct (goAppend growslice arrays s value). reflexivity.
Qed.

(** The helper on a key that is missing or holds nil. *)
Lemma append_nil (arrays : Arrays) (m : gmap string Value) (key : string)
    (value : Value) :
  get (Some m) key = VNil ->
  append growslice arrays (Some m) key value
  = ((arrays ++ [[value]])%list,
     Some (<[key := VSlice (mkSlice (length arrays) 0 1 1)]> m),
     Returned EmptyString).
Proof. intros Hk. unfold append. rewrite Hk. reflexivity. Qed.

(** The helper called for each of [values] on a key that holds a
    [[]interface{}]. *)
Lemma appendAll_slice (values : list Value) (arrays : Arrays)
    (m : gmap string Value) (key : string) (s : Slice) :
  m !! key = Some (VSlice s) ->
  inBounds arrays s ->
  exists arrays' s',
    calls.appendAll growslice arrays (Some m) key values
    = (arrays', Some (<[key := VSlice s']> m), Returned EmptyString)
    /\ elements arrays' s' = (elements arrays s ++ values)%list
    /\ forall t, inBounds arrays t -> calls.clearOf s t ->
                 elements arrays' t = elements arrays t.
Proof.
  revert arrays m s. induction values as [|value rest IH]; intros arrays m s Hk Hin.
  - exists arrays, s. cbn [calls.appendAll].
    rewrite insert_id by exact Hk. rewrite app_nil_r. repeat split.
  - cbn [calls.appendAll]. rewrite (append_slice arrays m key s value Hk).
    destruct (goAppend_elements arrays s value Hin) as [Hel Hin'].
    destruct (IH (fst (goAppend growslice arrays s value))
                (<[key := VSlice (snd (goAppend growslice arrays s value))]> m)
                (snd (goAppend growslice arrays s value))
                (lookup_insert_eq _ _ _) Hin')
      as (arrays' & s' & Hrun & Hels & Hothers).
    exists arrays', s'. rewrite Hrun, insert_insert_eq, Hels, Hel, <- app_assoc.
    repeat split. intros t Ht Hclear.
    destruct (goAppend_other arrays s t value Hin Ht Hclear) as (Het & Hin_t & Hc).
    rewrite (Hothers t Hin_t Hc). exact Het.
Qed.

(** The helper writes the map at its key only. *)
Lemma append_other_key (arrays : Arrays) (m : gmap string Value)
    (key other : string) (value : Value) :
  key <> other ->
  exists m', snd (fst (append growslice arrays (Some m) key value)) = Some m'
             /\ m' !! other = m !! other.
Proof.
  intros Hne. unfold append, get.
  destruct (m !! key) as [stored|]; cbn [from_option id].
  - destruct stored as [|s|n|n|n|text]; cbn [isNil put];
      try (eexists; split; [reflexivity|]; try reflexivity;
           apply lookup_insert_ne, Hne).
    destruct (goAppend growslice arrays s value).
    eexists; split; [reflexivity|]. apply lookup_insert_ne, Hne.
  - cbn [isNil put]. eexists; split; [reflexivity|]. apply lookup_insert_ne, Hne.
Qed.

Lemma appendAll_other_key (values : list Value) (arrays : Arrays)
    (m : gmap string Value) (key other : string) :
  key <> other ->
  get (snd (fst (calls.appendAll growslice arrays (Some m) key values))) other
  = get (Some m) other.
Proof.
  intros Hne. revert arrays m.
  induction values as [|value rest IH]; intros arrays m; [reflexivity|].
  cbn [calls.appendAll].
  destruct (append_other_key arrays m key other value Hne) as (m' & Hm' & Hsame).
  destruct (append growslice arrays (Some m) key value) as [[arrays1 args1] r].
  cbn [fst snd] in Hm'. subst args1.
  destruct r as [markup|v|msg].
  - rewrite IH. unfold get. rewrite Hsame. reflexivity.
  - cbn [fst snd]. unfold get. rewrite Hsame. reflexivity.
  - cbn [fst snd]. unfold get. rewrite Hsame. reflexivity.
Qed.

End Append.
End slice_facts.

(** X15: calls of the helper ["append"] on one key build up a list in
    the order of the calls, whatever capacities the runtime chooses: on
    a key that holds a [[]interface{}] the values are added behind its
    elements, and on a key that is missing or holds nil the first call
    stores a new slice of one element.  The map changes at that key
    only, and the markup returned is empty.  The slices held elsewhere
    keep their elements if they hold nothing where [append] writes: they
    point into another array or end before the end of the slice at the
    key; but with room in the capacity [append] writes into the shared
    array, and a slice of that array that reaches further shows the
    value appended.  On a key that holds a value of any other type the
    call panics and changes nothing, and on a nil map every call of
    ["append"] and of ["set"] panics. *)
Theorem append_accumulates (growslice : nat -> nat -> nat) (arrays : funcs.Arrays)
    (m : gmap string funcs.Value) (key other : string) (s t : funcs.Slice)
    (first : funcs.Value) (values : list funcs.Value) :
  (m !! key = Some (funcs.VSlice s) -> funcs.inBounds arrays s ->
   exists arrays' s',
     calls.appendAll growslice arrays (Some m) key values
     = (arrays', Some (<[key := funcs.VSlice s']> m), Returned EmptyString)
     /\ funcs.elements arrays' s' = (funcs.elements arrays s ++ values)%list
     /\ forall u, funcs.inBounds arrays u -> calls.clearOf s u ->
                  funcs.elements arrays' u = funcs.elements arrays u)
  /\ (funcs.get (Some m) key = funcs.VNil ->
      exists arrays' s',
        calls.appendAll growslice arrays (Some m) key (first :: values)
        = (arrays', Some (<[key := funcs.VSlice s']> m), Returned EmptyString)
        /\ funcs.elements arrays' s' = first :: values
        /\ forall u, funcs.inBounds arrays u ->
                     funcs.elements arrays' u = funcs.elements arrays u)
  /\ (key <> other ->
      funcs.get (snd (fst (calls.appendAll growslice arrays (Some m) key values))) other
      = funcs.get (Some m) other)
  /\ (m !! key = Some (funcs.VSlice s) -> funcs.inBounds arrays s ->
      (funcs.len s < funcs.cap s)%nat ->
      funcs.array t = funcs.array s ->
      (funcs.offset t <= funcs.offset s + funcs.len s
       < funcs.offset t + funcs.len t)%nat ->
      funcs.elements (fst (fst (funcs.append growslice arrays (Some m) key first))) t
        !! (funcs.offset s + funcs.len s - funcs.offset t)%nat
      = Some first)
  /\ (forall stored, m !! key = Some stored -> stored <> funcs.VNil ->
      (forall u, stored <> funcs.VSlice u) ->
      exists v, funcs.append growslice arrays (Some m) key first
                = (arrays, Some m, Panicked v))
  /\ snd (funcs.append growslice arrays None key first) = Panicked funcs.assignPanic
  /\ snd (fst (funcs.append growslice arrays None key first)) = None
  /\ funcs.set None key first = (None, Panicked funcs.assignPanic).
Proof.
  split; [apply slice_facts.appendAll_slice|].
  split; [|split; [apply slice_facts.appendAll_other_key|split; [|split]]].
  - intros Hnil. cbn [calls.appendAll].
    rewrite (slice_facts.append_nil growslice arrays m key first Hnil).
    set (s1 := funcs.mkSlice (length arrays) 0 1 1).
    assert (Hin1 : funcs.inBounds (arrays ++ [[first]])%list s1).
    { unfold funcs.inBounds. cbn [s1 funcs.array funcs.offset funcs.len funcs.cap].
      rewrite list_lookup_middle by reflexivity. cbn. lia. }
    assert (Hel1 : funcs.elements (arrays ++ [[first]])%list s1 = [first]).
    { unfold funcs.elements. cbn [s1 funcs.array funcs.offset funcs.len funcs.cap].
      rewrite list_lookup_middle by reflexivity. reflexivity. }
    destruct (slice_facts.appendAll_slice growslice values
                (arrays ++ [[first]])%list (<[key := funcs.VSlice s1]> m) key s1
                (lookup_insert_eq _ _ _) Hin1)
      as (arrays' & s' & Hrun & Hels & Hothers).
    exists arrays', s'. rewrite Hrun, insert_insert_eq, Hels, Hel1.
    repeat split. intros u Hu.
    destruct (slice_facts.alloc_other arrays [first] s1 u eq_refl Hu)
      as (Heu & Hinu & Hc).
    rewrite (Hothers u Hinu Hc). exact Heu.
  - intros Hk [H1 H2] Hroom Harr Hreach.
    rewrite (slice_facts.append_slice growslice arrays m key s first Hk).
    cbn [fst]. unfold funcs.goAppend.
    destruct (Nat.ltb_spec (funcs.len s) (funcs.cap s)) as [_|Hfull]; [|lia].
    cbn [fst]. unfold funcs.elements. rewrite Harr, list_lookup_alter_eq.
    destruct (arrays !! funcs.array s) as [elems|];
      cbn [fmap option_fmap option_map from_option id length] in *; [|lia].
    apply slice_facts.write_seen; lia.
  - intros stored Hk Hnil Hslice. unfold funcs.append, funcs.get. rewrite Hk.
    cbn [from_option id].
    destruct stored as [|u|n|n|n|text]; cbn [funcs.isNil]; eauto.
    + contradiction.
    + destruct (Hslice u eq_refl).
  - repeat split.
Qed.

(** X15 with a runtime that doubles the capacity.  Three values on a
    key of an empty map give the list of the three.  And where the keys
    ["head"] and ["all"] hold the first one and the first two elements
    of one array of three, a value appended at ["head"] is the second
    element at ["all"] afterwards. *)
Lemma append_accumulates_witness :
  let double : nat -> nat -> nat := fun old _ => 2 * old in
  let arrays := [[funcs.VInt 1; funcs.VInt 2; funcs.VInt 3]] in
  let head := funcs.mkSlice 0 0 1 3 in
  let all := funcs.mkSlice 0 0 2 3 in
  let m : gmap string funcs.Value :=
    <["head" := funcs.VSlice head]> (<["all" := funcs.VSlice all]> ∅) in
  (exists arrays' s',
     calls.appendAll double [] (Some ∅) "items"
       [funcs.VInt 1; funcs.VOther "two"; funcs.VInt 3]
     = (arrays', Some (<["items" := funcs.VSlice s']> ∅), Returned EmptyString)
     /\ funcs.elements arrays' s' = [funcs.VInt 1; funcs.VOther "two"; funcs.VInt 3])
  /\ funcs.elements
       (fst (fst (funcs.append double arrays (Some m) "head" (funcs.VInt 9)))) all
       !! 1%nat
     = Some (funcs.VInt 9).
Proof.
  intros double arrays head all m. split.
  - destruct (proj1 (proj2 (append_accumulates double [] ∅ "items" "x"
                              (funcs.mkSlice 0 0 0 0) (funcs.mkSlice 0 0 0 0)
                              (funcs.VInt 1) [funcs.VOther "two"; funcs.VInt 3])))
      as (arrays' & s' & Hrun & Hels & _).
    + unfold funcs.get. rewrite lookup_empty. reflexivity.
    + exists arrays', s'. split; [exact Hrun|exact Hels].
  - apply (proj1 (proj2 (proj2 (proj2
             (append_accumulates double arrays m "head" "all" head all
                (funcs.VInt 9) []))))).
    + apply lookup_insert_eq.
    + unfold funcs.inBounds. cbn. lia.
    + cbn. lia.
    + reflexivity.
    + cbn. lia.
Defined.

(** X16: ["pluralize"] gives the singular form exactly for a count of
    one ([0] and negative counts are plural), where the count is an
    [int] or the length of a slice.  The default forms are the empty
    string and ["s"]; one override replaces the singular only, two
    replace both, and with three or more the plural stays ["s"].  A
    value that is neither an [int] nor a slice always gives the
    singular, and a value of a defined type of kind [Int] makes the
    helper panic. *)
Theorem pluralize_forms (items : funcs.Value) (n count : Z)
    (s p x : string) (rest : list string) :
  (calls.countOf items = Some count ->
   funcs.pluralize items [] = Returned (if (count =? 1)%Z then EmptyString else "s")
   /\ funcs.pluralize items [s] = Returned (if (count =? 1)%Z then s else "s")
   /\ funcs.pluralize items [s; p] = Returned (if (count =? 1)%Z then s else p)
   /\ funcs.pluralize items (s :: p :: x :: rest)
      = Returned (if (count =? 1)%Z then s else "s"))
  /\ (calls.countOf items = None ->
      (forall k, items <> funcs.VNamedInt k) ->
      funcs.pluralize items [s; p] = Returned s)
  /\ exists v, funcs.pluralize (funcs.VNamedInt n) [s; p] = Panicked v.
Proof.
  split; [|split].
  - intros Hc.
    assert (Hlen : forall k : nat, (k =? 1)%nat = (Z.of_nat k =? 1)%Z).
    { intros k. destruct (Nat.eqb_spec k 1), (Z.eqb_spec (Z.of_nat k) 1);
        try reflexivity; lia. }
    destruct items as [|elems|m|m|len|text]; try discriminate Hc;
      injection Hc as <-; unfold funcs.pluralize;
      cbn -[Z.eqb Nat.eqb Z.of_nat]; rewrite ?Hlen;
      repeat split; destruct (_ =? 1)%Z; reflexivity.
  - intros Hc Hnot. destruct items as [|elems|m|m|len|text]; try discriminate Hc;
      try reflexivity.
    destruct (Hnot m eq_refl).
  - eexists. reflexivity.
Qed.

(** X16 for a slice of three elements and for the count zero. *)
Lemma pluralize_forms_witness :
  funcs.pluralize (funcs.VOtherSlice 3) ["person"; "people"] = Returned "people"
  /\ funcs.pluralize (funcs.VInt 0) ["person"; "people"; "extra"] = Returned "s".
Proof.
  split.
  - exact (proj1 (proj2 (proj2 (proj1 (pluralize_forms (funcs.VOtherSlice 3) 0 3
                                         "person" "people" "x" []) eq_refl)))).
  - exact (proj2 (proj2 (proj2 (proj1 (pluralize_forms (funcs.VInt 0) 0 0
                                         "person" "people" "extra" []) eq_refl)))).
Defined.

(** ** Walking a tree *)

Module walk_facts.
Import filepath.

(** Induction on a tree, with the entries of a directory. *)
Lemma Node_induction (P : Node -> Prop) :
  (forall name, P (File name)) ->
  (forall name, P (Dir name None)) ->
  (forall name entries, Forall P entries -> P (Dir name (Some entries))) ->
  forall n, P n.
Proof.
  intros HFile HNone HSome.
  fix IH 1. intros [name|name [entries|]].
  - apply HFile.
  - apply HSome. induction entries as [|e entries IHe]; constructor.
    + apply IH.
    + exact IHe.
  - apply HNone.
Qed.

Section Walk.
Context {S : Type}.
Variable walkFn : WalkFunc (S := S).

Lemma walk_File (path name : string) (st : S) :
  walk walkFn path (File name) st
  = match walkFn path (Some (mkFileInfo name false)) false st with
    | (st', Returned r) => (st', Returned r)
    | (st', o) => (st', o)
    end.
Proof.
  cbn [walk infoOf].
  destruct (walkFn path (Some (mkFileInfo name false)) false st)
    as [st' [[[|e]|]|v|msg]]; reflexivity.
Qed.

Lemma walk_Dir (path name : string) (entries : option (list Node)) (st : S) :
  walk walkFn path (Dir name entries) st
  = match walkFn path (Some (mkFileInfo name true)) false st with
    | (st', Returned (Some SkipDir)) => (st', Returned None)
    | (st', Returned (Some err)) => (st', Returned (Some err))
    | (st', Returned None) =>
        match entries with
        | None => walkFn path (Some (mkFileInfo name true)) true st'
        | Some entries => walking.range walkFn path entries st'
        end
    | (st', o) => (st', o)
    end.
Proof.
  cbn [walk infoOf].
  destruct (walkFn path (Some (mkFileInfo name true)) false st)
    as [st' [[[|e]|]|v|msg]]; reflexivity.
Qed.

(** What holds before a walk and is kept by every call of the walk
    function holds after the walk. *)
Lemma walk_invariant (P : S -> Prop) :
  (forall path info err st, P st -> P (fst (walkFn path info err st))) ->
  forall n path st, P st -> P (fst (walk walkFn path n st)).
Proof.
  intros Hfn. induction n as [name|name|name entries IH] using Node_induction;
    intros path st HP.
  - rewrite walk_File. specialize (Hfn path (Some (mkFileInfo name false)) false st HP).
    destruct (walkFn path _ false st) as [st' [r|v|msg]]; exact Hfn.
  - rewrite walk_Dir.
    pose proof (Hfn path (Some (mkFileInfo name true)) false st HP) as H1.
    destruct (walkFn path _ false st) as [st' [[[|e]|]|v|msg]]; cbn in H1 |- *;
      try exact H1.
    apply Hfn, H1.
  - rewrite walk_Dir.
    pose proof (Hfn path (Some (mkFileInfo name true)) false st HP) as H1.
    destruct (walkFn path _ false st) as [st' [[[|e]|]|v|msg]]; cbn in H1 |- *;
      try exact H1.
    clear HP. revert st' H1.
    induction IH as [|e entries He _ IHrange]; intros st' H1; [exact H1|].
    cbn [walking.range].
    specialize (He (Join path (nodeName e)) st' H1).
    destruct (walk walkFn (Join path (nodeName e)) e st')
      as [st'' [[[|err]|]|v|msg]]; cbn in He |- *; try exact He.
    + destruct e; [exact He|apply IHrange, He].
    + destruct e; exact He.
    + apply IHrange, He.
Qed.

Lemma Walk_invariant (P : S -> Prop) (roots : Roots) :
  (forall path info err st, P st -> P (fst (walkFn path info err st))) ->
  forall root st, P st -> P (fst (Walk walkFn roots root st)).
Proof.
  intros Hfn root st HP. unfold Walk.
  destruct (roots root); [apply walk_invariant; assumption|apply Hfn, HP].
Qed.

Lemma walk_no_error :
  walking.onlySkipsDirs walkFn ->
  forall n path st e, snd (walk walkFn path n st) <> Returned (Some e).
Proof.
  intros Hfn. induction n as [name|name|name entries IH] using Node_induction;
    intros path st e.
  - rewrite walk_File.
    pose proof (Hfn path (Some (mkFileInfo name false)) false st) as H1.
    destruct (walkFn path _ false st) as [st' [[err|]|v|msg]]; cbn in *;
      try discriminate.
    destruct (H1 err eq_refl) as (_ & _ & i & [= <-] & Hdir). discriminate Hdir.
  - rewrite walk_Dir.
    pose proof (Hfn path (Some (mkFileInfo name true)) false st) as H1.
    destruct (walkFn path _ false st) as [st' [[[|err]|]|v|msg]]; cbn in *;
      try discriminate.
    + destruct (H1 _ eq_refl) as (Habs & _). discriminate Habs.
    + intros Hsnd.
      destruct (Hfn path (Some (mkFileInfo name true)) true st' e Hsnd)
        as (_ & Habs & _). discriminate Habs.
  - rewrite walk_Dir.
    pose proof (Hfn path (Some (mkFileInfo name true)) false st) as H1.
    destruct (walkFn path _ false st) as [st' [[[|err]|]|v|msg]]; cbn in *;
      try discriminate.
    + destruct (H1 _ eq_refl) as (Habs & _). discriminate Habs.
    + clear H1. revert st'.
      induction IH as [|x entries Hx _ IHrange]; intros st'; [discriminate|].
      cbn [walking.range]. specialize (Hx (Join path (nodeName x)) st').
      destruct (walk walkFn (Join path (nodeName x)) x st')
        as [st'' [[err|]|v|msg]]; cbn in *; try discriminate.
      * destruct (Hx err eq_refl).
      * apply IHrange.
Qed.

Lemma Walk_no_error (roots : Roots) :
  walking.onlySkipsDirs walkFn ->
  forall root st e, snd (Walk walkFn roots root st) <> Returned (Some e).
Proof.
  intros Hfn root st e. unfold Walk. destruct (roots root) as [n|].
  - apply walk_no_error, Hfn.
  - intros Hsnd. destruct (Hfn root None true st e Hsnd) as (_ & Habs & _).
    discriminate Habs.
Qed.

End Walk.
End walk_facts.

(** ** Refresh, continued *)

Module refresh_more.
Import engine_types.
Section WithLibs.
Context `{HtmlTemplate} `{GoLib.Unicode} `{revel.Decls}.
Variable add : TemplateInfo -> State -> State * Outcome (option error).

(** [checkTemplateError] writes [compileError] only, and only when none
    is stored. *)
Lemma checkTemplateError_fields (err : option error) (name : string)
    (loader loader' : revel.TemplateLoader) :
  revel.checkTemplateError err name loader = Returned loader' ->
  revel.templateSet loader' = revel.templateSet loader
  /\ revel.paths loader' = revel.paths loader
  /\ revel.templatePaths loader' = revel.templatePaths loader
  /\ (forall e, revel.compileError loader = Some e ->
                revel.compileError loader' = Some e).
Proof.
  unfold revel.checkTemplateError.
  destruct err as [[r|r|r|msg]|], (revel.compileError loader) as [e0|] eqn:He;
    try (intros [= <-]; repeat split; intros e Hs; congruence).
  destruct (revel.parseTemplateError (RevelErrorPtr r)) as [[[n l] d]|v|msg];
    try discriminate.
  intros [= <-]. repeat split. intros e Hs. congruence.
Qed.

Lemma keeps_refl (w : revel.World) : refresh_words.keeps w w.
Proof. repeat split. intros e He. exact He. Qed.

Lemma keeps_trans (w1 w2 w3 : revel.World) :
  refresh_words.keeps w1 w2 -> refresh_words.keeps w2 w3 ->
  refresh_words.keeps w1 w3.
Proof.
  intros (A1 & A2 & A3 & A4) (B1 & B2 & B3 & B4). repeat split; try congruence.
  intros e He. apply B4, A4, He.
Qed.

Lemma keeps_engine (loader : revel.TemplateLoader) (st st' : State) :
  refresh_words.keeps (loader, st) (loader, st').
Proof. repeat split. intros e He. exact He. Qed.

Lemma keeps_check (err : option error) (name : string)
    (loader loader' : revel.TemplateLoader) (st st' : State) :
  revel.checkTemplateError err name loader = Returned loader' ->
  refresh_words.keeps (loader, st) (loader', st').
Proof. intros Hc. exact (checkTemplateError_fields err name loader loader' Hc). Qed.

(** One call of the walk function of [Refresh]. *)
Lemma visit_keeps (base path : string) (info : option filepath.FileInfo)
    (err : bool) (w : revel.World) :
  refresh_words.keeps w (fst (revel.visit add base path info err w)).
Proof.
  destruct w as [loader st]. unfold revel.visit.
  destruct err; [apply keeps_refl|].
  destruct info as [info|]; [|apply keeps_refl].
  destruct (filepath.IsDir info).
  { destruct (negb (revel.WatchDir info)); apply keeps_refl. }
  destruct (negb (revel.WatchFile (filepath.fiName info))); [apply keeps_refl|].
  destruct (GoLib.sliceFrom path (String.length base + 1)) as [name|];
    [|apply keeps_refl].
  unfold bind, revel.onEngine, revel.onLoader, ret.
  destruct (add (mkInfo name path) st) as [st1 [r1|v|msg]];
    try apply keeps_engine.
  destruct (revel.checkTemplateError r1 name loader) as [l1|v|msg] eqn:Hc1;
    try apply keeps_engine.
  pose proof (keeps_check _ _ _ _ st st1 Hc1) as K1.
  destruct (add (mkInfo (GoLib.ToLower name) path) st1) as [st2 [r2|v|msg]];
    try (eapply keeps_trans; [exact K1|apply keeps_engine]).
  destruct (revel.checkTemplateError r2 (GoLib.ToLower name) l1)
    as [l2|v|msg] eqn:Hc2;
    try (eapply keeps_trans; [exact K1|apply keeps_engine]).
  eapply keeps_trans; [exact K1|]. exact (keeps_check _ _ _ _ st1 st2 Hc2).
Qed.

(** The walk function of [Refresh] returns nil, or [SkipDir] for a
    directory. *)
Lemma visit_onlySkipsDirs (base : string) :
  walking.onlySkipsDirs (revel.visit add base).
Proof.
  intros path info err [loader st] e. unfold revel.visit.
  destruct err; [discriminate|].
  destruct info as [info|]; [|discriminate].
  destruct (filepath.IsDir info) eqn:Hdir.
  { destruct (negb (revel.WatchDir info)); [|discriminate].
    cbn. intros [= <-]. repeat split. eauto. }
  destruct (negb (revel.WatchFile (filepath.fiName info))); [discriminate|].
  destruct (GoLib.sliceFrom path (String.length base + 1)) as [name|];
    [|discriminate].
  unfold bind, revel.onEngine, revel.onLoader, ret.
  destruct (add (mkInfo name path) st) as [st1 [r1|v|msg]]; try discriminate.
  destruct (revel.checkTemplateError r1 name loader) as [l1|v|msg];
    try discriminate.
  destruct (add (mkInfo (GoLib.ToLower name) path) st1) as [st2 [r2|v|msg]];
    try discriminate.
  destruct (revel.checkTemplateError r2 (GoLib.ToLower name) l1)
    as [l2|v|msg]; discriminate.
Qed.

Lemma Walk_keeps (roots : filepath.Roots) (base : string) (w : revel.World) :
  refresh_words.keeps w (fst (filepath.Walk (revel.visit add base) roots base w)).
Proof.
  apply (walk_facts.Walk_invariant (revel.visit add base)
           (fun w' => refresh_words.keeps w w')); [|apply keeps_refl].
  intros path info err w1 K1. eapply keeps_trans; [exact K1|apply visit_keeps].
Qed.

(** The loop over the paths never returns from inside: [filepath.Walk]
    gives [Refresh] no error. *)
Lemma rangePaths_false (roots : filepath.Roots) (ps : list string)
    (w : revel.World) (b : bool) :
  snd (revel.rangePaths add roots ps w) = Returned b -> b = false.
Proof.
  revert w. induction ps as [|base rest IH]; intros w.
  - cbn. intros [= <-]. reflexivity.
  - cbn [revel.rangePaths].
    pose proof (walk_facts.Walk_no_error (revel.visit add base) roots
                  (visit_onlySkipsDirs base) base w) as Hno.
    destruct (filepath.Walk (revel.visit add base) roots base w)
      as [[l st] [[e|]|v|msg]]; cbn in *; try discriminate.
    + destruct (Hno e eq_refl).
    + apply IH.
Qed.

Lemma rangePaths_keeps (roots : filepath.Roots) (ps : list string)
    (w : revel.World) :
  refresh_words.keeps w (fst (revel.rangePaths add roots ps w)).
Proof.
  revert w. induction ps as [|base rest IH]; intros w; [apply keeps_refl|].
  cbn [revel.rangePaths].
  pose proof (walk_facts.Walk_no_error (revel.visit add base) roots
                (visit_onlySkipsDirs base) base w) as Hno.
  pose proof (Walk_keeps roots base w) as K.
  destruct (filepath.Walk (revel.visit add base) roots base w)
    as [[l st] [[e|]|v|msg]]; cbn in *; try exact K.
  - destruct (Hno e eq_refl).
  - eapply keeps_trans; [exact K|apply IH].
Qed.

(** The two ways of [Refresh]: it exits on the delimiters, or it runs
    the loop over the paths from the reset loader. *)
Lemma Refresh_shape (roots : filepath.Roots) (loader : revel.TemplateLoader)
    (st : State) :
  let reset := {| revel.templateSet := revel.templateSet loader;
                  revel.compileError := None;
                  revel.paths := revel.paths loader;
                  revel.templatePaths := ∅ |} in
  let tokens := GoLib.Split revel.TemplateDelims " " in
  (revel.TemplateDelims <> EmptyString /\ length tokens <> 2%nat
   /\ revel.Refresh add roots (loader, st)
      = ((reset, st), Exited "app.conf: Incorrect format for template.delimiters"))
  \/ exists st0,
       ((revel.TemplateDelims = EmptyString /\ st0 = st)
        \/ (revel.TemplateDelims <> EmptyString /\ length tokens = 2%nat
            /\ st0 = withEngine st
                       {| seen_paths := seen_paths (engine st);
                          handlers := handlers (engine st);
                          TemplateSet := TemplateSet (engine st);
                          delims := Some tokens |}))
       /\ revel.Refresh add roots (loader, st)
          = match revel.rangePaths add roots (revel.paths loader) (reset, st0) with
            | ((l, s), Returned true) => ((l, s), Returned (revel.compileError l))
            | ((l, s), Returned false) =>
                (({| revel.templateSet := CompiledTemplates s;
                     revel.compileError := revel.compileError l;
                     revel.paths := revel.paths l;
                     revel.templatePaths := revel.templatePaths l |}, s),
                 Returned (revel.compileError l))
            | (w, Panicked v) => (w, Panicked v)
            | (w, Exited msg) => (w, Exited msg)
            end.
Proof.
  intros reset tokens. subst reset tokens. unfold revel.Refresh.
  destruct (String.eqb_spec revel.TemplateDelims EmptyString) as [Hempty|Hne];
    cbn [negb].
  - right. exists st. split; [left; split; [exact Hempty|reflexivity]|].
    cbv zeta. reflexivity.
  - destruct (Nat.eqb_spec (length (GoLib.Split revel.TemplateDelims " ")) 2)
      as [Hlen|Hlen]; cbn [negb].
    + unfold SetDelims. cbn [sliceLen].
      rewrite (proj2 (Nat.eqb_eq _ _) Hlen). cbn [negb].
      right. eexists. split; [right; split; [exact Hne|split; [exact Hlen|reflexivity]]|].
      cbv zeta. reflexivity.
    + left. split; [exact Hne|]. split; [exact Hlen|reflexivity].
Qed.

End WithLibs.
End refresh_more.

(** X17: [filepath.Walk] never hands an error to [Refresh], because the
    walk function returns nil or, for a directory, [SkipDir]: the
    [return] inside the loop over the paths is never taken.  So when
    [Refresh] returns, it has gone through all its paths, the loader's
    template set is the engine's merged set of that moment, and the
    result is the stored [compileError]. *)
Theorem Refresh_returns_at_the_end `{HtmlTemplate} `{GoLib.Unicode} `{revel.Decls}
    (add : engine_types.TemplateInfo -> engine_types.State ->
           engine_types.State * Outcome (option error))
    (roots : filepath.Roots) (ps : list string) (w w' : revel.World)
    (r : option ErrorRec) (b : bool) :
  (snd (revel.rangePaths add roots ps w) = Returned b -> b = false)
  /\ (revel.Refresh add roots w = (w', Returned r) ->
      revel.templateSet (fst w')
      = engine_types.TemplateSet (engine_types.engine (snd w'))
      /\ r = revel.compileError (fst w')).
Proof.
  split; [apply refresh_more.rangePaths_false|].
  destruct w as [loader st].
  destruct (refresh_more.Refresh_shape add roots loader st)
    as [(_ & _ & ->) | (st0 & _ & ->)]; [discriminate|].
  match goal with
  | |- context [revel.rangePaths add roots ?p ?w0] =>
      pose proof (refresh_more.rangePaths_false add roots p w0) as Hb;
      destruct (revel.rangePaths add roots p w0) as [[l1 st1] [[|]|v|msg]]
  end; cbn in Hb |- *; try discriminate.
  - specialize (Hb true eq_refl). discriminate Hb.
  - intros [= <- <-]. split; reflexivity.
Qed.

Section DemoX17.
#[local] Existing Instance demo.templates.
#[local] Existing Instance demo.unicode.
#[local] Existing Instance demo.decls.

(** X17 on the views of the small instance. *)
Lemma Refresh_returns_at_the_end_witness :
  let result := revel.Refresh (template_engine.AddTemplate demo.twoFiles)
                  demo.twoRoots (demo.views, demo.registered) in
  revel.templateSet (fst (fst result))
  = engine_types.TemplateSet (engine_types.engine (snd (fst result))).
Proof.
  intros result.
  refine (proj1 (proj2 (@Refresh_returns_at_the_end demo.templates demo.unicode
                          demo.decls (template_engine.AddTemplate demo.twoFiles)
                          demo.twoRoots [] (demo.views, demo.registered)
                          (fst result) (revel.compileError (fst (fst result))) false)
                   _)).
  reflexivity.
Defined.

End DemoX17.

(** X18: [Refresh] empties [templatePaths] and no step of the walk ever
    writes it: however [Refresh] ends, the loader's [templatePaths] is
    empty and its [paths] are those it had.  So [Content] of a handle of
    that loader asks [ReadLines] for the empty path, whatever the name
    of the template is. *)
Theorem Refresh_leaves_templatePaths_empty `{HtmlTemplate} `{GoLib.Unicode}
    `{revel.Decls}
    (add : engine_types.TemplateInfo -> engine_types.State ->
           engine_types.State * Outcome (option error))
    (roots : filepath.Roots) (w : revel.World)
    (ReadLines : string -> list string) (handle : revel.GoTemplate) (name : string) :
  let loader' := fst (fst (revel.Refresh add roots w)) in
  revel.templatePaths loader' = ∅
  /\ revel.paths loader' = revel.paths (fst w)
  /\ (revel.loader handle = loader' ->
      NameOf (revel.embedded handle) = Returned name ->
      content.Content ReadLines handle = Returned (ReadLines EmptyString)).
Proof.
  intros loader'.
  assert (Hfields : revel.templatePaths loader' = ∅
                    /\ revel.paths loader' = revel.paths (fst w)).
  { subst loader'. destruct w as [loader st].
    destruct (refresh_more.Refresh_shape add roots loader st)
      as [(_ & _ & ->) | (st0 & _ & ->)]; [split; reflexivity|].
    match goal with
    | |- context [revel.rangePaths add roots ?p ?w0] =>
        pose proof (refresh_more.rangePaths_keeps add roots p w0) as (_ & K2 & K3 & _);
        destruct (revel.rangePaths add roots p w0) as [[l1 st1] [[|]|v|msg]]
    end; cbn in K2, K3 |- *; split; assumption. }
  destruct Hfields as [Hempty Hpaths]. split; [exact Hempty|]. split; [exact Hpaths|].
  intros Hl Hname. unfold content.Content, revel.GoTemplate_Name.
  rewrite Hname, Hl, Hempty, lookup_empty. reflexivity.
Qed.

Section DemoX18.
#[local] Existing Instance demo.templates.
#[local] Existing Instance demo.unicode.
#[local] Existing Instance demo.decls.

(** X18 on the views of the small instance: the content of [good.html]
    is read from the empty path. *)
Lemma Refresh_leaves_templatePaths_empty_witness :
  let result := revel.Refresh (template_engine.AddTemplate demo.twoFiles)
                  demo.twoRoots (demo.views, demo.registered) in
  let handle := revel.mkGoTemplate (Some (demo.mkT "good.html" [("good.html", "fine")]))
                  (fst (fst result)) in
  content.Content (fun path => [path]) handle = Returned [EmptyString].
Proof.
  intros result handle.
  apply (proj2 (proj2 (@Refresh_leaves_templatePaths_empty demo.templates demo.unicode
                         demo.decls (template_engine.AddTemplate demo.twoFiles)
                         demo.twoRoots (demo.views, demo.registered)
                         (fun path => [path]) handle "good.html")));
    reflexivity.
Defined.

End DemoX18.

(** X19: through the whole loop of [Refresh] over its paths, whatever
    the templates are and however the loop ends, a [compileError] that
    is stored is never replaced: the first one wins.  The loop changes
    nothing else of the loader. *)
Theorem rangePaths_first_error_wins `{HtmlTemplate} `{GoLib.Unicode} `{revel.Decls}
    (add : engine_types.TemplateInfo -> engine_types.State ->
           engine_types.State * Outcome (option error))
    (roots : filepath.Roots) (ps : list string) (w : revel.World) (e : ErrorRec) :
  let loader' := fst (fst (revel.rangePaths add roots ps w)) in
  (revel.compileError (fst w) = Some e -> revel.compileError loader' = Some e)
  /\ revel.templateSet loader' = revel.templateSet (fst w)
  /\ revel.paths loader' = revel.paths (fst w)
  /\ revel.templatePaths loader' = revel.templatePaths (fst w).
Proof.
  intros loader'. subst loader'.
  destruct (refresh_more.rangePaths_keeps add roots ps w) as (K1 & K2 & K3 & K4).
  repeat split; try assumption. apply K4.
Qed.

Section DemoX19.
#[local] Existing Instance demo.templates.
#[local] Existing Instance demo.unicode.
#[local] Existing Instance demo.decls.

(** X19 on the views of the small instance, with an error stored before
    the loop. *)
Lemma rangePaths_first_error_wins_witness :
  let e := {| Title := "first"; Path := "x"; Description := "first error";
              Line := 1%Z; SourceLines := [] |} in
  let w := (revel.setCompileError (Some e) demo.views, demo.registered) in
  revel.compileError
    (fst (fst (revel.rangePaths (template_engine.AddTemplate demo.twoFiles)
                 demo.twoRoots ["views"] w)))
  = Some e.
Proof.
  intros e w.
  apply (proj1 (@rangePaths_first_error_wins demo.templates demo.unicode demo.decls
                  (template_engine.AddTemplate demo.twoFiles) demo.twoRoots
                  ["views"] w e)).
  reflexivity.
Defined.

End DemoX19.

(** X20: the walk of [Refresh] prunes hidden entries: for a directory
    whose name starts with a dot the walk function returns [SkipDir], so
    nothing below it is visited, and a file whose name starts with a dot
    is passed over; in both cases the loader and the engine stay as they
    are.  This holds for a root as well: a root directory with such a
    name contributes no template. *)
Theorem walk_skips_hidden `{HtmlTemplate} `{GoLib.Unicode} `{revel.Decls}
    (add : engine_types.TemplateInfo -> engine_types.State ->
           engine_types.State * Outcome (option error))
    (roots : filepath.Roots) (base path : string) (n : filepath.Node)
    (w : revel.World) :
  GoLib.HasPrefix (filepath.nodeName n) "." = true ->
  filepath.walk (revel.visit add base) path n w = (w, Returned None)
  /\ (roots base = Some n ->
      filepath.Walk (revel.visit add base) roots base w = (w, Returned None)).
Proof.
  intros Hdot.
  assert (Hwalk : forall p, filepath.walk (revel.visit add base) p n w
                            = (w, Returned None)).
  { intros p. destruct n as [name|name entries]; cbn in Hdot.
    - rewrite walk_facts.walk_File.
      unfold revel.visit, revel.WatchFile, GoLib.HasPrefix.
      cbn [filepath.IsDir filepath.fiName]. rewrite Hdot. reflexivity.
    - rewrite walk_facts.walk_Dir.
      unfold revel.visit, revel.WatchDir, GoLib.HasPrefix.
      cbn [filepath.IsDir filepath.fiName]. rewrite Hdot. reflexivity. }
  split; [apply Hwalk|].
  intros Hroot. unfold filepath.Walk. rewrite Hroot. apply Hwalk.
Qed.

Section DemoX20.
#[local] Existing Instance demo.templates.
#[local] Existing Instance demo.unicode.
#[local] Existing Instance demo.decls.

(** X20 for a directory [.git] with a file in it. *)
Lemma walk_skips_hidden_witness :
  filepath.walk (revel.visit (template_engine.AddTemplate demo.twoFiles) "views")
    "views/.git" (filepath.Dir ".git" (Some [filepath.File "good.html"]))
    (demo.views, demo.registered)
  = ((demo.views, demo.registered), Returned None).
Proof.
  apply (proj1 (walk_skips_hidden (template_engine.AddTemplate demo.twoFiles)
                  demo.twoRoots "views" "views/.git"
                  (filepath.Dir ".git" (Some [filepath.File "good.html"]))
                  (demo.views, demo.registered) eq_refl)).
Defined.

End DemoX20.

(** X21: a template root that is itself a file, with a name that does
    not start with a dot, makes the walk panic: the name of the template
    is the slice of the path after the root and one more byte, which is
    out of range when the path is the root.  With no custom delimiters,
    [Refresh] of a loader whose first path is such a root panics, and
    the engine has not been touched. *)
Theorem Refresh_root_file_panics `{HtmlTemplate} `{GoLib.Unicode} `{revel.Decls}
    (add : engine_types.TemplateInfo -> engine_types.State ->
           engine_types.State * Outcome (option error))
    (roots : filepath.Roots) (root name : string) (rest : list string)
    (w : revel.World) :
  roots root = Some (filepath.File name) ->
  GoLib.HasPrefix name "." = false ->
  filepath.Walk (revel.visit add root) roots root w = (w, Panicked boundsPanic)
  /\ (revel.TemplateDelims = EmptyString ->
      revel.paths (fst w) = root :: rest ->
      snd (revel.Refresh add roots w) = Panicked boundsPanic
      /\ snd (fst (revel.Refresh add roots w)) = snd w).
Proof.
  intros Hroot Hdot. unfold GoLib.HasPrefix in Hdot.
  assert (HWalk : forall w0, filepath.Walk (revel.visit add root) roots root w0
                             = (w0, Panicked boundsPanic)).
  { intros w0. unfold filepath.Walk. rewrite Hroot, walk_facts.walk_File.
    unfold revel.visit, revel.WatchFile, GoLib.HasPrefix.
    cbn [filepath.IsDir filepath.fiName]. rewrite Hdot. cbn [negb].
    rewrite fragment_more.sliceFrom_beyond. reflexivity. }
  split; [apply HWalk|].
  intros Hdelims Hpaths. destruct w as [loader st]. cbn in Hpaths.
  unfold revel.Refresh. rewrite Hdelims, Hpaths. cbn [String.eqb negb].
  cbv zeta. cbn [revel.paths revel.rangePaths]. rewrite HWalk.
  split; reflexivity.
Qed.

Section DemoX21.
#[local] Existing Instance demo.templates.
#[local] Existing Instance demo.unicode.
#[local] Existing Instance demo.decls.

(** X21 for a root [index] that is a file. *)
Lemma Refresh_root_file_panics_witness :
  snd (revel.Refresh (template_engine.AddTemplate demo.twoFiles)
         (fun _ => Some (filepath.File "index"))
         (revel.NewTemplateLoader ["index"], demo.registered))
  = Panicked boundsPanic.
Proof.
  apply (proj2 (@Refresh_root_file_panics demo.templates demo.unicode demo.decls
                  (template_engine.AddTemplate demo.twoFiles)
                  (fun _ => Some (filepath.File "index")) "index" "index" []
                  (revel.NewTemplateLoader ["index"], demo.registered)
                  eq_refl eq_refl) eq_refl eq_refl).
Defined.

End DemoX21.

(** ** The engine during a Refresh *)

Module refresh_engine.
Import engine_types.

Section Generic.
Context `{HtmlTemplate} `{GoLib.Unicode} `{revel.Decls}.
Variable add : TemplateInfo -> State -> State * Outcome (option error).
Variable Q : State -> Prop.
Hypothesis add_keeps : forall info st, Q st -> Q (fst (add info st)).

(** What [AddTemplate] keeps of the engine, the walk function keeps. *)
Lemma visit_engine (base path : string) (info : option filepath.FileInfo)
    (err : bool) (w : revel.World) :
  Q (snd w) -> Q (snd (fst (revel.visit add base path info err w))).
Proof.
  destruct w as [loader st]. cbn [snd]. intros HQ. unfold revel.visit.
  destruct err; [exact HQ|].
  destruct info as [info|]; [|exact HQ].
  destruct (filepath.IsDir info).
  { destruct (negb (revel.WatchDir info)); exact HQ. }
  destruct (negb (revel.WatchFile (filepath.fiName info))); [exact HQ|].
  destruct (GoLib.sliceFrom path (String.length base + 1)) as [name|];
    [|exact HQ].
  unfold bind, revel.onEngine, revel.onLoader, ret.
  pose proof (add_keeps (mkInfo name path) st HQ) as K1.
  destruct (add (mkInfo name path) st) as [st1 [r1|v|msg]]; try exact K1.
  cbn [fst] in K1.
  destruct (revel.checkTemplateError r1 name loader) as [l1|v|msg]; try exact K1.
  pose proof (add_keeps (mkInfo (GoLib.ToLower name) path) st1 K1) as K2.
  destruct (add (mkInfo (GoLib.ToLower name) path) st1) as [st2 [r2|v|msg]];
    try exact K2.
  cbn [fst] in K2.
  destruct (revel.checkTemplateError r2 (GoLib.ToLower name) l1) as [l2|v|msg];
    exact K2.
Qed.

Lemma rangePaths_engine (roots : filepath.Roots) (ps : list string)
    (w : revel.World) :
  Q (snd w) -> Q (snd (fst (revel.rangePaths add roots ps w))).
Proof.
  revert w. induction ps as [|base rest IH]; intros w HQ; [exact HQ|].
  cbn [revel.rangePaths].
  pose proof (walk_facts.Walk_invariant (revel.visit add base)
                (fun w' => Q (snd w')) roots
                (fun p i e w0 => visit_engine base p i e w0) base w HQ) as K1.
  destruct (filepath.Walk (revel.visit add base) roots base w)
    as [[l st] [[e|]|v|msg]]; cbn in K1 |- *; try exact K1.
  - destruct e as [|[r|r|r|m]]; exact K1.
  - apply IH. exact K1.
Qed.

(** What [AddTemplate] and [SetDelims] keep of the engine, [Refresh]
    keeps. *)
Lemma Refresh_engine (roots : filepath.Roots) (w : revel.World) :
  (forall d st, Q st -> Q (fst (SetDelims d st))) ->
  Q (snd w) -> Q (snd (fst (revel.Refresh add roots w))).
Proof.
  intros Hd HQ. destruct w as [loader st]. cbn [snd] in HQ.
  destruct (refresh_more.Refresh_shape add roots loader st)
    as [(_ & _ & ->) | (st0 & Hst0 & ->)]; [exact HQ|].
  assert (HQ0 : Q st0).
  { destruct Hst0 as [[_ ->] | (_ & Hlen & ->)]; [exact HQ|].
    specialize (Hd (Some (GoLib.Split revel.TemplateDelims " ")) st HQ).
    unfold SetDelims in Hd. cbn [sliceLen] in Hd.
    rewrite (proj2 (Nat.eqb_eq _ _) Hlen) in Hd. exact Hd. }
  match goal with
  | |- context [revel.rangePaths add roots ?p ?w0] =>
      pose proof (rangePaths_engine roots p w0 HQ0) as K1;
      destruct (revel.rangePaths add roots p w0) as [[l1 st1] [[|]|v|msg]]
  end; exact K1.
Qed.

End Generic.

Section WithTemplates.
Context `{HtmlTemplate}.

(** What a call of [AddTemplate] keeps of the engine. *)
Lemma AddTemplateOf_keeps (v : lifetime.Version) (fs : Files)
    (info : TemplateInfo) (st : State) :
  let st' := fst (lifetime.AddTemplateOf v fs info st) in
  handlers (engine st') = handlers (engine st)
  /\ delims (engine st') = delims (engine st)
  /\ (forall k, is_Some (seen_paths (engine st) !! k) ->
                is_Some (seen_paths (engine st') !! k))
  /\ (TemplateSet (engine st) <> None -> TemplateSet (engine st') <> None).
Proof.
  rewrite engine_facts.AddTemplateOf_eq.
  destruct (seen_paths (engine st) !! lifetime.seenKey v info) eqn:Hseen;
    [repeat split; auto|].
  assert (Hins : forall k, is_Some (seen_paths (engine st) !! k) ->
            is_Some (<[lifetime.seenKey v info := InfoPath info]>
                       (seen_paths (engine st)) !! k)).
  { intros k Hk. destruct (decide (lifetime.seenKey v info = k)) as [<-|Hne].
    - rewrite lookup_insert_eq. eauto.
    - rewrite lookup_insert_ne by exact Hne. exact Hk. }
  cbv zeta.
  destruct (fs (InfoPath info)) as [fileStr|]; [|repeat split; auto].
  destruct (handlers (engine st) !! GoLib.Ext (InfoPath info)) as [loader|];
    [|repeat split; auto].
  match goal with
  | |- context [compileAndMerge loader info fileStr ?s] =>
      destruct (engine_facts.compileAndMerge_cases loader info fileStr s)
        as (-> & -> & -> & [[-> _] | (t & _ & _ & ->)])
  end; repeat split; auto; discriminate.
Qed.

End WithTemplates.
End refresh_engine.

(** X22: the delimiter setting of [Refresh].  A non-empty
    [TemplateDelims] that does not hold exactly one space does not split
    into two tokens: [Refresh] then exits before it walks, with the
    engine as it was.  With exactly one space, the two tokens (either
    may be empty) are the engine's delimiters from then on, through all
    the templates of the walk and however [Refresh] ends; with an empty
    setting the engine keeps the delimiters it had. *)
Theorem Refresh_delimiters `{HtmlTemplate} `{GoLib.Unicode} `{revel.Decls}
    (v : lifetime.Version) (fs : Files) (roots : filepath.Roots)
    (w : revel.World) :
  let spaces := spec2.count " " revel.TemplateDelims in
  let result := revel.Refresh (lifetime.AddTemplateOf v fs) roots w in
  (revel.TemplateDelims <> EmptyString -> spaces <> 1%nat ->
   snd result = Exited "app.conf: Incorrect format for template.delimiters"
   /\ snd (fst result) = snd w)
  /\ (spaces = 1%nat ->
      length (GoLib.Split revel.TemplateDelims " ") = 2%nat
      /\ engine_types.delims (engine_types.engine (snd (fst result)))
         = Some (GoLib.Split revel.TemplateDelims " "))
  /\ (revel.TemplateDelims = EmptyString ->
      engine_types.delims (engine_types.engine (snd (fst result)))
      = engine_types.delims (engine_types.engine (snd w))).
Proof.
  intros spaces result. subst spaces result. destruct w as [loader st].
  pose proof (module_facts.Split_length revel.TemplateDelims " ") as Hlen.
  assert (Hkeep : forall d st0,
            engine_types.delims (engine_types.engine st0) = d ->
            engine_types.delims
              (engine_types.engine
                 (snd (fst (revel.rangePaths (lifetime.AddTemplateOf v fs) roots
                              (revel.paths loader)
                              ({| revel.templateSet := revel.templateSet loader;
                                  revel.compileError := None;
                                  revel.paths := revel.paths loader;
                                  revel.templatePaths := ∅ |}, st0))))) = d).
  { intros d st0 Hd.
    apply (refresh_engine.rangePaths_engine (lifetime.AddTemplateOf v fs)
             (fun s => engine_types.delims (engine_types.engine s) = d)); [|exact Hd].
    intros info s Hs.
    destruct (refresh_engine.AddTemplateOf_keeps v fs info s) as (_ & -> & _).
    exact Hs. }
  destruct (refresh_more.Refresh_shape (lifetime.AddTemplateOf v fs) roots loader st)
    as [(Hne & Hbad & ->) | (st0 & Hst0 & ->)].
  - split; [intros _ _; split; reflexivity|].
    split; [intros Hone; rewrite Hone in Hlen; contradiction|].
    intros Hempty. contradiction.
  - match goal with
    | |- context [revel.rangePaths ?a roots ?p ?w0] =>
        pose proof (fun d => Hkeep d st0) as Hk;
        destruct (revel.rangePaths a roots p w0) as [[l1 st1] [[|]|pv|msg]]
    end; cbn [fst snd] in Hk |- *;
    (destruct Hst0 as [[Hempty ->] | (Hne & Htwo & ->)];
     [ split; [intros Hne; contradiction|];
       split; [intros Hone; rewrite Hone in Hlen; rewrite Hempty in Hlen;
               discriminate Hlen|];
       intros _; apply Hk; reflexivity
     | split; [intros _ Hs; rewrite Hlen in Htwo; congruence|];
       split; [intros _; split; [exact Htwo|apply Hk; reflexivity]|];
       intros Hempty; contradiction ]).
Qed.

Section DemoX22.
#[local] Existing Instance demo.templates.
#[local] Existing Instance demo.unicode.

(** X22 for the setting ["[[  ]]"], with two spaces. *)
Lemma Refresh_delimiters_witness :
  snd (@revel.Refresh demo.templates demo.unicode demo_delims.decls
         (template_engine.AddTemplate demo.twoFiles) demo.twoRoots
         (demo.views, demo.registered))
  = Exited "app.conf: Incorrect format for template.delimiters".
Proof.
  apply (proj1 (@Refresh_delimiters demo.templates demo.unicode demo_delims.decls
                  lifetime.EngineGo demo.twoFiles demo.twoRoots
                  (demo.views, demo.registered))); discriminate.
Defined.

End DemoX22.

(** ** Walking a tree a second time *)

Module walk_again.
Import filepath.
Section Again.
Context {S : Type}.
Variables f g : WalkFunc (S := S).
Variable le : S -> S -> Prop.
Hypothesis le_trans : forall a b c, le a b -> le b c -> le a c.
Hypothesis f_grows : forall path info err st, le st (fst (f path info err st)).
(** Once [f] has returned from a call, the same call of [g] in any
    later state changes nothing and returns the same. *)
Hypothesis settled :
  forall path info err st st' r,
    f path info err st = (st', Returned r) ->
    forall st2, le st' st2 -> g path info err st2 = (st2, Returned r).

Hypothesis le_refl : forall a, le a a.

Lemma walk_grows (n : Node) (path : string) (st : S) :
  le st (fst (walk f path n st)).
Proof.
  apply (walk_facts.walk_invariant f (fun s => le st s)); [|apply le_refl].
  intros p i e s Hs. eapply le_trans; [exact Hs|apply f_grows].
Qed.

Lemma range_grows (path : string) (entries : list Node) (st : S) :
  le st (fst (walking.range f path entries st)).
Proof.
  assert (Hgen : forall s, le st s -> le st (fst (walking.range f path entries s))).
  { induction entries as [|e entries IH]; intros s Hs; [exact Hs|].
    cbn [walking.range].
    assert (He : le st (fst (walk f (Join path (nodeName e)) e s)))
      by (eapply le_trans; [exact Hs|apply walk_grows]).
    destruct (walk f (Join path (nodeName e)) e s) as [s1 [[[|err]|]|v|msg]];
      cbn [fst] in He |- *; try exact He.
    - destruct e; [exact He|apply IH, He].
    - destruct e; exact He.
    - apply IH, He. }
  apply Hgen, le_refl.
Qed.

(** A second walk, with [g], from a state later than the end of a walk
    with [f] that returned: it changes nothing and returns the same. *)
Lemma walk_settled (n : Node) :
  forall path st st' r,
    walk f path n st = (st', Returned r) ->
    forall st2, le st' st2 -> walk g path n st2 = (st2, Returned r).
Proof.
  induction n as [name|name|name entries IH] using walk_facts.Node_induction;
    intros path st st' r Hw st2 Hle.
  - rewrite walk_facts.walk_File in Hw |- *.
    destruct (f path (Some (mkFileInfo name false)) false st)
      as [s1 [x|v|msg]] eqn:Hf; try discriminate.
    injection Hw as <- <-.
    rewrite (settled _ _ _ _ _ _ Hf st2 Hle). reflexivity.
  - rewrite walk_facts.walk_Dir in Hw |- *.
    pose proof (f_grows path (Some (mkFileInfo name true)) false st) as Hg1.
    destruct (f path (Some (mkFileInfo name true)) false st)
      as [s1 [[[|err]|]|v|msg]] eqn:Hf; try discriminate; cbn [fst] in Hg1.
    + injection Hw as <- <-.
      rewrite (settled _ _ _ _ _ _ Hf st2 Hle). reflexivity.
    + injection Hw as <- <-.
      rewrite (settled _ _ _ _ _ _ Hf st2 Hle). reflexivity.
    + pose proof (f_grows path (Some (mkFileInfo name true)) true s1) as Hg2.
      rewrite Hw in Hg2. cbn [fst] in Hg2.
      rewrite (settled _ _ _ _ _ _ Hf st2 (le_trans _ _ _ Hg2 Hle)).
      apply (settled _ _ _ _ _ _ Hw st2 Hle).
  - rewrite walk_facts.walk_Dir in Hw |- *.
    destruct (f path (Some (mkFileInfo name true)) false st)
      as [s1 [[[|err]|]|v|msg]] eqn:Hf; try discriminate.
    + injection Hw as <- <-.
      rewrite (settled _ _ _ _ _ _ Hf st2 Hle). reflexivity.
    + injection Hw as <- <-.
      rewrite (settled _ _ _ _ _ _ Hf st2 Hle). reflexivity.
    + pose proof (range_grows path entries s1) as Hg2.
      rewrite Hw in Hg2. cbn [fst] in Hg2.
      rewrite (settled _ _ _ _ _ _ Hf st2 (le_trans _ _ _ Hg2 Hle)).
      clear Hf Hg2 st. revert s1 Hw.
      induction IH as [|e entries He _ IHrange]; intros s1 Hw.
      * cbn in Hw |- *. injection Hw as <- <-. reflexivity.
      * cbn [walking.range] in Hw |- *.
        pose proof (walk_grows e (Join path (nodeName e)) s1) as Hge.
        destruct (walk f (Join path (nodeName e)) e s1)
          as [sa [[err|]|v|msg]] eqn:Hwe; try discriminate; cbn [fst] in Hge.
        -- assert (Hcont : forall rest_result,
                     (match e, err with
                      | Dir _ _, SkipDir => rest_result
                      | _, _ => (sa, Returned (Some err))
                      end) = (st', Returned r) ->
                     (rest_result = (st', Returned r)
                      /\ exists nm en, e = Dir nm en /\ err = SkipDir)
                     \/ (sa = st' /\ r = Some err
                         /\ forall x, (match e, err with
                                       | Dir _ _, SkipDir => x
                                       | _, _ => (st2, Returned (Some err))
                                       end) = (st2, Returned (Some err)))).
           { intros rr Hrr. destruct e as [nm|nm en], err as [|er];
               try (right; injection Hrr as <- <-; repeat split; fail).
             left. split; [exact Hrr|eauto]. }
           destruct (Hcont _ Hw) as [[Hrest (nm & en & -> & ->)] | (<- & -> & Hsame)].
           ++ pose proof (range_grows path entries sa) as Hgr.
              rewrite Hrest in Hgr. cbn [fst] in Hgr.
              rewrite (He _ _ _ _ Hwe st2 (le_trans _ _ _ Hgr Hle)).
              exact (IHrange _ Hrest).
           ++ rewrite (He _ _ _ _ Hwe st2 Hle). apply Hsame.
        -- pose proof (range_grows path entries sa) as Hgr.
           rewrite Hw in Hgr. cbn [fst] in Hgr.
           rewrite (He _ _ _ _ Hwe st2 (le_trans _ _ _ Hgr Hle)).
           exact (IHrange _ Hw).
Qed.

Lemma Walk_settled (roots : Roots) (root : string) (st st' : S)
    (r : option WalkErr) :
  Walk f roots root st = (st', Returned r) ->
  forall st2, le st' st2 -> Walk g roots root st2 = (st2, Returned r).
Proof.
  unfold Walk. destruct (roots root) as [n|].
  - apply walk_settled.
  - apply settled.
Qed.

Lemma Walk_grows (roots : Roots) (root : string) (st : S) :
  le st (fst (Walk f roots root st)).
Proof.
  unfold Walk. destruct (roots root); [apply walk_grows|apply f_grows].
Qed.

End Again.
End walk_again.

(** ** A second Refresh *)

Module refresh_again.
Import engine_types.
Section WithLibs.
Context `{HtmlTemplate} `{GoLib.Unicode} `{revel.Decls}.
Variable v : lifetime.Version.
Variables fs fs' : Files.

Lemma seenGrows_refl (w : revel.World) : refresh_words.seenGrows w w.
Proof. intros k Hk. exact Hk. Qed.

Lemma seenGrows_trans (a b c : revel.World) :
  refresh_words.seenGrows a b -> refresh_words.seenGrows b c ->
  refresh_words.seenGrows a c.
Proof. intros Hab Hbc k Hk. apply Hbc, Hab, Hk. Qed.

Lemma AddTemplateOf_grows (files : Files) (info : TemplateInfo) (st : State) (k : string) :
  is_Some (seen_paths (engine st) !! k) ->
  is_Some (seen_paths (engine (fst (lifetime.AddTemplateOf v files info st))) !! k).
Proof.
  destruct (refresh_engine.AddTemplateOf_keeps v files info st) as (_ & _ & Hs & _).
  apply Hs.
Qed.

(** After a call of [AddTemplate] the key of its template is seen. *)
Lemma AddTemplateOf_seen (files : Files) (info : TemplateInfo) (st : State) :
  is_Some (seen_paths (engine (fst (lifetime.AddTemplateOf v files info st)))
             !! lifetime.seenKey v info).
Proof.
  rewrite engine_facts.AddTemplateOf_eq.
  destruct (seen_paths (engine st) !! lifetime.seenKey v info) as [p|] eqn:Hs.
  - cbn. rewrite Hs. eauto.
  - cbv zeta.
    assert (Hins : is_Some (<[lifetime.seenKey v info := InfoPath info]>
                              (seen_paths (engine st)) !! lifetime.seenKey v info))
      by (rewrite lookup_insert_eq; eauto).
    destruct (files (InfoPath info)) as [fileStr|]; [|exact Hins].
    destruct (handlers (engine st) !! GoLib.Ext (InfoPath info)) as [loader|];
      [|exact Hins].
    match goal with
    | |- context [compileAndMerge loader info fileStr ?s] =>
        destruct (engine_facts.compileAndMerge_cases loader info fileStr s)
          as (-> & _)
    end.
    exact Hins.
Qed.

Lemma AddTemplateOf_skip (files : Files) (info : TemplateInfo) (st : State) :
  is_Some (seen_paths (engine st) !! lifetime.seenKey v info) ->
  lifetime.AddTemplateOf v files info st = (st, Returned None).
Proof.
  intros [p Hp]. rewrite engine_facts.AddTemplateOf_eq, Hp. reflexivity.
Qed.

Lemma visit_grows (base path : string) (info : option filepath.FileInfo)
    (err : bool) (w : revel.World) :
  refresh_words.seenGrows w
    (fst (revel.visit (lifetime.AddTemplateOf v fs) base path info err w)).
Proof.
  intros k Hk.
  apply (refresh_engine.visit_engine (lifetime.AddTemplateOf v fs)
           (fun s => is_Some (seen_paths (engine s) !! k))); [|exact Hk].
  intros info0 st Hs. apply AddTemplateOf_grows, Hs.
Qed.

(** Once the walk function has returned from a call, the same call in
    any state with at least those seen keys, whatever the files now
    hold, changes nothing and returns the same. *)
Lemma visit_settled (base path : string) (info : option filepath.FileInfo)
    (err : bool) (w w' : revel.World) (r : option filepath.WalkErr) :
  revel.visit (lifetime.AddTemplateOf v fs) base path info err w = (w', Returned r) ->
  forall w2, refresh_words.seenGrows w' w2 ->
    revel.visit (lifetime.AddTemplateOf v fs') base path info err w2
    = (w2, Returned r).
Proof.
  destruct w as [loader st]. unfold revel.visit.
  destruct err; [intros [= <- <-] w2 _; reflexivity|].
  destruct info as [info|]; [|discriminate].
  destruct (filepath.IsDir info).
  { destruct (negb (revel.WatchDir info)); intros [= <- <-] w2 _; reflexivity. }
  destruct (negb (revel.WatchFile (filepath.fiName info)));
    [intros [= <- <-] w2 _; reflexivity|].
  destruct (GoLib.sliceFrom path (String.length base + 1)) as [name|];
    [|discriminate].
  unfold bind, revel.onEngine, revel.onLoader, ret.
  pose proof (AddTemplateOf_seen fs (mkInfo name path) st) as S1.
  destruct (lifetime.AddTemplateOf v fs (mkInfo name path) st)
    as [st1 [r1|pv|msg]]; try discriminate.
  cbn [fst] in S1.
  destruct (revel.checkTemplateError r1 name loader) as [l1|pv|msg];
    try discriminate.
  pose proof (AddTemplateOf_seen fs (mkInfo (GoLib.ToLower name) path) st1) as S2.
  pose proof (AddTemplateOf_grows fs (mkInfo (GoLib.ToLower name) path) st1 _ S1)
    as S1'.
  destruct (lifetime.AddTemplateOf v fs (mkInfo (GoLib.ToLower name) path) st1)
    as [st2 [r2|pv|msg]]; try discriminate.
  cbn [fst] in S2, S1'.
  destruct (revel.checkTemplateError r2 (GoLib.ToLower name) l1) as [l2|pv|msg];
    try discriminate.
  intros [= <- <-] [loader2 s2] Hle.
  rewrite (AddTemplateOf_skip fs' (mkInfo name path) s2) by (apply Hle; exact S1').
  cbn [revel.checkTemplateError].
  rewrite (AddTemplateOf_skip fs' (mkInfo (GoLib.ToLower name) path) s2)
    by (apply Hle; exact S2).
  reflexivity.
Qed.

Lemma rangePaths_grows (roots : filepath.Roots) (ps : list string) (w : revel.World) :
  refresh_words.seenGrows w
    (fst (revel.rangePaths (lifetime.AddTemplateOf v fs) roots ps w)).
Proof.
  intros k Hk.
  apply (refresh_engine.rangePaths_engine (lifetime.AddTemplateOf v fs)
           (fun s => is_Some (seen_paths (engine s) !! k))); [|exact Hk].
  intros info0 st Hs. apply AddTemplateOf_grows, Hs.
Qed.

Lemma rangePaths_settled (roots : filepath.Roots) (ps : list string) :
  forall w w' b,
    revel.rangePaths (lifetime.AddTemplateOf v fs) roots ps w = (w', Returned b) ->
    forall w2, refresh_words.seenGrows w' w2 ->
      revel.rangePaths (lifetime.AddTemplateOf v fs') roots ps w2 = (w2, Returned b).
Proof.
  induction ps as [|base rest IH]; intros w w' b Hr w2 Hle.
  - cbn in Hr |- *. injection Hr as <- <-. reflexivity.
  - cbn [revel.rangePaths] in Hr |- *.
    pose proof (walk_facts.Walk_no_error
                  (revel.visit (lifetime.AddTemplateOf v fs) base) roots
                  (refresh_more.visit_onlySkipsDirs _ base) base w) as Hno.
    destruct (filepath.Walk (revel.visit (lifetime.AddTemplateOf v fs) base)
                roots base w) as [[la sa] [[e|]|pv|msg]] eqn:Hw;
      try discriminate.
    + destruct (Hno e eq_refl).
    + pose proof (rangePaths_grows roots rest (la, sa)) as Hg.
      rewrite Hr in Hg. cbn [fst] in Hg.
      rewrite (walk_again.Walk_settled
                 (revel.visit (lifetime.AddTemplateOf v fs) base)
                 (revel.visit (lifetime.AddTemplateOf v fs') base)
                 refresh_words.seenGrows seenGrows_trans
                 (visit_grows base) (visit_settled base) seenGrows_refl
                 roots base w (la, sa) None Hw w2 (seenGrows_trans _ _ _ Hg Hle)).
      destruct w2 as [l2 s2]. exact (IH _ _ _ Hr (l2, s2) Hle).
Qed.

End WithLibs.
End refresh_again.

(** X23: [Refresh] does not call [Clear], so the engine still knows
    every template of the last build.  When a [Refresh] has returned, a
    second [Refresh] of the same loader over the same tree, whatever the
    files hold by then, reads no file and compiles nothing: it leaves
    the engine exactly as it was (seen paths, merged set and record of
    reads and compiles), keeps the loader's template set, and returns
    nil, also when the first [Refresh] returned an error. *)
Theorem Refresh_again_changes_nothing `{HtmlTemplate} `{GoLib.Unicode} `{revel.Decls}
    (v : lifetime.Version) (fs fs' : Files) (roots : filepath.Roots)
    (w w1 : revel.World) (r : option ErrorRec) :
  revel.Refresh (lifetime.AddTemplateOf v fs) roots w = (w1, Returned r) ->
  let second := revel.Refresh (lifetime.AddTemplateOf v fs') roots w1 in
  snd second = Returned None
  /\ snd (fst second) = snd w1
  /\ revel.templateSet (fst (fst second)) = revel.templateSet (fst w1)
  /\ revel.paths (fst (fst second)) = revel.paths (fst w).
Proof.
  destruct w as [loader st].
  destruct (refresh_more.Refresh_shape (lifetime.AddTemplateOf v fs) roots loader st)
    as [(_ & _ & ->) | (st0 & Hst0 & ->)]; [discriminate|].
  set (reset := {| revel.templateSet := revel.templateSet loader;
                   revel.compileError := None;
                   revel.paths := revel.paths loader;
                   revel.templatePaths := ∅ |}) in *.
  pose proof (refresh_more.rangePaths_false (lifetime.AddTemplateOf v fs) roots
                (revel.paths loader) (reset, st0)) as Hb.
  pose proof (refresh_more.rangePaths_keeps (lifetime.AddTemplateOf v fs) roots
                (revel.paths loader) (reset, st0)) as (_ & Kpaths & _).
  pose proof (refresh_engine.rangePaths_engine (lifetime.AddTemplateOf v fs)
                (fun s => engine_types.delims (engine_types.engine s)
                          = engine_types.delims (engine_types.engine st0))
                (fun info s Hs =>
                   eq_trans (proj1 (proj2 (refresh_engine.AddTemplateOf_keeps
                                             v fs info s))) Hs)
                roots (revel.paths loader) (reset, st0) eq_refl) as Kdelims.
  destruct (revel.rangePaths (lifetime.AddTemplateOf v fs) roots
              (revel.paths loader) (reset, st0))
    as [[l1 s1] [[|]|pv|msg]] eqn:Hr; try discriminate.
  { specialize (Hb true eq_refl). discriminate Hb. }
  subst reset. cbn [fst snd revel.paths] in Kpaths, Kdelims.
  intros [= <- <-]. intros second. subst second.
  match goal with
  | |- context [revel.Refresh _ roots (?l, s1)] => set (loader1 := l)
  end.
  destruct (refresh_more.Refresh_shape (lifetime.AddTemplateOf v fs') roots
              loader1 s1) as [(Hne & Hbad & _) | (st0' & Hst0' & ->)].
  { destruct Hst0 as [[Hempty _] | (_ & Htwo & _)]; contradiction. }
  assert (Hsame : st0' = s1).
  { destruct Hst0' as [[_ ->] | (Hne & _ & ->)]; [reflexivity|].
    destruct Hst0 as [[Hempty _] | (_ & _ & ->)]; [contradiction|].
    cbn in Kdelims. destruct s1 as [[sp h ts d] tr]. cbn in Kdelims |- *.
    subst d. reflexivity. }
  subst st0'. subst loader1. cbn [revel.paths revel.templateSet].
  rewrite Kpaths. cbn [revel.paths].
  match goal with
  | |- context [revel.rangePaths _ roots _ ?w2] =>
      rewrite (refresh_again.rangePaths_settled v fs fs' roots (revel.paths loader)
                 _ _ _ Hr w2 (fun k Hk => Hk))
  end.
  repeat split.
Qed.

Section DemoX23.
#[local] Existing Instance demo.templates.
#[local] Existing Instance demo.unicode.
#[local] Existing Instance demo.decls.

(** X23 on the views of the small instance: after a first [Refresh], a
    second one over files that have all become valid still compiles
    nothing. *)
Lemma Refresh_again_changes_nothing_witness :
  let first := revel.Refresh (template_engine.AddTemplate demo.twoFiles)
                 demo.twoRoots (demo.views, demo.registered) in
  let second := revel.Refresh (template_engine.AddTemplate (fun _ => Some "fixed"))
                  demo.twoRoots (fst first) in
  snd second = Returned None /\ snd (fst second) = snd (fst first).
Proof.
  intros first second.
  destruct (@Refresh_again_changes_nothing demo.templates demo.unicode demo.decls
              lifetime.EngineGo demo.twoFiles (fun _ => Some "fixed") demo.twoRoots
              (demo.views, demo.registered) (fst first) None eq_refl)
    as (Hret & Hst & _).
  split; [exact Hret|exact Hst].
Defined.

End DemoX23.

(** X24: the walk function registers a template file under two names:
    when it returns for a file that is not hidden, it returns nil and
    both the name of the file relative to the root and the lower-case
    form of that name are keys of [seen_paths].  For a name that is
    already in lower case the second registration is skipped as seen,
    so the engine is as after the single call of [AddTemplate]. *)
Theorem visit_registers_both_names `{HtmlTemplate} `{GoLib.Unicode} `{revel.Decls}
    (v : lifetime.Version) (fs : Files) (base path name : string)
    (info : filepath.FileInfo) (w w' : revel.World)
    (r : option filepath.WalkErr) :
  filepath.IsDir info = false ->
  GoLib.HasPrefix (filepath.fiName info) "." = false ->
  GoLib.sliceFrom path (String.length base + 1) = Some name ->
  revel.visit (lifetime.AddTemplateOf v fs) base path (Some info) false w
  = (w', Returned r) ->
  let seen := engine_types.seen_paths (engine_types.engine (snd w')) in
  r = None
  /\ is_Some (seen !! lifetime.seenKey v (engine_types.mkInfo name path))
  /\ is_Some (seen !! lifetime.seenKey v
                        (engine_types.mkInfo (GoLib.ToLower name) path))
  /\ (GoLib.ToLower name = name ->
      snd w' = fst (lifetime.AddTemplateOf v fs (engine_types.mkInfo name path)
                      (snd w))).
Proof.
  intros Hfile Hdot Hname. destruct w as [loader st].
  unfold revel.visit, revel.WatchFile. rewrite Hfile, Hdot, Hname. cbn [negb].
  unfold bind, revel.onEngine, revel.onLoader, ret.
  pose proof (refresh_again.AddTemplateOf_seen v fs
                (engine_types.mkInfo name path) st) as S1.
  destruct (lifetime.AddTemplateOf v fs (engine_types.mkInfo name path) st)
    as [st1 [r1|pv|msg]] eqn:Hadd1; try discriminate.
  cbn [fst] in S1.
  destruct (revel.checkTemplateError r1 name loader) as [l1|pv|msg];
    try discriminate.
  pose proof (refresh_again.AddTemplateOf_seen v fs
                (engine_types.mkInfo (GoLib.ToLower name) path) st1) as S2.
  pose proof (refresh_again.AddTemplateOf_grows v fs
                (engine_types.mkInfo (GoLib.ToLower name) path) st1 _ S1) as S1'.
  pose proof (refresh_again.AddTemplateOf_skip v fs
                (engine_types.mkInfo (GoLib.ToLower name) path) st1) as Hskip.
  destruct (lifetime.AddTemplateOf v fs
              (engine_types.mkInfo (GoLib.ToLower name) path) st1)
    as [st2 [r2|pv|msg]]; try discriminate.
  cbn [fst] in S2, S1'.
  destruct (revel.checkTemplateError r2 (GoLib.ToLower name) l1) as [l2|pv|msg];
    try discriminate.
  intros [= <- <-]. cbn [snd fst]. repeat split; try assumption.
  intros Hlow. rewrite Hlow in Hskip. specialize (Hskip S1).
  injection Hskip as <- _. rewrite Hadd1. reflexivity.
Qed.

Section DemoX24.
#[local] Existing Instance demo.templates.
#[local] Existing Instance demo.unicode.
#[local] Existing Instance demo.decls.

(** X24 for the file [views/Good.html]. *)
Lemma visit_registers_both_names_witness :
  let fs : Files := fun _ => Some "fine" in
  let w' := fst (revel.visit (template_engine.AddTemplate fs) "views"
                   "views/Good.html" (Some (filepath.mkFileInfo "Good.html" false))
                   false (demo.views, demo.registered)) in
  is_Some (engine_types.seen_paths (engine_types.engine (snd w')) !! "Good.html")
  /\ is_Some (engine_types.seen_paths (engine_types.engine (snd w')) !! "good.html").
Proof.
  intros fs w'.
  destruct (@visit_registers_both_names demo.templates demo.unicode demo.decls
              lifetime.EngineGo fs "views" "views/Good.html" "Good.html"
              (filepath.mkFileInfo "Good.html" false) (demo.views, demo.registered)
              w' None eq_refl eq_refl eq_refl eq_refl) as (_ & S1 & S2 & _).
  split; [exact S1|exact S2].
Defined.

End DemoX24.

(** X25: the other version of [AddTemplate] records templates under its
    local [templateName], which it assigns only where the path separator
    is a backslash.  Everywhere else that key is the empty string for
    every template: once one call has got past the test of
    [seen_paths], every later call of the build, for whatever name and
    path, returns nil at once and changes nothing, so at most one
    template of a build is read.  Where the separator is a backslash,
    the key is the name with its backslashes turned into slashes. *)
Theorem alt_AddTemplate_key `{HtmlTemplate}
    (sep : ascii) (fs fs' : Files) (info info' : engine_types.TemplateInfo)
    (st : engine_types.State) :
  (Ascii.eqb sep "\" = false ->
   let st1 := fst (template_engine_alt.AddTemplate sep fs info st) in
   template_engine_alt.templateNameOf sep info = EmptyString
   /\ template_engine_alt.AddTemplate sep fs' info' st1 = (st1, Returned None))
  /\ (sep = "\"%char ->
      template_engine_alt.templateNameOf sep info
      = template_engine_alt.toSlash (engine_types.Name info)
      /\ GoLib.memByte "\" (template_engine_alt.templateNameOf sep info) = false).
Proof.
  split.
  - intros Hsep st1. split.
    + unfold template_engine_alt.templateNameOf. rewrite Hsep. reflexivity.
    + apply engine_facts.alt_after_first_call, Hsep.
  - intros ->. split; [reflexivity|].
    unfold template_engine_alt.templateNameOf. cbn [Ascii.eqb Bool.eqb].
    cbn -[template_engine_alt.toSlash GoLib.memByte].
    induction (engine_types.Name info) as [|c s IH]; [reflexivity|].
    cbn [template_engine_alt.toSlash GoLib.mapBytes GoLib.memByte].
    fold (template_engine_alt.toSlash s). rewrite IH.
    destruct (Ascii.eqb c "\") eqn:Hc.
    + reflexivity.
    + rewrite Ascii.eqb_sym, Hc. reflexivity.
Qed.

(** X25 on the small instance, with the slash as path separator: after
    [bad.html], the template [good.html] is not read. *)
Lemma alt_AddTemplate_key_witness :
  let st1 := fst (template_engine_alt.AddTemplate "/" demo.twoFiles
                    (engine_types.mkInfo "bad.html" "views/bad.html")
                    demo.registered) in
  template_engine_alt.AddTemplate "/" demo.twoFiles
    (engine_types.mkInfo "good.html" "views/good.html") st1
  = (st1, Returned None).
Proof.
  intros st1.
  exact (proj2 (proj1 (alt_AddTemplate_key "/" demo.twoFiles demo.twoFiles
                         (engine_types.mkInfo "bad.html" "views/bad.html")
                         (engine_types.mkInfo "good.html" "views/good.html")
                         demo.registered) eq_refl)).
Defined.

(** X26: the first path registered for a name stays for the whole
    build generation: when [AddTemplate] of [engine.go] is called for a
    name that is not seen, [seen_paths] maps the name to the path of
    that call, whatever the call does afterwards; no later call of the
    generation, for this or any other name, changes that entry; and a
    later call for the same name with another path, from another root
    say, leaves the whole state as it is. *)
Theorem AddTemplate_first_path_wins `{HtmlTemplate}
    (fs fs' : Files) (name path path' : string)
    (calls : list generation.Call) (st : engine_types.State) :
  engine_types.seen_paths (engine_types.engine st) !! name = None ->
  generation.sameGeneration calls = true ->
  let st1 := fst (template_engine.AddTemplate fs (engine_types.mkInfo name path) st) in
  let st2 := generation.runCalls lifetime.EngineGo calls st1 in
  let st3 := fst (template_engine.AddTemplate fs' (engine_types.mkInfo name path') st2) in
  engine_types.seen_paths (engine_types.engine st1) !! name = Some path
  /\ engine_types.seen_paths (engine_types.engine st2) !! name = Some path
  /\ st3 = st2
  /\ engine_types.seen_paths (engine_types.engine st3) !! name = Some path.
Proof.
  intros Hseen Hgen st1 st2 st3.
  assert (H1 : engine_types.seen_paths (engine_types.engine st1) !! name = Some path).
  { subst st1.
    destruct (generation_facts.AddTemplateOf_seen_paths lifetime.EngineGo fs
                (engine_types.mkInfo name path) st) as (Hs & _).
    cbn [lifetime.AddTemplateOf lifetime.seenKey engine_types.Name
         engine_types.InfoPath] in Hs.
    rewrite Hs, Hseen. apply lookup_insert_eq. }
  assert (H2 : engine_types.seen_paths (engine_types.engine st2) !! name = Some path)
    by (apply generation_facts.runCalls_seen; assumption).
  assert (H3 : st3 = st2).
  { subst st3.
    change (template_engine.AddTemplate fs' (engine_types.mkInfo name path') st2)
      with (lifetime.AddTemplateOf lifetime.EngineGo fs'
              (engine_types.mkInfo name path') st2).
    rewrite generation_facts.seen_is_skipped; [reflexivity|].
    cbn [lifetime.seenKey engine_types.Name]. rewrite H2. eauto. }
  split; [exact H1|]. split; [exact H2|]. split; [exact H3|].
  rewrite H3. exact H2.
Qed.

(** X26 on the small instance, for two roots that both hold
    [good.html], with [bad.html] compiled in between. *)
Lemma AddTemplate_first_path_wins_witness :
  let st2 := generation.runCalls lifetime.EngineGo
               [(demo.twoFiles, lifetime.OpAddTemplate
                                  (engine_types.mkInfo "bad.html" "views/bad.html"))]
               (fst (template_engine.AddTemplate demo.twoFiles
                       (engine_types.mkInfo "good.html" "views/good.html")
                       demo.registered)) in
  engine_types.seen_paths
    (engine_types.engine
       (fst (template_engine.AddTemplate demo.twoFiles
               (engine_types.mkInfo "good.html" "modules/views/good.html") st2)))
    !! "good.html"
  = Some "views/good.html".
Proof.
  intros st2.
  apply (AddTemplate_first_path_wins demo.twoFiles demo.twoFiles "good.html"
           "views/good.html" "modules/views/good.html"
           [(demo.twoFiles, lifetime.OpAddTemplate
                              (engine_types.mkInfo "bad.html" "views/bad.html"))]
           demo.registered);
    reflexivity.
Defined.

Module pad_facts.
Import funcs.

Lemma count_copies (c : ascii) (s : string) (n : nat) :
  spec2.count c s = 0%nat -> spec2.count c (copies s n) = 0%nat.
Proof.
  intros Hs. induction n as [|n IH]; [reflexivity|].
  cbn [copies]. rewrite funcs_facts.count_app, Hs, IH. reflexivity.
Qed.

Lemma length_copies (s : string) (n : nat) :
  String.length (copies s n) = (n * String.length s)%nat.
Proof.
  induction n as [|n IH]; [reflexivity|].
  cbn [copies]. rewrite fragment_facts.length_app, IH. lia.
Qed.

(** [strings.Repeat] returns exactly for a count that is not negative
    and a length that is an [int]. *)
Lemma Repeat_cases (s : string) (count : Z) :
  ((count < 0)%Z -> Repeat s count = Panicked repeatNegative)
  /\ ((0 <= count)%Z -> (Z.of_nat (String.length s) * count > GoLib.maxInt)%Z ->
      Repeat s count = Panicked repeatOverflow)
  /\ ((0 <= count)%Z -> (Z.of_nat (String.length s) * count <= GoLib.maxInt)%Z ->
      Repeat s count = Returned (copies s (Z.to_nat count))).
Proof.
  unfold Repeat. set (total := (Z.of_nat (String.length s) * count)%Z).
  destruct (Z.ltb_spec count 0) as [Hneg|Hpos];
    destruct (Z.gtb_spec total GoLib.maxInt) as [Hover|Hfits];
    (split; [|split]); intros; try reflexivity; exfalso; lia.
Qed.

End pad_facts.

(** X27: the helper ["pad"], for a width that is an [int].  For a width
    that is not more than the number of bytes of the string (before
    escaping), also zero or negative, the markup is the escaped string.
    Otherwise [width - len(str)] copies of [&nbsp;] follow it, as long
    as their six bytes each make a length that is an [int]; beyond that
    [strings.Repeat] panics, and so does the helper.  The helper never
    asks for a negative number of copies.  Markup that is returned has
    the length of the escaped string and the copies, and holds no quote
    and no angle bracket. *)
Theorem pad_output (str : string) (width : Z) :
  (GoLib.minInt <= width <= GoLib.maxInt)%Z ->
  let missing := (width - Z.of_nat (String.length str))%Z in
  ((missing <= 0)%Z -> funcs.pad str width = Returned (funcs.EscapeString str))
  /\ ((0 < missing)%Z -> (6 * missing <= GoLib.maxInt)%Z ->
      funcs.pad str width
      = Returned (funcs.EscapeString str
                  +:+ funcs.copies "&nbsp;" (Z.to_nat missing)))
  /\ ((6 * missing > GoLib.maxInt)%Z ->
      funcs.pad str width = Panicked funcs.repeatOverflow)
  /\ funcs.pad str width <> Panicked funcs.repeatNegative
  /\ (forall markup : string, funcs.pad str width = Returned markup ->
      String.length markup
      = (String.length (funcs.EscapeString str) + 6 * Z.to_nat missing)%nat
      /\ spec2.count funcs.quote markup = 0%nat
      /\ spec2.count "<" markup = 0%nat
      /\ spec2.count ">" markup = 0%nat).
Proof.
  intros Hwidth missing.
  destruct (pad_facts.Repeat_cases "&nbsp;" missing) as (_ & Hover & Hfits).
  change (Z.of_nat (String.length "&nbsp;")) with 6%Z in Hover, Hfits.
  assert (Hsmall : (missing <= 0)%Z ->
                   funcs.pad str width = Returned (funcs.EscapeString str)).
  { intros Hle. unfold funcs.pad.
    destruct (Z.geb_spec (Z.of_nat (String.length str)) width); [reflexivity|].
    subst missing. lia. }
  assert (Hpad : (0 < missing)%Z ->
                 funcs.pad str width
                 = match funcs.Repeat "&nbsp;" missing with
                   | Returned spaces => Returned (funcs.EscapeString str +:+ spaces)
                   | Panicked v => Panicked v
                   | Exited msg => Exited msg
                   end).
  { intros Hlt. unfold funcs.pad.
    destruct (Z.geb_spec (Z.of_nat (String.length str)) width); [|reflexivity].
    subst missing. lia. }
  destruct (funcs_facts.count_EscapeString str) as (E1 & E2 & E3 & _).
  split; [exact Hsmall|]. split; [|split; [|split]].
  - intros Hlt Hle. rewrite (Hpad Hlt), Hfits by lia. reflexivity.
  - intros Hgt.
    assert (Hlt : (0 < missing)%Z) by (unfold GoLib.maxInt in Hgt; lia).
    rewrite (Hpad Hlt). rewrite Hover by lia. reflexivity.
  - destruct (Z.le_gt_cases missing 0) as [Hle|Hlt].
    + rewrite (Hsmall Hle). discriminate.
    + rewrite (Hpad Hlt).
      destruct (Z.le_gt_cases (6 * missing) GoLib.maxInt) as [Hfit|Hbig].
      * rewrite Hfits by lia. discriminate.
      * rewrite Hover by lia. discriminate.
  - intros markup. destruct (Z.le_gt_cases missing 0) as [Hle|Hlt].
    + rewrite (Hsmall Hle). intros [= <-].
      replace (Z.to_nat missing) with 0%nat by lia.
      rewrite E1, E2, E3. repeat split. lia.
    + rewrite (Hpad Hlt).
      destruct (Z.le_gt_cases (6 * missing) GoLib.maxInt) as [Hfit|Hbig].
      * rewrite Hfits by lia. intros [= <-].
        rewrite fragment_facts.length_app, pad_facts.length_copies.
        rewrite !funcs_facts.count_app, E1, E2, E3.
        rewrite !pad_facts.count_copies by reflexivity.
        repeat split. cbn [String.length]. lia.
      * rewrite Hover by lia. discriminate.
Qed.

(** X27 for a string of three bytes, one of which is escaped, and the
    width five. *)
Lemma pad_output_witness :
  funcs.pad "a<b" 5 = Returned "a&lt;b&nbsp;&nbsp;".
Proof.
  apply (proj1 (proj2 (pad_output "a<b" 5 ltac:(unfold GoLib.minInt, GoLib.maxInt; lia))));
    [reflexivity|unfold GoLib.maxInt; cbn; lia].
Defined.
